(** * Teacher views of the school-management application

    A shallow embedding of [teachers/views.py]: the attendance statistics
    calculator, the mark/CIE aggregation of [view_students], the free-slot
    finder, the timetable grid and the request handlers that read and write
    exam sessions, marks and attendance.

    Conventions of the embedding
    - a database table is the list of its rows, a queryset is the list of
      rows it yields;
    - a view is a function of the request and the database to a
      [ViewResult]: the database after the request, the flash messages it
      queued and the response (or the exception that escaped the view);
    - a Python float is a binary64 number and is modelled by the rational
      it denotes ([Q]): true division, the product by 100 and [round]
      round their exact result to binary64 ([binary64], nearest, ties to
      even); integers are unbounded ([Z]);
    - constants of [utils.constant] and the helpers of Django that the views
      call are variables of the section [Views]. *)

From Stdlib Require Import ZArith QArith Qround Qabs Qpower Lqa Ascii.
From Stdlib Require Floats.SpecFloat.
From stdpp Require Import gmap strings list.

Open Scope Z_scope.

(** ** Data model *)

(** Modelled from the spec: the models of [teachers.models] and
    [students.models] are not part of the source; the records below carry the
    columns the views read and write (spec, section 3).  Foreign keys hold the
    primary key of the referenced row. *)
Record date := mkdate { year : Z; month : Z; day_of_month : Z }.

#[export] Instance date_eq_dec : EqDecision date.
Proof. solve_decision. Defined.

Module Teacher.
Record t := mk { id : Z; user : option Z; name : string }.
End Teacher.

Module Student.
Record t := mk { USN : string; name : string; class_id : Z }.
End Student.

Module Assign.
Record t := mk { id : Z; class_id : Z; subject : Z; teacher : Z;
                 academic_year : string; semester : Z }.
End Assign.

Module AssignTime.
Record t := mk { id : Z; assign : Z; period : string; day : string }.
End AssignTime.

Module ExamSession.
Record t := mk { id : Z; assign : Z; name : string; status : bool }.
End ExamSession.

Module AttendanceClass.
Record t := mk { id : Z; assign : Z; date_ : date; status : Z }.
End AttendanceClass.

Module Attendance.
Record t := mk { id : Z; student : string; subject : Z; attendanceclass : Z;
                 date_ : date; status : bool }.
End Attendance.

Module StudentSubject.
Record t := mk { id : Z; student : string; subject : Z }.
End StudentSubject.

Module Marks.
Record t := mk { id : Z; studentsubject : Z; name : string; marks1 : Z }.
End Marks.

Record Database := mkDatabase {
  Teacher_objects : list Teacher.t;
  Student_objects : list Student.t;
  Assign_objects : list Assign.t;
  AssignTime_objects : list AssignTime.t;
  ExamSession_objects : list ExamSession.t;
  AttendanceClass_objects : list AttendanceClass.t;
  Attendance_objects : list Attendance.t;
  StudentSubject_objects : list StudentSubject.t;
  Marks_objects : list Marks.t
}.

Definition set_ExamSession_objects (rows : list ExamSession.t) (db : Database) : Database :=
  mkDatabase (Teacher_objects db) (Student_objects db) (Assign_objects db)
    (AssignTime_objects db) rows (AttendanceClass_objects db)
    (Attendance_objects db) (StudentSubject_objects db) (Marks_objects db).

Definition set_AttendanceClass_objects (rows : list AttendanceClass.t) (db : Database) : Database :=
  mkDatabase (Teacher_objects db) (Student_objects db) (Assign_objects db)
    (AssignTime_objects db) (ExamSession_objects db) rows
    (Attendance_objects db) (StudentSubject_objects db) (Marks_objects db).

Definition set_Attendance_objects (rows : list Attendance.t) (db : Database) : Database :=
  mkDatabase (Teacher_objects db) (Student_objects db) (Assign_objects db)
    (AssignTime_objects db) (ExamSession_objects db) (AttendanceClass_objects db)
    rows (StudentSubject_objects db) (Marks_objects db).

Definition set_Marks_objects (rows : list Marks.t) (db : Database) : Database :=
  mkDatabase (Teacher_objects db) (Student_objects db) (Assign_objects db)
    (AssignTime_objects db) (ExamSession_objects db) (AttendanceClass_objects db)
    (Attendance_objects db) (StudentSubject_objects db) rows.

(** ** Exceptions and the ORM calls the views use *)

Inductive exn :=
| Http404
| DoesNotExist
| MultipleObjectsReturned
| ValueError
| TypeError
| ZeroDivisionError
| OverflowError.

Inductive result (A : Type) :=
| Ok (a : A)
| Raise (e : exn).

Arguments Ok {A} a.
Arguments Raise {A} e.

#[export] Instance result_ret : MRet result := fun A a => Ok a.

#[export] Instance result_bind : MBind result := fun A B k m =>
  match m with
  | Ok a => k a
  | Raise e => Raise e
  end.

(** [queryset.count()] *)
Definition count {A : Type} (queryset : list A) : Z := Z.of_nat (length queryset).

(** [queryset.exists()] *)
Definition exists_ {A : Type} (queryset : list A) : bool :=
  match queryset with
  | [] => false
  | _ :: _ => true
  end.

(** [queryset.first()] *)
Definition first {A : Type} (queryset : list A) : option A := head queryset.

(** [Model.objects.get(...)] on the rows that satisfy the lookup. *)
Definition get {A : Type} (matching : list A) : result A :=
  match matching with
  | [] => Raise DoesNotExist
  | [row] => Ok row
  | _ :: _ :: _ => Raise MultipleObjectsReturned
  end.

(** [get_object_or_404(Model, ...)]: [get], with [DoesNotExist] turned into
    [Http404]. *)
Definition get_object_or_404 {A : Type} (matching : list A) : result A :=
  match get matching with
  | Raise DoesNotExist => Raise Http404
  | r => r
  end.

(** The primary key the database gives to a new row. *)
Definition next_id (ids : list Z) : Z := 1 + foldr Z.max 0 ids.

(** ** Requests, messages and responses *)

Record HttpRequest := mkRequest {
  user : option Z;          (* [request.user]: [None] is the anonymous user *)
  is_teacher : bool;        (* flags of [request.user] *)
  is_staff : bool;
  is_superuser : bool;
  method : string;
  GET : gmap string string;
  POST : gmap string string
}.

Inductive level := error | warning | success.

(** The texts handed to [django.contrib.messages], by message id. *)
Inductive text :=
| no_permission_for_assignment
| exam_created (exam_name : string)
| exam_already_exists (exam_name : string)
| exam_creation_failed (e : exn)
| exam_name_required
| invalid_date_format
| attendance_recorded
| TIMETABLE_ACCESS_DENIED_MESSAGE
| FREE_TEACHERS_NO_AVAILABLE_TEACHERS_MESSAGE
| teacher_credentials_required
| teacher_profile_not_found.

Definition message : Type := level * text.

(** What a template is rendered with.  One constructor per template; the
    fields are the entries of the view's [context] dictionary that come from
    the modelled tables (display-only entries read from the class,
    department and subject rows are left out). *)
Record AttendanceStatistics := mkStatistics {
  total_students : Z;
  present_students : Z;
  absent_students : Z;
  attendance_percentage : Q
}.

Record MarksEntryRow := mkMarksEntryRow {
  mer_student : Student.t;
  current_mark : Z;
  mer_is_registered : bool
}.

Record StudentData := mkStudentData {
  sd_student : Student.t;
  sd_marks : list Marks.t;
  total_marks : Z;
  sd_attendance_percentage : Q;
  cie_score : Z;
  total_classes : Z;
  attended_classes : Z;
  is_registered : bool
}.

Record Cell := mkCell { cell_subject : Z; cell_teacher : Z; cell_assignment : Assign.t }.

Inductive context :=
| t_homepage_context (teacher : Teacher.t)
| t_marks_list_context (assignment : Assign.t) (m_list : list ExamSession.t)
    (total_exams completed_exams pending_exams : Z)
| t_marks_entry_context (ass : Assign.t) (mc : ExamSession.t) (students_total : Z)
    (students_page : list MarksEntryRow) (is_edit_mode : bool)
| free_teachers_context (ft_list : list Teacher.t) (required_subject : Z)
    (assignment_time : AssignTime.t) (teachers_without_knowledge : list Teacher.t)
    (total_teachers_checked available_teachers_count : Z)
| t_class_date_context (assign : Assign.t)
    (att_list : list (AttendanceClass.t * AttendanceStatistics))
    (selected_assc : option AttendanceClass.t) (has_students : bool)
    (students : list Student.t) (teacher_name : string)
| t_attendance_context (ass : Assign.t) (assc : AttendanceClass.t)
    (students : list Student.t) (total_students_in_class : Z) (teacher_name : string)
| t_edit_att_context (assc : AttendanceClass.t) (att_list : list Attendance.t)
    (assign : Assign.t) (total present absent : Z)
| t_view_att_context (assc : AttendanceClass.t) (att_list : list Attendance.t)
    (assign : Assign.t) (stats : AttendanceStatistics) (teacher_name : string)
| t_report_context (sc_list : list StudentSubject.t) (assignment : Assign.t)
    (good_attendance_count good_cie_count need_support_count pass_rate : Z)
| t_view_students_context (assignment : Assign.t) (students_page : list StudentData)
    (students_total : Z)
| t_timetable_context (teacher : Teacher.t)
    (timetable : gmap string (gmap string (option Cell)))
    (days time_slots : list string).

Inductive HttpResponse :=
| render (template_name : string) (ctx : context)
| redirect (to : string) (args : list Z)
| redirect_to_login.

Record ViewResult := mkViewResult {
  database : Database;
  messages : list message;
  response : result HttpResponse
}.

(** An exception that leaves the view: nothing was committed, no message. *)
Definition raised (db : Database) (e : exn) : ViewResult :=
  mkViewResult db [] (Raise e).

(** [@login_required]: an anonymous request is sent to the login page. *)
Definition login_required {A : Type}
    (view : HttpRequest -> A -> Database -> ViewResult)
    (request : HttpRequest) (arg : A) (db : Database) : ViewResult :=
  match user request with
  | None => mkViewResult db [] (Ok redirect_to_login)
  | Some _ => view request arg db
  end.

(** ** Python arithmetic *)

(** [sum(iterable)] over integers. *)
Definition sum (l : list Z) : Z := fold_left Z.add l 0.

(** [l[:stop]] *)
Definition slice_to {A : Type} (l : list A) (stop : Z) : list A :=
  if stop <? 0 then take (Z.to_nat (count l + stop)) l
  else take (Z.to_nat stop) l.

(** Rounding to the nearest integer, a tie going to the even neighbour. *)
Definition round_half_even (x : Q) : Z :=
  let f := Qfloor x in
  match (x - inject_Z f ?= 1 # 2)%Q with
  | Lt => f
  | Gt => f + 1
  | Eq => if Z.even f then f else f + 1
  end.

(** *** Floats

    The floats of the views are finite binary64 numbers; a float is
    modelled by the rational it denotes.  An operation on floats returns
    its exact result rounded to binary64. *)

(** The exponent [e] of the binade of a positive rational:
    [2^e <= q < 2^(e+1)]. *)
Definition binade (q : Q) : Z :=
  let k := Z.log2 (Qnum q) - Z.log2 (Zpos (Qden q)) in
  if Qle_bool (2 ^ k) q then k else k - 1.

(** Rounding of a rational to binary64: to the nearest multiple of the unit
    in the last place of its binade (53 bits of significand, the exponent
    not below -1022, which gives the subnormal numbers), a tie going to the
    even significand. *)
Definition binary64 (q : Q) : Q :=
  if Qeq_bool q 0 then 0%Q
  else
    let e := Z.max (binade (Qabs q)) (-1022) in
    Qred (inject_Z (round_half_even (q * 2 ^ (52 - e))) * 2 ^ (e - 52)).

(** The float [a / b] of two integers, where the division is defined: the
    exact quotient rounded to binary64. *)
Definition int_true_divide (a b : Z) : Q := binary64 (inject_Z a / inject_Z b).

(** [a / b] on integers (true division): [ZeroDivisionError] for a zero
    divisor, [OverflowError] when the rounded quotient is [2^1024] or more
    in absolute value. *)
Definition truediv (a b : Z) : result Q :=
  if b =? 0 then Raise ZeroDivisionError
  else
    let q := int_true_divide a b in
    if Qle_bool (2 ^ 1024) (Qabs q) then Raise OverflowError else Ok q.

(** [x * y] on floats (an integer operand is converted first: the views
    multiply by 100, which is a float).  The product of the views is a
    share of a whole times 100, far from the overflow to infinity, which a
    rational does not represent. *)
Definition fmul (x y : Q) : Q := binary64 (x * y).

(** [math.ceil] of a float. *)
Definition ceil (x : Q) : Z := Qceiling x.

(** [round(x, ndigits)] of a float: the decimal with [ndigits] digits
    nearest to the value of [x] (a tie going to the even last digit), as
    the float nearest to that decimal. *)
Definition round (x : Q) (ndigits : nat) : Q :=
  let p := inject_Z (10 ^ Z.of_nat ndigits) in
  binary64 (inject_Z (round_half_even (x * p)) / p).

(** ** Attendance statistics *)

(** The division is guarded by [total_students > 0] and divides a part by
    the whole: [truediv] raises neither [ZeroDivisionError] nor
    [OverflowError] there and returns [int_true_divide]. *)
Definition _calculate_attendance_statistics
    (attendance_queryset : list Attendance.t) : AttendanceStatistics :=
  let total_students := count attendance_queryset in
  let present_students :=
    count (filter (fun a => Attendance.status a = true) attendance_queryset) in
  let absent_students := total_students - present_students in
  let attendance_percentage :=
    if 0 <? total_students
    then round (fmul (int_true_divide present_students total_students) 100) 1
    else 0%Q in
  mkStatistics total_students present_students absent_students attendance_percentage.

(** ** Sample configuration

    One configuration of the constants and helpers the views are
    parameterised by, and the data of the worked examples. *)

Definition digit_of (c : ascii) : option Z :=
  let n := Z.of_nat (nat_of_ascii c) in
  if (48 <=? n) && (n <=? 57) then Some (n - 48) else None.

Fixpoint digits_value (acc : Z) (s : string) : option Z :=
  match s with
  | EmptyString => Some acc
  | String c rest =>
      match digit_of c with
      | Some d => digits_value (10 * acc + d) rest
      | None => None
      end
  end.

(** A conversion of decimal numerals, without sign or blanks. *)
Definition sample_int (s : string) : option Z :=
  match s with
  | EmptyString => None
  | _ => digits_value 0 s
  end.

(** A parser of dates written [YYYY-MM-DD]. *)
Definition sample_strptime (s : string) : option date :=
  if bool_decide (String.length s = 10%nat)
     && bool_decide (String.get 4 s = Some "-"%char)
     && bool_decide (String.get 7 s = Some "-"%char)
  then
    match sample_int (String.substring 0 4 s),
          sample_int (String.substring 5 2 s),
          sample_int (String.substring 8 2 s) with
    | Some y, Some m, Some d =>
        if (1 <=? m) && (m <=? 12) && (1 <=? d) && (d <=? 31)
        then Some (mkdate y m d) else None
    | _, _, _ => None
    end
  else None.

(** An ordering that keeps the rows as the table yields them. *)
Definition sample_order_by (A : Type) (field : string) (rows : list A) : list A := rows.


(** A paginator with a single page. *)
Definition sample_page (A : Type) (per_page : Z) (number : option string)
    (rows : list A) : list A := rows.

Definition sample_TIME_SLOTS : list (string * string) :=
  [("7:30 - 8:30", "7:30 - 8:30"); ("8:30 - 9:30", "8:30 - 9:30");
   ("9:30 - 10:30", "9:30 - 10:30"); ("11:00 - 11:50", "11:00 - 11:50");
   ("11:50 - 12:40", "11:50 - 12:40"); ("12:40 - 1:30", "12:40 - 1:30");
   ("2:30 - 3:30", "2:30 - 3:30"); ("3:30 - 4:30", "3:30 - 4:30");
   ("4:30 - 5:30", "4:30 - 5:30")].

Definition sample_DAYS_OF_WEEK : list (string * string) :=
  [("Monday", "Monday"); ("Tuesday", "Tuesday"); ("Wednesday", "Wednesday");
   ("Thursday", "Thursday"); ("Friday", "Friday"); ("Saturday", "Saturday")].

(** The data of the worked examples: teacher A (user 1) and teacher B
    (user 2) teach class 10, teacher C has no user account; one pending exam
    session and one attendance session of A's assignment. *)
Definition sample_db : Database :=
  mkDatabase
    [Teacher.mk 1 (Some 1) "A"; Teacher.mk 2 (Some 2) "B"; Teacher.mk 3 None "C"]
    [Student.mk "USN1" "Student One" 10; Student.mk "USN2" "Student Two" 10]
    [Assign.mk 1 10 100 1 "2024-2025" 1; Assign.mk 2 10 200 2 "2024-2025" 1;
     Assign.mk 3 10 100 3 "2024-2025" 1]
    [AssignTime.mk 1 1 "8:30 - 9:30" "Monday"; AssignTime.mk 2 2 "11:00 - 11:50" "Monday"]
    [ExamSession.mk 1 1 "Mid-1" false]
    [AttendanceClass.mk 1 1 (mkdate 2024 1 10) 0]
    []
    [StudentSubject.mk 1 "USN1" 100; StudentSubject.mk 2 "USN2" 100]
    [].

(** A request of a logged-in teacher. *)
Definition sample_request (user : Z) (method : string) (fields : list (string * string))
    : HttpRequest :=
  mkRequest (Some user) true false false method ∅ (list_to_map fields).

(** ** The views *)

Section Views.

(** Constants of [utils.constant] (not part of the source). *)
Variable DAYS_OF_WEEK : list (string * string).
Variable TIME_SLOTS : list (string * string).
Variable BREAK_PERIOD LUNCH_PERIOD : string.
Variable ATTENDANCE_STANDARD CIE_STANDARD : Q.
Variable CIE_CALCULATION_LIMIT CIE_DIVISOR : Z.

(** What Python and Django provide.
    - [int s]: the integer a form string converts to, [None] when the
      conversion raises [ValueError];
    - [strptime s]: [timezone.datetime.strptime(s, DATE_FORMAT).date()],
      [None] when it raises [ValueError];
    - [order_by field rows]: the rows in the order the database returns them
      for [.order_by(field)];
    - [Paginator_page per_page number rows]: the rows of the page the view
      ends up showing for the query parameter [page]. *)
Variable int : string -> option Z.
Variable strptime : string -> option date.
Variable order_by : forall A : Type, string -> list A -> list A.
Variable Paginator_page : forall A : Type, Z -> option string -> list A -> list A.

(** The accessors [get_attendance] and [get_cie] of [StudentSubject], defined
    with the models. *)
Variable get_attendance get_cie : Database -> StudentSubject.t -> result Q.

(** Following a foreign key. *)
Definition Teacher_of (db : Database) (assignment : Assign.t) : result Teacher.t :=
  get (filter (fun t => Teacher.id t = Assign.teacher assignment) (Teacher_objects db)).

Definition Assign_of (db : Database) (assign_id : Z) : result Assign.t :=
  get (filter (fun a => Assign.id a = assign_id) (Assign_objects db)).

(** [class_obj.student_set.all()] *)
Definition student_set (db : Database) (class_id : Z) : list Student.t :=
  filter (fun s => Student.class_id s = class_id) (Student_objects db).

(** A primary key received as a form field. *)
Definition pk_of_field (field : option string) : result (option Z) :=
  match field with
  | None => Ok None
  | Some s =>
      match int s with
      | Some z => Ok (Some z)
      | None => Raise ValueError
      end
  end.

(** *** Exams and marks *)

(** [ExamSession.objects.get_or_create(assign=..., name=..., defaults={'status': False})] *)
Definition ExamSession_get_or_create (assign : Z) (name : string) (db : Database)
    : result (ExamSession.t * bool * Database) :=
  match filter (fun e => ExamSession.assign e = assign /\ ExamSession.name e = name)
               (ExamSession_objects db) with
  | [] =>
      let new_exam :=
        ExamSession.mk (next_id (ExamSession.id <$> ExamSession_objects db))
                       assign name false in
      Ok (new_exam, true,
          set_ExamSession_objects (ExamSession_objects db ++ [new_exam]) db)
  | [existing] => Ok (existing, false, db)
  | _ :: _ :: _ => Raise MultipleObjectsReturned
  end.

Definition t_marks_list : HttpRequest -> Z -> Database -> ViewResult :=
  login_required (fun request assign_id db =>
  match get_object_or_404
          (filter (fun a => Assign.id a = assign_id) (Assign_objects db)) with
  | Raise e => raised db e
  | Ok assignment =>
  match Teacher_of db assignment with
  | Raise e => raised db e
  | Ok teacher =>
  (* Permission check: owner teacher only *)
  let owner_user := Teacher.user teacher in
  if bool_decide (is_Some owner_user) && bool_decide (owner_user <> user request)
  then mkViewResult db [(error, no_permission_for_assignment)]
         (Ok (redirect "teacher_dashboard" []))
  else
  let exam_sessions_list :=
    filter (fun e => ExamSession.assign e = Assign.id assignment)
           (ExamSession_objects db) in
  if bool_decide (method request = "POST")
     && bool_decide (is_Some (POST request !! "create_exam"))
  then
    let '(db', msg) :=
      match POST request !! "exam_name" with
      | Some (String c s as exam_name) =>
          match ExamSession_get_or_create (Assign.id assignment) exam_name db with
          | Ok (new_exam, created, db') =>
              if created then (db', (success, exam_created exam_name))
              else (db', (warning, exam_already_exists exam_name))
          | Raise e => (db, (error, exam_creation_failed e))
          end
      | _ => (db, (error, exam_name_required))
      end in
    mkViewResult db' [msg] (Ok (redirect "t_marks_list" [assign_id]))
  else
    let total_exams := count exam_sessions_list in
    let completed_exams :=
      count (filter (fun e => ExamSession.status e = true) exam_sessions_list) in
    let pending_exams := total_exams - completed_exams in
    mkViewResult db []
      (Ok (render "t_marks_list.html"
             (t_marks_list_context assignment exam_sessions_list
                total_exams completed_exams pending_exams)))
  end end).

(** The roster with the current marks prefilled, shared by [t_marks_entry]
    and [edit_marks]. *)
Definition prefill_mark (db : Database) (subject : Z) (exam_name : string)
    (student : Student.t) : result MarksEntryRow :=
  match get (filter (fun ss => StudentSubject.student ss = Student.USN student
                               /\ StudentSubject.subject ss = subject)
                    (StudentSubject_objects db)) with
  | Ok student_subject =>
      let latest_mark :=
        first (order_by Marks.t "-id"
                 (filter (fun m => Marks.studentsubject m = StudentSubject.id student_subject
                                   /\ Marks.name m = exam_name)
                         (Marks_objects db))) in
      Ok (mkMarksEntryRow student
            (match latest_mark with Some m => Marks.marks1 m | None => 0 end) true)
  | Raise DoesNotExist => Ok (mkMarksEntryRow student 0 false)
  | Raise e => Raise e
  end.

Definition marks_entry_page (is_edit_mode : bool) (request : HttpRequest)
    (marks_c_id : Z) (db : Database) : ViewResult :=
  mkViewResult db []
    (exam_session ← get_object_or_404
       (filter (fun e => ExamSession.id e = marks_c_id) (ExamSession_objects db));
     assignment ← Assign_of db (ExamSession.assign exam_session);
     let subject := Assign.subject assignment in
     let all_students_in_class :=
       order_by Student.t "name" (student_set db (Assign.class_id assignment)) in
     let students_total := count all_students_in_class in
     let students_page :=
       Paginator_page Student.t 20 (GET request !! "page") all_students_in_class in
     rows ← mapM (prefill_mark db subject (ExamSession.name exam_session)) students_page;
     Ok (render "t_marks_entry.html"
           (t_marks_entry_context assignment exam_session students_total rows
              is_edit_mode))).

Definition t_marks_entry : HttpRequest -> Z -> Database -> ViewResult :=
  login_required (marks_entry_page false).

Definition edit_marks : HttpRequest -> Z -> Database -> ViewResult :=
  login_required (marks_entry_page true).

(** [student_subject.marks_set.get_or_create(name=...)], then
    [marks_instance.marks1 = student_mark; marks_instance.save()]. *)
Definition Marks_get_or_create (studentsubject : Z) (name : string) (db : Database)
    : result (Marks.t * bool * Database) :=
  match filter (fun m => Marks.studentsubject m = studentsubject /\ Marks.name m = name)
               (Marks_objects db) with
  | [] =>
      let marks_instance :=
        Marks.mk (next_id (Marks.id <$> Marks_objects db)) studentsubject name 0 in
      Ok (marks_instance, true, set_Marks_objects (Marks_objects db ++ [marks_instance]) db)
  | [existing] => Ok (existing, false, db)
  | _ :: _ :: _ => Raise MultipleObjectsReturned
  end.

Definition Marks_save (marks_instance : Marks.t) (db : Database) : Database :=
  set_Marks_objects
    ((fun m => if bool_decide (Marks.id m = Marks.id marks_instance)
               then marks_instance else m) <$> Marks_objects db) db.

Definition ExamSession_save (exam_session : ExamSession.t) (db : Database) : Database :=
  set_ExamSession_objects
    ((fun e => if bool_decide (ExamSession.id e = ExamSession.id exam_session)
               then exam_session else e) <$> ExamSession_objects db) db.

(** The loop of [marks_confirm] over the students of the class. *)
Fixpoint save_marks (request : HttpRequest) (subject : Z) (exam_name : string)
    (students : list Student.t) (db : Database) : result Database :=
  match students with
  | [] => Ok db
  | student :: rest =>
      match POST request !! Student.USN student with
      | None => save_marks request subject exam_name rest db
      | Some student_mark =>
          match get (filter (fun ss => StudentSubject.subject ss = subject
                                       /\ StudentSubject.student ss = Student.USN student)
                            (StudentSubject_objects db)) with
          | Raise DoesNotExist => save_marks request subject exam_name rest db
          | Raise e => Raise e
          | Ok student_subject =>
              '(marks_instance, _, db1) ←
                 Marks_get_or_create (StudentSubject.id student_subject) exam_name db;
              match int student_mark with
              | None => Raise ValueError
              | Some mark =>
                  let marks_instance :=
                    Marks.mk (Marks.id marks_instance) (Marks.studentsubject marks_instance)
                             (Marks.name marks_instance) mark in
                  save_marks request subject exam_name rest (Marks_save marks_instance db1)
              end
          end
      end
  end.

Definition marks_confirm : HttpRequest -> Z -> Database -> ViewResult :=
  login_required (fun request marks_c_id db =>
  (* with transaction.atomic(): an exception leaves the database as it was *)
  match
    exam_session ← get_object_or_404
      (filter (fun e => ExamSession.id e = marks_c_id) (ExamSession_objects db));
    assignment ← Assign_of db (ExamSession.assign exam_session);
    db1 ← save_marks request (Assign.subject assignment) (ExamSession.name exam_session)
             (student_set db (Assign.class_id assignment)) db;
    let exam_session :=
      ExamSession.mk (ExamSession.id exam_session) (ExamSession.assign exam_session)
                     (ExamSession.name exam_session) true in
    Ok (assignment, ExamSession_save exam_session db1)
  with
  | Raise e => raised db e
  | Ok (assignment, db') =>
      mkViewResult db' [] (Ok (redirect "t_marks_list" [Assign.id assignment]))
  end).

(** *** Timetable *)

(** [[slot[0] for slot in TIME_SLOTS]] *)
Definition base_slots : list string := fst <$> TIME_SLOTS.

(** The loop that builds the slot list with breaks, from the list
    [time_slots] built so far. *)
Definition add_breaks (base_slots time_slots : list string) : list string :=
  fold_left
    (fun time_slots slot =>
       let time_slots := time_slots ++ [slot] in
       if bool_decide (slot = "9:30 - 10:30") then time_slots ++ [BREAK_PERIOD]
       else if bool_decide (slot = "12:40 - 1:30") then time_slots ++ [LUNCH_PERIOD]
       else time_slots)
    base_slots time_slots.

Definition time_slots : list string := add_breaks base_slots [].

(** [[day[0] for day in DAYS_OF_WEEK]] *)
Definition days : list string := fst <$> DAYS_OF_WEEK.

(** [{day: {slot: None for slot in time_slots} for day in days}] *)
Definition empty_timetable : gmap string (gmap string (option Cell)) :=
  list_to_map
    ((fun day => (day, list_to_map ((fun slot => (slot, None)) <$> time_slots))) <$> days).

(** The loop that places the scheduled slots [asst] in the grid. *)
Fixpoint fill_timetable (db : Database) (asst : list AssignTime.t)
    (timetable : gmap string (gmap string (option Cell)))
    : result (gmap string (gmap string (option Cell))) :=
  match asst with
  | [] => Ok timetable
  | at_ :: rest =>
      match timetable !! AssignTime.day at_ with
      | Some row =>
          if bool_decide (is_Some (row !! AssignTime.period at_)) then
            assign ← Assign_of db (AssignTime.assign at_);
            fill_timetable db rest
              (<[AssignTime.day at_ :=
                   <[AssignTime.period at_ :=
                       Some (mkCell (Assign.subject assign) (Assign.teacher assign) assign)]>
                     row]> timetable)
          else fill_timetable db rest timetable
      | None => fill_timetable db rest timetable
      end
  end.

(** The filters of [t_timetable] on the teacher's slots (academic year,
    semester and the dates of the displayed week): they depend on the clock
    and on [utils.date_utils], and keep some of the rows. *)
Variable term_and_week_filter :
  HttpRequest -> Database -> list AssignTime.t -> list AssignTime.t.

Definition t_timetable : HttpRequest -> Z -> Database -> ViewResult :=
  login_required (fun request teacher_id db =>
  match get_object_or_404
          (filter (fun t => Teacher.id t = teacher_id) (Teacher_objects db)) with
  | Raise e => raised db e
  | Ok teacher =>
  if bool_decide (Teacher.user teacher <> user request)
     && negb (is_staff request || is_superuser request)
  then mkViewResult db [(error, TIMETABLE_ACCESS_DENIED_MESSAGE)]
         (Ok (redirect "teacher_dashboard" []))
  else
    let asst :=
      filter (fun at_ =>
                exists_ (filter (fun a => Assign.id a = AssignTime.assign at_
                                          /\ Assign.teacher a = teacher_id)
                                (Assign_objects db)) = true)
             (AssignTime_objects db) in
    let asst := term_and_week_filter request db asst in
    match fill_timetable db asst empty_timetable with
    | Raise e => raised db e
    | Ok timetable =>
        mkViewResult db []
          (Ok (render "t_timetable.html"
                 (t_timetable_context teacher timetable days time_slots)))
    end
  end).

(** *** Free teachers for a slot *)

(** [AssignTime.objects.filter(assign__teacher=t)] *)
Definition AssignTime_of_teacher (db : Database) (t : Teacher.t) : list AssignTime.t :=
  filter (fun at_ =>
            exists_ (filter (fun a => Assign.id a = AssignTime.assign at_
                                      /\ Assign.teacher a = Teacher.id t)
                            (Assign_objects db)) = true)
         (AssignTime_objects db).

(** The loop of [free_teachers] over the candidate teachers, with its two
    result lists. *)
Fixpoint partition_teachers (db : Database) (asst : AssignTime.t) (required_subject : Z)
    (t_list ft_list teachers_without_knowledge : list Teacher.t)
    : list Teacher.t * list Teacher.t :=
  match t_list with
  | [] => (ft_list, teachers_without_knowledge)
  | t :: rest =>
      let at_list := AssignTime_of_teacher db t in
      let is_busy :=
        existsb (fun at_ => bool_decide (AssignTime.period at_ = AssignTime.period asst)
                            && bool_decide (AssignTime.day at_ = AssignTime.day asst))
                at_list in
      let has_subject_knowledge :=
        exists_ (filter (fun a => Assign.teacher a = Teacher.id t
                                  /\ Assign.subject a = required_subject)
                        (Assign_objects db)) in
      if negb is_busy then
        if has_subject_knowledge
        then partition_teachers db asst required_subject rest
               (ft_list ++ [t]) teachers_without_knowledge
        else partition_teachers db asst required_subject rest
               ft_list (teachers_without_knowledge ++ [t])
      else partition_teachers db asst required_subject rest
             ft_list teachers_without_knowledge
  end.

(** [Teacher.objects.filter(assign__class_id=...).distinct()] *)
Definition teachers_of_class (db : Database) (class_id : Z) : list Teacher.t :=
  filter (fun t =>
            exists_ (filter (fun a => Assign.teacher a = Teacher.id t
                                      /\ Assign.class_id a = class_id)
                            (Assign_objects db)) = true)
         (Teacher_objects db).

Definition free_teachers : HttpRequest -> Z -> Database -> ViewResult :=
  login_required (fun request asst_id db =>
  match
    asst ← get_object_or_404
      (filter (fun at_ => AssignTime.id at_ = asst_id) (AssignTime_objects db));
    assign ← Assign_of db (AssignTime.assign asst);
    Ok (asst, assign)
  with
  | Raise e => raised db e
  | Ok (asst, assign) =>
      let required_subject := Assign.subject assign in
      let t_list := teachers_of_class db (Assign.class_id assign) in
      let '(ft_list, teachers_without_knowledge) :=
        partition_teachers db asst required_subject t_list [] [] in
      mkViewResult db
        (match ft_list with
         | [] => [(warning, FREE_TEACHERS_NO_AVAILABLE_TEACHERS_MESSAGE)]
         | _ :: _ => []
         end)
        (Ok (render "free_teachers.html"
               (free_teachers_context ft_list required_subject asst
                  teachers_without_knowledge (count t_list) (count ft_list))))
  end).

(** *** Attendance *)

(** [Attendance.objects.get_or_create(student=..., subject=..., attendanceclass=...,
    date=..., defaults={'status': status})] *)
Definition Attendance_get_or_create (student : string) (subject : Z)
    (assc : AttendanceClass.t) (status : bool) (db : Database)
    : result (Attendance.t * bool * Database) :=
  match filter (fun a => Attendance.student a = student
                         /\ Attendance.subject a = subject
                         /\ Attendance.attendanceclass a = AttendanceClass.id assc
                         /\ Attendance.date_ a = AttendanceClass.date_ assc)
               (Attendance_objects db) with
  | [] =>
      let attendance_obj :=
        Attendance.mk (next_id (Attendance.id <$> Attendance_objects db))
                      student subject (AttendanceClass.id assc)
                      (AttendanceClass.date_ assc) status in
      Ok (attendance_obj, true,
          set_Attendance_objects (Attendance_objects db ++ [attendance_obj]) db)
  | [existing] => Ok (existing, false, db)
  | _ :: _ :: _ => Raise MultipleObjectsReturned
  end.

Definition Attendance_save (attendance_obj : Attendance.t) (db : Database) : Database :=
  set_Attendance_objects
    ((fun a => if bool_decide (Attendance.id a = Attendance.id attendance_obj)
               then attendance_obj else a) <$> Attendance_objects db) db.

Definition AttendanceClass_save (assc : AttendanceClass.t) (db : Database) : Database :=
  set_AttendanceClass_objects
    ((fun c => if bool_decide (AttendanceClass.id c = AttendanceClass.id assc)
               then assc else c) <$> AttendanceClass_objects db) db.

(** The loop over the students that [confirm] and the [confirm_attendance]
    branch of [t_class_date] share. *)
Fixpoint record_attendance (request : HttpRequest) (subject : Z)
    (assc : AttendanceClass.t) (students : list Student.t) (db : Database)
    : result Database :=
  match students with
  | [] => Ok db
  | student :: rest =>
      let status_str := POST request !! Student.USN student in
      let status := bool_decide (status_str = Some "present") in
      '(attendance_obj, created, db1) ←
         Attendance_get_or_create (Student.USN student) subject assc status db;
      if created : bool then record_attendance request subject assc rest db1
      else
        let attendance_obj :=
          Attendance.mk (Attendance.id attendance_obj) (Attendance.student attendance_obj)
                        (Attendance.subject attendance_obj)
                        (Attendance.attendanceclass attendance_obj)
                        (Attendance.date_ attendance_obj) status in
        record_attendance request subject assc rest (Attendance_save attendance_obj db1)
  end.

(** The body of [with transaction.atomic()] in both confirmation paths: the
    loop, then [assc.status = 1; assc.save()]. *)
Definition confirm_attendance (request : HttpRequest) (subject : Z)
    (assc : AttendanceClass.t) (students : list Student.t) (db : Database)
    : result Database :=
  db1 ← record_attendance request subject assc students db;
  let assc :=
    AttendanceClass.mk (AttendanceClass.id assc) (AttendanceClass.assign assc)
                       (AttendanceClass.date_ assc) 1 in
  Ok (AttendanceClass_save assc db1).

(** [students = class_obj.student_set.all() if has_students else []] *)
Definition students_of_class (db : Database) (class_id : Z) : bool * list Student.t :=
  let has_students := exists_ (student_set db class_id) in
  (has_students, if has_students then student_set db class_id else []).

(** The end of [t_class_date]: the page with the session list and the
    selected session. *)
Definition t_class_date_page (assign : Assign.t)
    (att_list_with_stats : list (AttendanceClass.t * AttendanceStatistics))
    (has_students : bool) (students : list Student.t)
    (db : Database) (selected_assc : option AttendanceClass.t) : ViewResult :=
  match Teacher_of db assign with
  | Raise e => raised db e
  | Ok teacher =>
      mkViewResult db []
        (Ok (render "t_class_date.html"
               (t_class_date_context assign att_list_with_stats selected_assc
                  has_students students (Teacher.name teacher))))
  end.

Definition t_class_date : HttpRequest -> Z -> Database -> ViewResult :=
  login_required (fun request assign_id db =>
  match get_object_or_404
          (filter (fun a => Assign.id a = assign_id) (Assign_objects db)) with
  | Raise e => raised db e
  | Ok assign =>
  let att_list :=
    order_by AttendanceClass.t "-date"
      (filter (fun c => AttendanceClass.assign c = Assign.id assign)
              (AttendanceClass_objects db)) in
  let '(has_students, students) := students_of_class db (Assign.class_id assign) in
  (* Append stats to each AttendanceClass *)
  let att_list_with_stats :=
    (fun att_class =>
       (att_class,
        _calculate_attendance_statistics
          (filter (fun a => Attendance.attendanceclass a = AttendanceClass.id att_class
                            /\ Attendance.subject a = Assign.subject assign)
                  (Attendance_objects db)))) <$> att_list in
  let page := t_class_date_page assign att_list_with_stats has_students students in
  if bool_decide (method request = "POST")
     && bool_decide (is_Some (POST request !! "create_attendance"))
  then
    match POST request !! "attendance_date" with
    | None => raised db TypeError
    | Some date_str =>
        match strptime date_str with
        | None =>
            mkViewResult db [(error, invalid_date_format)]
              (Ok (redirect "t_class_date" [Assign.id assign]))
        | Some attendance_date =>
            let same_key c :=
              AttendanceClass.assign c = Assign.id assign
              /\ AttendanceClass.date_ c = attendance_date in
            let db1 :=
              if negb (exists_ (filter same_key (AttendanceClass_objects db)))
              then
                set_AttendanceClass_objects
                  (AttendanceClass_objects db ++
                   [AttendanceClass.mk
                      (next_id (AttendanceClass.id <$> AttendanceClass_objects db))
                      (Assign.id assign) attendance_date 0])
                  db
              else db in
            match get (filter same_key (AttendanceClass_objects db1)) with
            | Raise e => raised db1 e
            | Ok selected_assc => page db1 (Some selected_assc)
            end
        end
    end
  else if bool_decide (method request = "POST")
          && bool_decide (is_Some (POST request !! "confirm_attendance"))
  then
    match
      assc_id ← pk_of_field (POST request !! "assc_id");
      get_object_or_404
        (filter (fun c => Some (AttendanceClass.id c) = assc_id)
                (AttendanceClass_objects db))
    with
    | Raise e => raised db e
    | Ok assc =>
        match confirm_attendance request (Assign.subject assign) assc students db with
        | Raise e => raised db e
        | Ok db' =>
            mkViewResult db' [(success, attendance_recorded)]
              (Ok (redirect "t_class_date" [Assign.id assign]))
        end
    end
  else if bool_decide (method request = "POST")
          && bool_decide (is_Some (POST request !! "select_attendance"))
  then
    match
      assc_id ← pk_of_field (POST request !! "assc_id");
      get_object_or_404
        (filter (fun c => Some (AttendanceClass.id c) = assc_id)
                (AttendanceClass_objects db))
    with
    | Raise e => raised db e
    | Ok selected_assc => page db (Some selected_assc)
    end
  else page db None
  end).

Definition t_attendance : HttpRequest -> Z -> Database -> ViewResult :=
  login_required (fun request ass_c_id db =>
  mkViewResult db []
    (assc ← get_object_or_404
       (filter (fun c => AttendanceClass.id c = ass_c_id) (AttendanceClass_objects db));
     assign ← Assign_of db (AttendanceClass.assign assc);
     let students := student_set db (Assign.class_id assign) in
     let total_students_in_class := count students in
     teacher ← Teacher_of db assign;
     Ok (render "t_attendance.html"
           (t_attendance_context assign assc students total_students_in_class
              (Teacher.name teacher))))).

Definition confirm : HttpRequest -> Z -> Database -> ViewResult :=
  login_required (fun request ass_c_id db =>
  match
    assc ← get_object_or_404
      (filter (fun c => AttendanceClass.id c = ass_c_id) (AttendanceClass_objects db));
    assign ← Assign_of db (AttendanceClass.assign assc);
    let '(has_students, students) := students_of_class db (Assign.class_id assign) in
    db' ← confirm_attendance request (Assign.subject assign) assc students db;
    Ok (assign, db')
  with
  | Raise e => raised db e
  | Ok (assign, db') =>
      mkViewResult db' [(success, attendance_recorded)]
        (Ok (redirect "t_class_date" [Assign.id assign]))
  end).

Definition edit_att : HttpRequest -> Z -> Database -> ViewResult :=
  login_required (fun request ass_c_id db =>
  mkViewResult db []
    (assc ← get_object_or_404
       (filter (fun c => AttendanceClass.id c = ass_c_id) (AttendanceClass_objects db));
     assign ← Assign_of db (AttendanceClass.assign assc);
     let att_list :=
       filter (fun a => Attendance.attendanceclass a = AttendanceClass.id assc
                        /\ Attendance.subject a = Assign.subject assign)
              (Attendance_objects db) in
     let stats := _calculate_attendance_statistics att_list in
     Ok (render "t_edit_att.html"
           (t_edit_att_context assc att_list assign (total_students stats)
              (present_students stats) (absent_students stats))))).

Definition view_att : HttpRequest -> Z -> Database -> ViewResult :=
  login_required (fun request ass_c_id db =>
  mkViewResult db []
    (assc ← get_object_or_404
       (filter (fun c => AttendanceClass.id c = ass_c_id) (AttendanceClass_objects db));
     assign ← Assign_of db (AttendanceClass.assign assc);
     let att_list :=
       filter (fun a => Attendance.attendanceclass a = AttendanceClass.id assc
                        /\ Attendance.subject a = Assign.subject assign)
              (Attendance_objects db) in
     let stats := _calculate_attendance_statistics att_list in
     teacher ← Teacher_of db assign;
     Ok (render "t_view_att.html"
           (t_view_att_context assc att_list assign stats (Teacher.name teacher))))).

(** *** Report *)

(** The loop of [t_report] over the students of the class, with the list and
    the three counters it maintains. *)
Fixpoint report_loop (db : Database) (subject_obj : Z) (students : list Student.t)
    (sc_list : list StudentSubject.t)
    (good_attendance_count good_cie_count need_support_count : Z)
    : list StudentSubject.t * Z * Z * Z :=
  match students with
  | [] => (sc_list, good_attendance_count, good_cie_count, need_support_count)
  | stud :: rest =>
      match filter (fun ss => StudentSubject.student ss = Student.USN stud
                              /\ StudentSubject.subject ss = subject_obj)
                   (StudentSubject_objects db) with
      | [] => report_loop db subject_obj rest sc_list
                good_attendance_count good_cie_count need_support_count
      | student_subject :: _ =>
          let attendance :=
            match get_attendance db student_subject with Ok a => a | Raise _ => 0%Q end in
          let cie :=
            match get_cie db student_subject with Ok c => c | Raise _ => 0%Q end in
          report_loop db subject_obj rest (sc_list ++ [student_subject])
            (if Qle_bool ATTENDANCE_STANDARD attendance
             then good_attendance_count + 1 else good_attendance_count)
            (if Qle_bool CIE_STANDARD cie then good_cie_count + 1 else good_cie_count)
            (if negb (Qle_bool ATTENDANCE_STANDARD attendance)
                || negb (Qle_bool CIE_STANDARD cie)
             then need_support_count + 1 else need_support_count)
      end
  end.

Definition t_report : HttpRequest -> Z -> Database -> ViewResult :=
  login_required (fun request assign_id db =>
  match get_object_or_404
          (filter (fun a => Assign.id a = assign_id) (Assign_objects db)) with
  | Raise e => raised db e
  | Ok ass =>
      let '(sc_list, good_attendance_count, good_cie_count, need_support_count) :=
        report_loop db (Assign.subject ass) (student_set db (Assign.class_id ass))
          [] 0 0 0 in
      let total_students := count sc_list in
      let pass_rate :=
        if total_students =? 0 then 100
        else (* a part of the students over all of them: [/] raises nothing *)
             round_half_even
               (fmul (int_true_divide (total_students - need_support_count)
                        total_students) 100) in
      mkViewResult db []
        (Ok (render "t_report.html"
               (t_report_context sc_list ass good_attendance_count good_cie_count
                  need_support_count pass_rate)))
  end).

(** *** Students of an assignment, with totals *)

(** [sum(mark.marks1 for mark in marks)] *)
Definition total_of_marks (marks : list Marks.t) : Z :=
  sum (Marks.marks1 <$> marks).

(** [math.ceil(sum(marks_list[:CIE_CALCULATION_LIMIT]) / CIE_DIVISOR) if marks_list else 0] *)
Definition cie_of_marks (marks_list : list Z) : result Z :=
  match marks_list with
  | [] => Ok 0
  | _ :: _ =>
      q ← truediv (sum (slice_to marks_list CIE_CALCULATION_LIMIT)) CIE_DIVISOR;
      Ok (ceil q)
  end.

(** One entry of [students_data]. *)
Definition student_data (db : Database) (assignment : Assign.t) (student : Student.t)
    : result StudentData :=
  match get (filter (fun ss => StudentSubject.student ss = Student.USN student
                               /\ StudentSubject.subject ss = Assign.subject assignment)
                    (StudentSubject_objects db)) with
  | Ok student_subject =>
      let marks :=
        order_by Marks.t "name"
          (filter (fun m => Marks.studentsubject m = StudentSubject.id student_subject)
                  (Marks_objects db)) in
      let total_marks := total_of_marks marks in
      let attendance_records :=
        filter (fun a => Attendance.student a = Student.USN student
                         /\ Attendance.subject a = Assign.subject assignment)
               (Attendance_objects db) in
      let total_classes := count attendance_records in
      let attended_classes :=
        count (filter (fun a => Attendance.status a = true) attendance_records) in
      let attendance_percentage :=
        if 0 <? total_classes
        then (* a part of the classes over all of them: [/] raises nothing *)
             round (fmul (int_true_divide attended_classes total_classes) 100) 2
        else 0%Q in
      let marks_list := Marks.marks1 <$> marks in
      cie_score ← cie_of_marks marks_list;
      Ok (mkStudentData student marks total_marks attendance_percentage cie_score
            total_classes attended_classes true)
  | Raise DoesNotExist => Ok (mkStudentData student [] 0 0%Q 0 0 0 false)
  | Raise e => Raise e
  end.

Definition view_students : HttpRequest -> Z -> Database -> ViewResult :=
  login_required (fun request assign_id db =>
  match get_object_or_404
          (filter (fun a => Assign.id a = assign_id) (Assign_objects db)) with
  | Raise e => raised db e
  | Ok assignment =>
  match Teacher_of db assignment with
  | Raise e => raised db e
  | Ok teacher =>
  let owner_user := Teacher.user teacher in
  if bool_decide (is_Some owner_user) && bool_decide (owner_user <> user request)
  then mkViewResult db [(error, no_permission_for_assignment)]
         (Ok (redirect "teacher_dashboard" []))
  else
    let students :=
      order_by Student.t "name" (student_set db (Assign.class_id assignment)) in
    match mapM (student_data db assignment) students with
    | Raise e => raised db e
    | Ok students_data =>
        let students_page :=
          Paginator_page StudentData 25 (GET request !! "page") students_data in
        mkViewResult db []
          (Ok (render "t_view_students.html"
                 (t_view_students_context assignment students_page (count students_data))))
    end
  end end).

(** *** Dashboard, class list and the list of the module's views *)

Definition teacher_dashboard : HttpRequest -> unit -> Database -> ViewResult :=
  login_required (fun request _ db =>
  if negb (is_teacher request)
  then mkViewResult db [(error, teacher_credentials_required)]
         (Ok (redirect "unified_login" []))
  else
    match get (filter (fun t => Teacher.user t = user request) (Teacher_objects db)) with
    | Raise DoesNotExist =>
        mkViewResult db [(error, teacher_profile_not_found)]
          (Ok (redirect "unified_logout" []))
    | Raise e => raised db e
    | Ok teacher =>
        mkViewResult db [] (Ok (render "t_homepage.html" (t_homepage_context teacher)))
    end).

Definition teacher_logout (request : HttpRequest) (db : Database) : ViewResult :=
  mkViewResult db [] (Ok (redirect "unified_logout" [])).

Definition index : HttpRequest -> unit -> Database -> ViewResult :=
  login_required (fun request _ db =>
  mkViewResult db [] (Ok (redirect "teacher_dashboard" []))).

(** The class list [t_clas] filters, orders and paginates the assignments of
    a teacher; it reads the database and queues no message.  Its response is
    left abstract. *)
Variable t_clas_response : HttpRequest -> Z * string -> Database -> result HttpResponse.

Definition t_clas : HttpRequest -> Z * string -> Database -> ViewResult :=
  login_required (fun request teacher_id_choice db =>
  mkViewResult db [] (t_clas_response request teacher_id_choice db)).

(** A call of one of the views of the module, with the arguments taken from
    the URL. *)
Inductive operation :=
| call_teacher_dashboard
| call_teacher_logout
| call_index
| call_t_clas (teacher_id : Z) (choice : string)
| call_t_marks_list (assign_id : Z)
| call_t_marks_entry (marks_c_id : Z)
| call_marks_confirm (marks_c_id : Z)
| call_edit_marks (marks_c_id : Z)
| call_t_timetable (teacher_id : Z)
| call_free_teachers (asst_id : Z)
| call_t_class_date (assign_id : Z)
| call_t_attendance (ass_c_id : Z)
| call_confirm (ass_c_id : Z)
| call_edit_att (ass_c_id : Z)
| call_view_att (ass_c_id : Z)
| call_t_report (assign_id : Z)
| call_view_students (assign_id : Z).

Definition handle (op : operation) (request : HttpRequest) (db : Database) : ViewResult :=
  match op with
  | call_teacher_dashboard => teacher_dashboard request () db
  | call_teacher_logout => teacher_logout request db
  | call_index => index request () db
  | call_t_clas teacher_id choice => t_clas request (teacher_id, choice) db
  | call_t_marks_list assign_id => t_marks_list request assign_id db
  | call_t_marks_entry marks_c_id => t_marks_entry request marks_c_id db
  | call_marks_confirm marks_c_id => marks_confirm request marks_c_id db
  | call_edit_marks marks_c_id => edit_marks request marks_c_id db
  | call_t_timetable teacher_id => t_timetable request teacher_id db
  | call_free_teachers asst_id => free_teachers request asst_id db
  | call_t_class_date assign_id => t_class_date request assign_id db
  | call_t_attendance ass_c_id => t_attendance request ass_c_id db
  | call_confirm ass_c_id => confirm request ass_c_id db
  | call_edit_att ass_c_id => edit_att request ass_c_id db
  | call_view_att ass_c_id => view_att request ass_c_id db
  | call_t_report assign_id => t_report request assign_id db
  | call_view_students assign_id => view_students request assign_id db
  end.

(** The database after a sequence of requests. *)
Fixpoint run (calls : list (operation * HttpRequest)) (db : Database) : Database :=
  match calls with
  | [] => db
  | (op, request) :: rest => run rest (database (handle op request db))
  end.

(** ** Specification predicates *)

(** A response that sends the browser elsewhere. *)
Definition is_redirect (r : HttpResponse) : Prop :=
  match r with
  | render _ _ => False
  | redirect _ _ | redirect_to_login => True
  end.

(** How one request may change the table of exam sessions: the rows that
    were there keep their place and their identity, a status either stays or
    becomes [true], the latter only when [by_confirm] holds; the rows added
    are pending. *)
Definition ExamSession_step (by_confirm : Prop) (old new : list ExamSession.t) : Prop :=
  exists updated created : list ExamSession.t,
    new = updated ++ created
    /\ Forall2 (fun e e' =>
                  ExamSession.id e' = ExamSession.id e
                  /\ (ExamSession.status e' = ExamSession.status e
                      \/ (ExamSession.status e' = true /\ by_confirm)))
               old updated
    /\ Forall (fun e => ExamSession.status e = false) created.

(** The same for the table of attendance sessions, with the statuses
    Not Marked (0) and Marked (1). *)
Definition AttendanceClass_step (by_confirm : Prop) (old new : list AttendanceClass.t)
    : Prop :=
  exists updated created : list AttendanceClass.t,
    new = updated ++ created
    /\ Forall2 (fun c c' =>
                  AttendanceClass.id c' = AttendanceClass.id c
                  /\ (AttendanceClass.status c' = AttendanceClass.status c
                      \/ (AttendanceClass.status c' = 1 /\ by_confirm)))
               old updated
    /\ Forall (fun c => AttendanceClass.status c = 0) created.

(** The busy test of [free_teachers], as a proposition about the tables. *)
Definition has_slot_at (db : Database) (t : Teacher.t) (day period : string) : Prop :=
  exists (at_ : AssignTime.t) (a : Assign.t),
    at_ ∈ AssignTime_objects db /\ a ∈ Assign_objects db
    /\ Assign.id a = AssignTime.assign at_ /\ Assign.teacher a = Teacher.id t
    /\ AssignTime.day at_ = day /\ AssignTime.period at_ = period.

(** The qualification test of [free_teachers], as a proposition about the
    tables. *)
Definition teaches_subject (db : Database) (t : Teacher.t) (subject : Z) : Prop :=
  exists a : Assign.t,
    a ∈ Assign_objects db /\ Assign.teacher a = Teacher.id t /\ Assign.subject a = subject.

(** The content of the grid at a day and a slot: [None] when the grid has no
    such cell, [Some None] for an empty cell. *)
Definition cell_at (timetable : gmap string (gmap string (option Cell)))
    (day slot : string) : option (option Cell) :=
  row ← timetable !! day; row !! slot.

(** The database holds an attendance row of the student for the subject,
    the attendance session and its date, with the given status. *)
Definition recorded (db : Database) (student : Student.t) (subject : Z)
    (assc : AttendanceClass.t) (status : bool) : Prop :=
  exists row : Attendance.t,
    row ∈ Attendance_objects db
    /\ Attendance.student row = Student.USN student
    /\ Attendance.subject row = subject
    /\ Attendance.attendanceclass row = AttendanceClass.id assc
    /\ Attendance.date_ row = AttendanceClass.date_ assc
    /\ Attendance.status row = status.

(** The status a form submits for a student: present only when the field
    named by the USN is there and holds 'present'. *)
Definition submitted_status (request : HttpRequest) (student : Student.t) : bool :=
  bool_decide (POST request !! Student.USN student = Some "present").

(** The rational a finite number of the Standard Library's specification of
    IEEE 754 denotes, and the integers as such numbers: [binary64] is
    compared with that specification below. *)
Definition SF2Q (x : SpecFloat.spec_float) : Q :=
  match x with
  | SpecFloat.S754_finite s m e => ((if s then -1 else 1) * inject_Z (Zpos m) * 2 ^ e)%Q
  | _ => 0%Q
  end.

Definition Z2SF (z : Z) : SpecFloat.spec_float :=
  match z with
  | Z0 => SpecFloat.S754_zero false
  | Zpos p => SpecFloat.S754_finite false p 0
  | Zneg p => SpecFloat.S754_finite true p 0
  end.

(** The pairs [(a, b)] with [0 <= a <= b] and [1 <= b <= n]. *)
Definition shares (n : nat) : list (Z * Z) :=
  b ← seq 1 n; (fun a => (Z.of_nat a, Z.of_nat b)) <$> seq 0 (b + 1).

(** The primary keys of the tables the views write are pairwise distinct. *)
Definition keys_distinct (db : Database) : Prop :=
  NoDup (ExamSession.id <$> ExamSession_objects db)
  /\ NoDup (AttendanceClass.id <$> AttendanceClass_objects db)
  /\ NoDup (Attendance.id <$> Attendance_objects db)
  /\ NoDup (Marks.id <$> Marks_objects db).

(** The database holds a mark of the enrollment for the exam, with the
    given score. *)
Definition mark_recorded (db : Database) (studentsubject : Z) (exam_name : string)
    (mark : Z) : Prop :=
  exists row : Marks.t,
    row ∈ Marks_objects db
    /\ Marks.studentsubject row = studentsubject
    /\ Marks.name row = exam_name
    /\ Marks.marks1 row = mark.

(** What a request may do to the database: the tables of teachers,
    students, assignments, scheduled slots and enrollments stay as they are;
    in the four tables the views write, the primary keys that were there
    stay in place (no row is deleted or re-keyed) and distinct keys stay
    distinct. *)
Definition grows (db db' : Database) : Prop :=
  (Teacher_objects db' = Teacher_objects db
   /\ Student_objects db' = Student_objects db
   /\ Assign_objects db' = Assign_objects db
   /\ AssignTime_objects db' = AssignTime_objects db
   /\ StudentSubject_objects db' = StudentSubject_objects db)
  /\ ((ExamSession.id <$> ExamSession_objects db)
        `prefix_of` (ExamSession.id <$> ExamSession_objects db')
      /\ (AttendanceClass.id <$> AttendanceClass_objects db)
           `prefix_of` (AttendanceClass.id <$> AttendanceClass_objects db')
      /\ (Attendance.id <$> Attendance_objects db)
           `prefix_of` (Attendance.id <$> Attendance_objects db')
      /\ (Marks.id <$> Marks_objects db) `prefix_of` (Marks.id <$> Marks_objects db'))
  /\ (keys_distinct db -> keys_distinct db').

(** The request passes the ownership check of [t_marks_list] and
    [view_students] for the assignment: the teacher of the assignment is
    found and has no user account or the account of the request. *)
Definition passes_owner_check (db : Database) (request : HttpRequest)
    (assignment : Assign.t) : Prop :=
  exists teacher : Teacher.t,
    filter (fun t => Teacher.id t = Assign.teacher assignment) (Teacher_objects db)
      = [teacher]
    /\ (Teacher.user teacher = None \/ Teacher.user teacher = user request).

(** The attendance table holds exactly one row of the student for the
    subject, the attendance session and its date, and its status is the one
    the form submits. *)
Definition settled (request : HttpRequest) (subject : Z) (assc : AttendanceClass.t)
    (db : Database) (student : Student.t) : Prop :=
  exists row : Attendance.t,
    filter (fun a => Attendance.student a = Student.USN student
                     /\ Attendance.subject a = subject
                     /\ Attendance.attendanceclass a = AttendanceClass.id assc
                     /\ Attendance.date_ a = AttendanceClass.date_ assc)
           (Attendance_objects db) = [row]
    /\ Attendance.status row = submitted_status request student.

(** The identifier in the URL of the call is the primary key of no row of
    the table the view looks it up in. *)
Definition names_no_row (op : operation) (db : Database) : Prop :=
  match op with
  | call_teacher_dashboard | call_teacher_logout | call_index | call_t_clas _ _ => False
  | call_t_marks_list assign_id | call_t_class_date assign_id
  | call_t_report assign_id | call_view_students assign_id =>
      assign_id ∉ Assign.id <$> Assign_objects db
  | call_t_marks_entry marks_c_id | call_marks_confirm marks_c_id
  | call_edit_marks marks_c_id =>
      marks_c_id ∉ ExamSession.id <$> ExamSession_objects db
  | call_t_timetable teacher_id => teacher_id ∉ Teacher.id <$> Teacher_objects db
  | call_free_teachers asst_id => asst_id ∉ AssignTime.id <$> AssignTime_objects db
  | call_t_attendance ass_c_id | call_confirm ass_c_id
  | call_edit_att ass_c_id | call_view_att ass_c_id =>
      ass_c_id ∉ AttendanceClass.id <$> AttendanceClass_objects db
  end.

(** The marks of an enrollment as [view_students] reads them:
    [student_subject.marks_set.all().order_by('name')]. *)
Definition marks_by_name (db : Database) (student_subject : StudentSubject.t)
    : list Marks.t :=
  order_by Marks.t "name"
    (filter (fun m => Marks.studentsubject m = StudentSubject.id student_subject)
            (Marks_objects db)).

(** The integer [view_students] divides by [CIE_DIVISOR] for an enrollment:
    [sum(marks_list[:CIE_CALCULATION_LIMIT])]. *)
Definition cie_dividend (db : Database) (student_subject : StudentSubject.t) : Z :=
  sum (slice_to (Marks.marks1 <$> marks_by_name db student_subject) CIE_CALCULATION_LIMIT).

(** ** Properties *)

Set Default Proof Using "Type".

(** *** Arithmetic of the calculators *)

Lemma count_filter_split {A : Type} (P : A -> Prop) `{forall x, Decision (P x)}
    (l : list A) :
  count (filter P l) + count (filter (fun x => ~ P x) l) = count l.
Proof.
  unfold count. induction l as [|x l IH]; [done|].
  rewrite !filter_cons.
  destruct (decide (P x)) as [Hp|Hn], (decide (~ P x)) as [Hn'|Hp']; simpl in IH |- *.
  - exfalso. by apply Hn'.
  - lia.
  - lia.
  - exfalso. by apply Hp'.
Qed.




(** *** Floats *)

Lemma pow2_pos (e : Z) : (0 < 2 ^ e)%Q.
Proof. by apply Qpower_0_lt. Qed.

Lemma pow2_plus (a b : Z) : (2 ^ (a + b) == 2 ^ a * 2 ^ b)%Q.
Proof. by apply Qpower_plus. Qed.

Lemma pow2_le (a b : Z) : a <= b -> (2 ^ a <= 2 ^ b)%Q.
Proof. intros Hab. by apply Qpower_le_compat_l. Qed.

Lemma pow2_lt (a b : Z) : a < b -> (2 ^ a < 2 ^ b)%Q.
Proof. intros Hab. by apply Qpower_lt_compat_l. Qed.

Lemma pow2_lt_inv (a b : Z) : (2 ^ a < 2 ^ b)%Q -> a < b.
Proof. intros Hab. by apply (Qpower_lt_compat_l_inv 2). Qed.

Lemma pow2_inject (k : Z) : 0 <= k -> (inject_Z (2 ^ k) == 2 ^ k)%Q.
Proof. intros Hk. by rewrite Zpower_Qpower. Qed.

Lemma pow2_cancel (s : Z) : (2 ^ s * 2 ^ (- s) == 1)%Q.
Proof. rewrite <- pow2_plus. by rewrite Z.add_opp_diag_r. Qed.

(** The exponent of the binade of a positive rational. *)
Lemma binade_spec (q : Q) :
  (0 < q)%Q -> (2 ^ binade q <= q < 2 ^ (binade q + 1))%Q.
Proof.
  intros Hq. destruct q as [n d].
  assert (Hn : 0 < n) by (unfold Qlt in Hq; simpl in Hq; lia).
  pose proof (Z.log2_spec n Hn) as [Hn1 Hn2].
  pose proof (Z.log2_spec (Zpos d) (Pos2Z.is_pos d)) as [Hd1 Hd2].
  unfold binade. simpl Qnum. simpl Qden.
  set (ln := Z.log2 n) in *. set (ld := Z.log2 (Zpos d)) in *.
  assert (Hln : 0 <= ln) by apply Z.log2_nonneg.
  assert (Hld : 0 <= ld) by apply Z.log2_nonneg.
  assert (Hdq : (0 < inject_Z (Zpos d))%Q) by done.
  assert (Hnd : ((n # d) * inject_Z (Zpos d) == inject_Z n)%Q).
  { rewrite (Qmake_Qdiv n d). field. by intros H0. }
  rewrite Zle_Qle, pow2_inject in Hn1, Hd1 by done.
  rewrite Zlt_Qlt, pow2_inject in Hn2, Hd2 by lia.
  destruct (Qle_bool (2 ^ (ln - ld)) (n # d)) eqn:Htest.
  - apply Qle_bool_iff in Htest. split; [done|].
    apply (Qmult_lt_r _ _ (inject_Z (Zpos d))); [done|]. rewrite Hnd.
    eapply Qlt_le_trans; [exact Hn2|].
    replace (Z.succ ln) with ((ln - ld + 1) + ld) by lia.
    rewrite pow2_plus. apply Qmult_le_l; [apply pow2_pos | done].
  - assert (Hlt : ((n # d) < 2 ^ (ln - ld))%Q).
    { apply Qnot_le_lt. intros Hle. apply Qle_bool_iff in Hle. congruence. }
    split.
    + apply (Qmult_le_r _ _ (inject_Z (Zpos d))); [done|]. rewrite Hnd.
      eapply Qle_trans; [|exact Hn1].
      apply Qlt_le_weak.
      replace ln with ((ln - ld - 1) + Z.succ ld) at 2 by lia.
      rewrite pow2_plus. apply Qmult_lt_l; [apply pow2_pos | done].
    + by replace (ln - ld - 1 + 1) with (ln - ld) by lia.
Qed.

Lemma binade_unique (q : Q) (e : Z) :
  (2 ^ e <= q < 2 ^ (e + 1))%Q -> binade q = e.
Proof.
  intros [Hlo Hhi].
  assert (Hq : (0 < q)%Q) by (eapply Qlt_le_trans; [apply (pow2_pos e) | done]).
  destruct (binade_spec q Hq) as [Hlo' Hhi'].
  assert (H1 : binade q < e + 1)
    by (apply pow2_lt_inv; eapply Qle_lt_trans; [exact Hlo' | exact Hhi]).
  assert (H2 : e < binade q + 1)
    by (apply pow2_lt_inv; eapply Qle_lt_trans; [exact Hlo | exact Hhi']).
  lia.
Qed.

Lemma round_half_even_nearest (x : Q) :
  (inject_Z (round_half_even x) - (1 # 2) <= x <= inject_Z (round_half_even x) + (1 # 2))%Q.
Proof.
  unfold round_half_even.
  pose proof (Qfloor_le x) as Hlo. pose proof (Qlt_floor x) as Hhi.
  rewrite inject_Z_plus in Hhi. change (inject_Z 1) with 1%Q in Hhi.
  generalize dependent (Qfloor x). intros f Hlo Hhi.
  destruct (x - inject_Z f ?= 1 # 2)%Q eqn:Hcmp.
  - apply Qeq_alt in Hcmp. destruct (Z.even f).
    + lra.
    + rewrite inject_Z_plus. change (inject_Z 1) with 1%Q. lra.
  - apply Qlt_alt in Hcmp. lra.
  - apply Qgt_alt in Hcmp. rewrite inject_Z_plus. change (inject_Z 1) with 1%Q. lra.
Qed.

(** A tie goes to the even neighbour. *)
Lemma round_half_even_tie (x : Q) :
  (x - inject_Z (round_half_even x) == 1 # 2
   \/ inject_Z (round_half_even x) - x == 1 # 2)%Q ->
  Z.even (round_half_even x) = true.
Proof.
  unfold round_half_even.
  pose proof (Qfloor_le x) as Hlo. pose proof (Qlt_floor x) as Hhi.
  rewrite inject_Z_plus in Hhi. change (inject_Z 1) with 1%Q in Hhi.
  generalize dependent (Qfloor x). intros f Hlo Hhi.
  destruct (x - inject_Z f ?= 1 # 2)%Q eqn:Hcmp.
  - destruct (Z.even f) eqn:Heven; [done|]. intros _.
    rewrite Z.even_add, Heven. done.
  - apply Qlt_alt in Hcmp. intros [Htie|Htie]; lra.
  - apply Qgt_alt in Hcmp. rewrite inject_Z_plus. change (inject_Z 1) with 1%Q.
    intros [Htie|Htie]; lra.
Qed.

Lemma round_half_even_between (x : Q) (lo hi : Z) :
  (inject_Z lo <= x <= inject_Z hi)%Q -> lo <= round_half_even x <= hi.
Proof.
  intros [Hlo Hhi]. pose proof (round_half_even_nearest x) as [Hr1 Hr2].
  split.
  - destruct (Z_lt_le_dec (round_half_even x) lo) as [Hlt|]; [|done].
    assert (Hle : round_half_even x + 1 <= lo) by lia.
    rewrite Zle_Qle, inject_Z_plus in Hle. change (inject_Z 1) with 1%Q in Hle. lra.
  - destruct (Z_lt_le_dec hi (round_half_even x)) as [Hlt|]; [|done].
    assert (Hle : hi + 1 <= round_half_even x) by lia.
    rewrite Zle_Qle, inject_Z_plus in Hle. change (inject_Z 1) with 1%Q in Hle. lra.
Qed.

(** *** Rounding to binary64 *)

Lemma binary64_zero (q : Q) : (q == 0)%Q -> binary64 q = 0%Q.
Proof. intros Hq. unfold binary64. apply Qeq_bool_iff in Hq. by rewrite Hq. Qed.

Lemma binary64_scaled (q : Q) :
  ~ (q == 0)%Q ->
  (binary64 q ==
   inject_Z (round_half_even (q * 2 ^ (52 - Z.max (binade (Qabs q)) (-1022))))
   * 2 ^ (Z.max (binade (Qabs q)) (-1022) - 52))%Q.
Proof.
  intros Hq. unfold binary64.
  destruct (Qeq_bool q 0) eqn:Hz; [by apply Qeq_bool_iff in Hz|].
  apply Qred_correct.
Qed.

Lemma Qabs_pos_nonzero (q : Q) : ~ (q == 0)%Q -> (0 < Qabs q)%Q.
Proof.
  intros Hq. destruct (Qlt_le_dec 0 (Qabs q)) as [|Hle]; [done|].
  exfalso. apply Hq. apply Qabs_Qle_condition in Hle. lra.
Qed.

Lemma binade_le (q : Q) (k : Z) :
  ~ (q == 0)%Q -> (Qabs q < 2 ^ (k + 1))%Q -> binade (Qabs q) <= k.
Proof.
  intros Hq Hk.
  destruct (binade_spec (Qabs q) (Qabs_pos_nonzero q Hq)) as [Hlo _].
  assert (binade (Qabs q) < k + 1)
    by (apply pow2_lt_inv; eapply Qle_lt_trans; [exact Hlo | exact Hk]).
  lia.
Qed.

(** The rounding error is half a unit in the last place at most. *)
Lemma binary64_half_ulp (q : Q) (E : Z) :
  ~ (q == 0)%Q -> E = Z.max (binade (Qabs q)) (-1022) ->
  (q - 2 ^ (E - 53) <= binary64 q <= q + 2 ^ (E - 53))%Q.
Proof.
  intros Hq HE. rewrite (binary64_scaled q Hq), <- HE.
  pose proof (round_half_even_nearest (q * 2 ^ (52 - E))) as [Hlo Hhi].
  set (r := inject_Z (round_half_even (q * 2 ^ (52 - E)))) in *.
  pose proof (pow2_pos (E - 53)) as Hh.
  assert (Hu : (2 ^ (E - 52) == 2 * 2 ^ (E - 53))%Q).
  { replace (E - 52) with (1 + (E - 53)) by lia. by rewrite pow2_plus. }
  assert (Hq' : (q * 2 ^ (52 - E) * 2 ^ (E - 52) == q)%Q).
  { rewrite <- Qmult_assoc. replace (E - 52) with (- (52 - E)) by lia.
    rewrite pow2_cancel. ring. }
  assert (Hupos : (0 < 2 ^ (E - 52))%Q) by apply pow2_pos.
  apply (Qmult_le_compat_r _ _ (2 ^ (E - 52))) in Hlo; [|by apply Qlt_le_weak].
  apply (Qmult_le_compat_r _ _ (2 ^ (E - 52))) in Hhi; [|by apply Qlt_le_weak].
  rewrite Hq' in Hlo, Hhi.
  assert (Hl' : ((r - (1 # 2)) * 2 ^ (E - 52) == r * 2 ^ (E - 52) - 2 ^ (E - 53))%Q)
    by (rewrite Hu; ring).
  assert (Hh' : ((r + (1 # 2)) * 2 ^ (E - 52) == r * 2 ^ (E - 52) + 2 ^ (E - 53))%Q)
    by (rewrite Hu; ring).
  rewrite Hl' in Hlo. rewrite Hh' in Hhi. split; lra.
Qed.

Lemma binary64_error (q : Q) (k : Z) :
  -1022 <= k -> (Qabs q <= 2 ^ k)%Q ->
  (q - 2 ^ (k - 53) <= binary64 q <= q + 2 ^ (k - 53))%Q.
Proof.
  intros Hk Hq.
  pose proof (pow2_pos (k - 53)) as Hpos.
  destruct (Qeq_dec q 0) as [Hz|Hnz].
  - rewrite (binary64_zero q Hz). lra.
  - assert (He : binade (Qabs q) <= k).
    { apply binade_le; [done|]. eapply Qle_lt_trans; [exact Hq|]. apply pow2_lt. lia. }
    pose proof (binary64_half_ulp q _ Hnz eq_refl) as [Hlo Hhi].
    assert (Hle : (2 ^ (Z.max (binade (Qabs q)) (-1022) - 53) <= 2 ^ (k - 53))%Q)
      by (apply pow2_le; lia).
    split; lra.
Qed.

(** Integers below [2^53] are binary64 numbers, and rounding keeps the
    order: a bound by such an integer is kept. *)
Lemma binary64_between (q : Q) (lo hi : Z) :
  - 2 ^ 53 < lo -> hi < 2 ^ 53 ->
  (inject_Z lo <= q <= inject_Z hi)%Q ->
  (inject_Z lo <= binary64 q <= inject_Z hi)%Q.
Proof.
  intros Hlo53 Hhi53 [Hlo Hhi].
  destruct (Qeq_dec q 0) as [Hz|Hnz].
  - rewrite (binary64_zero q Hz). lra.
  - assert (Habs : (Qabs q < 2 ^ 53)%Q).
    { apply Qabs_Qlt_condition.
      assert (H1 : (inject_Z hi < 2 ^ 53)%Q).
      { rewrite <- (pow2_inject 53) by lia. by rewrite <- Zlt_Qlt. }
      assert (H2 : (- 2 ^ 53 < inject_Z lo)%Q).
      { rewrite <- (pow2_inject 53) by lia. rewrite <- inject_Z_opp.
        by rewrite <- Zlt_Qlt. }
      split; lra. }
    assert (He : binade (Qabs q) <= 52) by (by apply binade_le).
    rewrite (binary64_scaled q Hnz).
    set (E := Z.max (binade (Qabs q)) (-1022)).
    assert (HE : 0 <= 52 - E) by lia.
    assert (HN : (2 ^ (52 - E) == inject_Z (2 ^ (52 - E)))%Q) by (by rewrite pow2_inject).
    assert (HNpos : (0 < inject_Z (2 ^ (52 - E)))%Q) by (rewrite <- HN; apply pow2_pos).
    assert (Hr : lo * 2 ^ (52 - E) <= round_half_even (q * 2 ^ (52 - E))
                 <= hi * 2 ^ (52 - E)).
    { apply round_half_even_between. rewrite !inject_Z_mult, HN. split.
      - apply Qmult_le_compat_r; [done | by apply Qlt_le_weak].
      - apply Qmult_le_compat_r; [done | by apply Qlt_le_weak]. }
    destruct Hr as [Hr1 Hr2]. rewrite Zle_Qle, inject_Z_mult, <- HN in Hr1, Hr2.
    assert (Hupos : (0 < 2 ^ (E - 52))%Q) by apply pow2_pos.
    assert (Hcancel : forall x : Q, (x * 2 ^ (52 - E) * 2 ^ (E - 52) == x)%Q).
    { intros x. rewrite <- Qmult_assoc. replace (E - 52) with (- (52 - E)) by lia.
      rewrite pow2_cancel. ring. }
    split.
    + rewrite <- (Hcancel (inject_Z lo)).
      apply Qmult_le_compat_r; [done | by apply Qlt_le_weak].
    + rewrite <- (Hcancel (inject_Z hi)).
      apply Qmult_le_compat_r; [done | by apply Qlt_le_weak].
Qed.

(** Powers of two are binary64 numbers: rounding keeps a bound by one. *)
Lemma binary64_abs_le_pow2 (q : Q) (k : Z) :
  -1022 <= k -> (Qabs q <= 2 ^ k)%Q -> (Qabs (binary64 q) <= 2 ^ k)%Q.
Proof.
  intros Hk Hq.
  destruct (Qeq_dec q 0) as [Hz|Hnz].
  - rewrite (binary64_zero q Hz). change (Qabs 0) with 0%Q.
    apply Qlt_le_weak, pow2_pos.
  - assert (He : binade (Qabs q) <= k).
    { apply binade_le; [done|]. eapply Qle_lt_trans; [exact Hq|]. apply pow2_lt. lia. }
    rewrite (binary64_scaled q Hnz).
    set (E := Z.max (binade (Qabs q)) (-1022)).
    assert (HE : 0 <= k + (52 - E)) by lia.
    assert (HN : (2 ^ k * 2 ^ (52 - E) == inject_Z (2 ^ (k + (52 - E))))%Q)
      by (by rewrite pow2_inject, pow2_plus).
    pose proof (pow2_pos (52 - E)) as Hv.
    pose proof (pow2_pos (E - 52)) as Hu.
    apply Qabs_Qle_condition in Hq as [Hq1 Hq2].
    assert (Hr : - 2 ^ (k + (52 - E)) <= round_half_even (q * 2 ^ (52 - E))
                 <= 2 ^ (k + (52 - E))).
    { apply round_half_even_between. rewrite inject_Z_opp, <- HN. split.
      - apply (Qmult_le_compat_r _ _ (2 ^ (52 - E))) in Hq1; [|by apply Qlt_le_weak].
        assert (Heq : (- 2 ^ k * 2 ^ (52 - E) == - (2 ^ k * 2 ^ (52 - E)))%Q) by ring.
        rewrite Heq in Hq1. exact Hq1.
      - apply Qmult_le_compat_r; [done | by apply Qlt_le_weak]. }
    destruct Hr as [Hr1 Hr2].
    rewrite Zle_Qle, inject_Z_opp, <- HN in Hr1. rewrite Zle_Qle, <- HN in Hr2.
    assert (Hcancel : (2 ^ k * 2 ^ (52 - E) * 2 ^ (E - 52) == 2 ^ k)%Q).
    { rewrite <- Qmult_assoc. replace (E - 52) with (- (52 - E)) by lia.
      rewrite pow2_cancel. ring. }
    apply Qabs_Qle_condition. rewrite <- Hcancel. split.
    + assert (Heq : (- (2 ^ k * 2 ^ (52 - E) * 2 ^ (E - 52))
                     == - (2 ^ k * 2 ^ (52 - E)) * 2 ^ (E - 52))%Q) by ring.
      rewrite Heq. apply Qmult_le_compat_r; [done | by apply Qlt_le_weak].
    + apply Qmult_le_compat_r; [done | by apply Qlt_le_weak].
Qed.

(** [binary64] is rounding to the nearest number with a significand of 53
    bits (or, below [2^-1022], to the nearest multiple of [2^-1074]), a tie
    going to the even significand: for [q] of the binade [e], the result
    is [m * 2^(E - 52)] for an integer [m] of 53 bits at most, at distance
    half a unit at most, and [m] is even when the distance is half a unit. *)
Lemma binary64_nearest_even (q : Q) (e : Z) :
  (2 ^ e <= Qabs q < 2 ^ (e + 1))%Q ->
  exists m : Z,
    (binary64 q == inject_Z m * 2 ^ (Z.max e (-1022) - 52))%Q
    /\ - 2 ^ 53 <= m <= 2 ^ 53
    /\ (q - 2 ^ (Z.max e (-1022) - 53) <= binary64 q <= q + 2 ^ (Z.max e (-1022) - 53))%Q
    /\ ((binary64 q - q == 2 ^ (Z.max e (-1022) - 53)
         \/ q - binary64 q == 2 ^ (Z.max e (-1022) - 53))%Q ->
        Z.even m = true).
Proof.
  intros Hbin.
  assert (Hnz : ~ (q == 0)%Q).
  { intros Hz. rewrite Hz in Hbin. destruct Hbin as [Hlo _].
    pose proof (pow2_pos e). change (Qabs 0) with 0%Q in Hlo. lra. }
  pose proof (binade_unique _ _ Hbin) as He.
  set (E := Z.max e (-1022)).
  assert (HE : E = Z.max (binade (Qabs q)) (-1022)) by (by rewrite He).
  pose proof (binary64_scaled q Hnz) as Hscaled. rewrite <- HE in Hscaled.
  pose proof (binary64_half_ulp q E Hnz HE) as Hhalf.
  exists (round_half_even (q * 2 ^ (52 - E))).
  split; [exact Hscaled|]. split; [|split; [exact Hhalf|]].
  - apply round_half_even_between.
    destruct Hbin as [_ Hhi]. apply Qabs_Qlt_condition in Hhi as [Hq1 Hq2].
    pose proof (pow2_pos (52 - E)) as Hv.
    assert (Hle : (2 ^ (e + 1) * 2 ^ (52 - E) <= inject_Z (2 ^ 53))%Q).
    { rewrite <- pow2_plus, (pow2_inject 53) by lia. apply pow2_le. lia. }
    rewrite inject_Z_opp. split.
    + apply Qlt_le_weak in Hq1.
      apply (Qmult_le_compat_r _ _ (2 ^ (52 - E))) in Hq1; [|by apply Qlt_le_weak].
      assert (Heq : (- 2 ^ (e + 1) * 2 ^ (52 - E) == - (2 ^ (e + 1) * 2 ^ (52 - E)))%Q)
        by ring.
      rewrite Heq in Hq1. lra.
    + apply Qlt_le_weak in Hq2.
      apply (Qmult_le_compat_r _ _ (2 ^ (52 - E))) in Hq2; [|by apply Qlt_le_weak].
      lra.
  - intros Htie. apply round_half_even_tie.
    set (r := inject_Z (round_half_even (q * 2 ^ (52 - E)))) in *.
    assert (Huv : (2 ^ (E - 52) * 2 ^ (52 - E) == 1)%Q).
    { replace (52 - E) with (- (E - 52)) by lia. apply pow2_cancel. }
    assert (Hhv : (2 ^ (E - 53) * 2 ^ (52 - E) == 1 # 2)%Q).
    { rewrite <- pow2_plus. by replace (E - 53 + (52 - E)) with (-1) by lia. }
    rewrite Hscaled in Htie.
    destruct Htie as [Htie|Htie]; [right | left].
    + assert (Hm : ((r * 2 ^ (E - 52) - q) * 2 ^ (52 - E)
                    == 2 ^ (E - 53) * 2 ^ (52 - E))%Q) by (by rewrite Htie).
      rewrite Hhv in Hm. rewrite <- Hm.
      transitivity (r * (2 ^ (E - 52) * 2 ^ (52 - E)) - q * 2 ^ (52 - E))%Q; [|ring].
      rewrite Huv. ring.
    + assert (Hm : ((q - r * 2 ^ (E - 52)) * 2 ^ (52 - E)
                    == 2 ^ (E - 53) * 2 ^ (52 - E))%Q) by (by rewrite Htie).
      rewrite Hhv in Hm. rewrite <- Hm.
      transitivity (q * 2 ^ (52 - E) - r * (2 ^ (E - 52) * 2 ^ (52 - E)))%Q; [|ring].
      rewrite Huv. ring.
Qed.

Lemma inject_Z_pos (z : Z) : 0 < z -> (0 < inject_Z z)%Q.
Proof. intros Hz. rewrite (Zlt_Qlt 0 z) in Hz. exact Hz. Qed.

Lemma inject_Z_nonneg (z : Z) : 0 <= z -> (0 <= inject_Z z)%Q.
Proof. intros Hz. rewrite (Zle_Qle 0 z) in Hz. exact Hz. Qed.

Lemma quotient_abs_le (a b : Z) :
  b <> 0 ->
  (inject_Z (- Z.abs a) <= inject_Z a / inject_Z b <= inject_Z (Z.abs a))%Q.
Proof.
  intros Hb.
  assert (Habs : (Qabs (inject_Z a / inject_Z b) <= inject_Z (Z.abs a))%Q).
  { unfold Qdiv. rewrite Qabs_Qmult, Qabs_Qinv.
    change (Qabs (inject_Z a)) with (inject_Z (Z.abs a)).
    change (Qabs (inject_Z b)) with (inject_Z (Z.abs b)).
    assert (Hbpos : (0 < inject_Z (Z.abs b))%Q) by (apply inject_Z_pos; lia).
    apply Qle_shift_div_r; [done|].
    rewrite <- inject_Z_mult, <- Zle_Qle. nia. }
  apply Qabs_Qle_condition in Habs. by rewrite inject_Z_opp.
Qed.

Lemma int_true_divide_small (a b : Z) :
  b <> 0 -> Z.abs a < 2 ^ 53 ->
  (inject_Z (- Z.abs a) <= int_true_divide a b <= inject_Z (Z.abs a))%Q.
Proof.
  intros Hb Ha. apply binary64_between; [lia | lia | by apply quotient_abs_le].
Qed.

(** A part of a whole: the quotient is a float between 0 and 1. *)
Lemma int_true_divide_fraction (a b : Z) :
  0 <= a <= b -> 0 < b -> (0 <= int_true_divide a b <= 1)%Q.
Proof.
  intros Hab Hb. apply (binary64_between _ 0 1); [done | done |].
  assert (Hbq : (0 < inject_Z b)%Q) by (by apply inject_Z_pos).
  split.
  - apply Qle_shift_div_l; [done|]. rewrite Qmult_0_l.
    apply inject_Z_nonneg. lia.
  - apply Qle_shift_div_r; [done|]. rewrite Qmult_1_l.
    rewrite <- Zle_Qle. lia.
Qed.


(** [truediv] returns the rounded quotient when the dividend is [2^1023]
    at most in absolute value, and for a part of a whole. *)
Lemma truediv_bounded (a b : Z) :
  b <> 0 -> Z.abs a <= 2 ^ 1023 -> truediv a b = Ok (int_true_divide a b).
Proof.
  intros Hb Ha. unfold truediv.
  rewrite (proj2 (Z.eqb_neq b 0) Hb).
  destruct (Qle_bool (2 ^ 1024) (Qabs (int_true_divide a b))) eqn:Hover; [|done].
  exfalso. apply Qle_bool_iff in Hover.
  assert (Hq : (Qabs (inject_Z a / inject_Z b) <= 2 ^ 1023)%Q).
  { pose proof (quotient_abs_le a b Hb) as Habs.
    rewrite inject_Z_opp in Habs. apply Qabs_Qle_condition in Habs.
    eapply Qle_trans; [exact Habs|].
    rewrite <- (pow2_inject 1023) by lia. by rewrite <- Zle_Qle. }
  pose proof (binary64_abs_le_pow2 _ 1023 ltac:(lia) Hq) as Hbound.
  pose proof (pow2_lt 1023 1024 ltac:(lia)) as Hpow.
  unfold int_true_divide in Hover. lra.
Qed.


Lemma truediv_fraction (a b : Z) :
  0 <= a <= b -> 0 < b -> truediv a b = Ok (int_true_divide a b).
Proof.
  intros Hab Hb. unfold truediv.
  rewrite (proj2 (Z.eqb_neq b 0)) by lia.
  destruct (Qle_bool (2 ^ 1024) (Qabs (int_true_divide a b))) eqn:Hover; [|done].
  exfalso. apply Qle_bool_iff in Hover.
  pose proof (int_true_divide_fraction a b Hab Hb) as [H0 H1].
  rewrite Qabs_pos in Hover by done.
  pose proof (pow2_lt 0 1024 ltac:(lia)) as Hpow. change (2 ^ 0)%Q with 1%Q in Hpow. lra.
Qed.

Lemma fmul_between (x y : Q) (lo hi : Z) :
  - 2 ^ 53 < lo -> hi < 2 ^ 53 ->
  (inject_Z lo <= x * y <= inject_Z hi)%Q ->
  (inject_Z lo <= fmul x y <= inject_Z hi)%Q.
Proof. apply binary64_between. Qed.

Lemma round_between (x : Q) (ndigits : nat) (lo hi : Z) :
  - 2 ^ 53 < lo -> hi < 2 ^ 53 ->
  (inject_Z lo <= x <= inject_Z hi)%Q ->
  (inject_Z lo <= round x ndigits <= inject_Z hi)%Q.
Proof.
  intros Hlo53 Hhi53 [Hlo Hhi]. unfold round.
  assert (Hp : 0 < 10 ^ Z.of_nat ndigits) by (apply Z.pow_pos_nonneg; lia).
  set (p := 10 ^ Z.of_nat ndigits) in Hp |- *.
  assert (Hq : (0 < inject_Z p)%Q) by (by apply inject_Z_pos).
  assert (Hr : lo * p <= round_half_even (x * inject_Z p) <= hi * p).
  { apply round_half_even_between. rewrite !inject_Z_mult. split.
    - apply Qmult_le_compat_r; [exact Hlo | by apply Qlt_le_weak].
    - apply Qmult_le_compat_r; [exact Hhi | by apply Qlt_le_weak]. }
  destruct Hr as [Hr1 Hr2]. rewrite Zle_Qle, inject_Z_mult in Hr1, Hr2.
  apply binary64_between; [done | done |]. split.
  - by apply Qle_shift_div_l.
  - by apply Qle_shift_div_r.
Qed.

(** The share of a whole as a percentage, [a / b * 100]: a float between
    0 and 100, within [2^-45] of the exact percentage. *)
Lemma share_percentage (a b : Z) :
  0 <= a <= b -> 0 < b ->
  (0 <= fmul (int_true_divide a b) 100 <= 100)%Q
  /\ (inject_Z a / inject_Z b * 100 - 2 ^ (-45)
      <= fmul (int_true_divide a b) 100
      <= inject_Z a / inject_Z b * 100 + 2 ^ (-45))%Q.
Proof.
  intros Hab Hb.
  pose proof (int_true_divide_fraction a b Hab Hb) as [Hy0 Hy1].
  assert (Hexact : (0 <= inject_Z a / inject_Z b <= 1)%Q).
  { assert (Hbq : (0 < inject_Z b)%Q) by (by apply inject_Z_pos). split.
    - apply Qle_shift_div_l; [done|]. rewrite Qmult_0_l. apply inject_Z_nonneg. lia.
    - apply Qle_shift_div_r; [done|]. rewrite Qmult_1_l. rewrite <- Zle_Qle. lia. }
  assert (Herr0 : (inject_Z a / inject_Z b - 2 ^ (0 - 53)
                   <= int_true_divide a b
                   <= inject_Z a / inject_Z b + 2 ^ (0 - 53))%Q).
  { apply binary64_error; [lia|]. rewrite Qabs_pos by apply Hexact.
    change (2 ^ 0)%Q with 1%Q. apply Hexact. }
  assert (Herr1 : (int_true_divide a b * 100 - 2 ^ (7 - 53)
                   <= fmul (int_true_divide a b) 100
                   <= int_true_divide a b * 100 + 2 ^ (7 - 53))%Q).
  { apply binary64_error; [lia|].
    rewrite Qabs_pos by lra. change (2 ^ 7)%Q with 128%Q. lra. }
  split.
  - apply (fmul_between _ _ 0 100); [done | done |].
    change (inject_Z 0) with 0%Q. change (inject_Z 100) with 100%Q. lra.
  - assert (H53 : (2 ^ (0 - 53) == 1 # 9007199254740992)%Q) by reflexivity.
    assert (H46 : (2 ^ (7 - 53) == 1 # 70368744177664)%Q) by reflexivity.
    assert (H45 : (2 ^ (-45) == 1 # 35184372088832)%Q) by reflexivity.
    rewrite H53 in Herr0. rewrite H46 in Herr1. rewrite H45. lra.
Qed.

(** [round] to one decimal of a percentage [x]: the float of a number of
    tenths [d] between 0 and 1000 that is nearest to [x], a tie going to
    the even number of tenths. *)
Lemma round_percentage (x : Q) :
  (0 <= x <= 100)%Q ->
  exists d : Z,
    0 <= d <= 1000
    /\ round x 1 = binary64 (inject_Z d / 10)
    /\ (inject_Z d / 10 - (1 # 20) <= x <= inject_Z d / 10 + (1 # 20))%Q
    /\ ((x - inject_Z d / 10 == 1 # 20 \/ inject_Z d / 10 - x == 1 # 20)%Q ->
        Z.even d = true).
Proof.
  intros Hx. exists (round_half_even (x * 10)).
  pose proof (round_half_even_nearest (x * 10)) as [Hlo Hhi].
  split; [|split; [reflexivity|split]].
  - apply round_half_even_between.
    change (inject_Z 0) with 0%Q. change (inject_Z 1000) with 1000%Q. lra.
  - set (d := inject_Z (round_half_even (x * 10))) in *.
    assert (Hd : (d / 10 == d * (1 # 10))%Q) by (unfold Qdiv; reflexivity).
    rewrite Hd. lra.
  - intros Htie. apply round_half_even_tie.
    set (d := inject_Z (round_half_even (x * 10))) in *.
    assert (Hd : (d / 10 == d * (1 # 10))%Q) by (unfold Qdiv; reflexivity).
    rewrite Hd in Htie. destruct Htie as [Htie|Htie]; [left | right]; lra.
Qed.

(** On every share [a / b] with [b <= 100], and on their products by 100,
    [binary64] gives the number the Standard Library's specification of
    IEEE 754 gives for binary64 (a significand of 53 bits, [emax = 1024]);
    so it does on quotients at the limits of the format. *)
Lemma binary64_agrees_with_SpecFloat :
  forallb (fun '(a, b) =>
             let quotient := SpecFloat.SFdiv 53 1024 (Z2SF a) (Z2SF b) in
             Qeq_bool (SF2Q quotient) (int_true_divide a b)
             && Qeq_bool (SF2Q (SpecFloat.SFmul 53 1024 quotient (Z2SF 100)))
                         (fmul (int_true_divide a b) 100))
          (shares 100 ++ [(2 ^ 53 + 1, 2); (- (2 ^ 53 + 1), 2); (1, 3); (-7, 3);
                         (1, 2 ^ 1074); (3, 2 ^ 1075); (2 ^ 1000 + 1, 3);
                         (10 ^ 30, 7)])
  = true.
Proof. vm_compute. reflexivity. Qed.

(** C3. For every collection of attendance records, the statistics count the
    records, the present ones and the absent ones, with
    present + absent = total.  When there is a record, the percentage is
    [round(present / total * 100, 1)]: the division raises nothing and
    [x = present / total * 100] is a float within [2^-45] of the exact
    percentage; the result is the float of a number of tenths [d], the one
    nearest to [x], even when [x] lies halfway between two.  When there is
    no record the percentage is 0. *)
Theorem attendance_statistics_correct (attendance_queryset : list Attendance.t) :
  let stats := _calculate_attendance_statistics attendance_queryset in
  let present := present_students stats in
  let total := total_students stats in
  total = Z.of_nat (length attendance_queryset)
  /\ present =
       Z.of_nat (length (filter (fun a => Attendance.status a = true) attendance_queryset))
  /\ absent_students stats =
       Z.of_nat (length (filter (fun a => Attendance.status a <> true) attendance_queryset))
  /\ present + absent_students stats = total
  /\ (0 < total ->
      let x := fmul (int_true_divide present total) 100 in
      truediv present total = Ok (int_true_divide present total)
      /\ attendance_percentage stats = round x 1
      /\ (inject_Z present / inject_Z total * 100 - 2 ^ (-45)
          <= x <= inject_Z present / inject_Z total * 100 + 2 ^ (-45))%Q
      /\ exists d : Z,
           0 <= d <= 1000
           /\ attendance_percentage stats = binary64 (inject_Z d / 10)
           /\ (inject_Z d / 10 - (1 # 20) <= x <= inject_Z d / 10 + (1 # 20))%Q
           /\ ((x - inject_Z d / 10 == 1 # 20 \/ inject_Z d / 10 - x == 1 # 20)%Q ->
               Z.even d = true))
  /\ (total = 0 -> attendance_percentage stats = 0%Q).
Proof.
  intros stats present total.
  pose proof (count_filter_split (fun a => Attendance.status a = true)
                attendance_queryset) as Hsplit.
  cbv beta in Hsplit.
  assert (Hrest : 0 <= count (filter (fun a => ~ Attendance.status a = true)
                                attendance_queryset)) by (unfold count; lia).
  assert (Hpresent : 0 <= count (filter (fun a => Attendance.status a = true)
                                   attendance_queryset)) by (unfold count; lia).
  unfold present, total, stats, _calculate_attendance_statistics; simpl.
  split; [done|]. split; [done|]. split; [unfold count in *; lia|].
  split; [unfold count in *; lia|]. split.
  - intros Hpos.
    assert (Hshare : 0 <= count (filter (fun a => Attendance.status a = true)
                                   attendance_queryset)
                     <= count attendance_queryset) by lia.
    rewrite (proj2 (Z.ltb_lt 0 (count attendance_queryset)) Hpos).
    destruct (share_percentage _ _ Hshare Hpos) as [Hrange Hnear].
    split; [by apply truediv_fraction|]. split; [done|]. split; [exact Hnear|].
    exact (round_percentage _ Hrange).
  - intros Hzero. by rewrite Hzero.
Qed.


(** Each entry of [students_data] carries the two aggregates of its own list
    of marks. *)
Lemma student_data_aggregates (db : Database) (assignment : Assign.t)
    (student : Student.t) (sd : StudentData) :
  student_data db assignment student = Ok sd ->
  total_marks sd = total_of_marks (sd_marks sd)
  /\ cie_of_marks (Marks.marks1 <$> sd_marks sd) = Ok (cie_score sd).
Proof.
  unfold student_data. intros Hsd.
  destruct (get _) as [student_subject|[]] eqn:Hget; try discriminate.
  - destruct (cie_of_marks _) as [c|e] eqn:Hcie; simpl in Hsd; [|discriminate].
    injection Hsd as <-. simpl. done.
  - injection Hsd as <-. done.
Qed.

(** The percentage of the statistics lies between 0 and 100. *)
Lemma attendance_percentage_bounds (attendance_queryset : list Attendance.t) :
  (0 <= attendance_percentage (_calculate_attendance_statistics attendance_queryset)
     <= 100)%Q.
Proof.
  unfold _calculate_attendance_statistics; simpl.
  pose proof (count_filter_split (fun a => Attendance.status a = true)
                attendance_queryset) as Hsplit.
  cbv beta in Hsplit.
  assert (Hrest : 0 <= count (filter (fun a => ~ Attendance.status a = true)
                                attendance_queryset)) by (unfold count; lia).
  assert (Hpresent : 0 <= count (filter (fun a => Attendance.status a = true)
                                   attendance_queryset)) by (unfold count; lia).
  destruct (0 <? count attendance_queryset) eqn:Hpos; [|split; discriminate].
  apply Z.ltb_lt in Hpos.
  apply (round_between _ 1 0 100); [done | done |].
  apply share_percentage; [lia | done].
Qed.

(** *** Free teachers *)

Lemma exists_filter_true {A : Type} (P : A -> Prop) `{forall x, Decision (P x)}
    (l : list A) :
  exists_ (filter P l) = true <-> exists x, x ∈ l /\ P x.
Proof.
  split.
  - destruct (filter P l) as [|x l'] eqn:Hf; [discriminate|]. intros _.
    assert (Hx : x ∈ filter P l) by (rewrite Hf; left).
    apply list_elem_of_filter in Hx as [HP Hin]. by exists x.
  - intros (x & Hx & HP).
    assert (Hin : x ∈ filter P l) by (apply list_elem_of_filter; done).
    destruct (filter P l); [inversion Hin | done].
Qed.

Lemma is_busy_true (db : Database) (t : Teacher.t) (asst : AssignTime.t) :
  has_slot_at db t (AssignTime.day asst) (AssignTime.period asst) ->
  existsb (fun at_ => bool_decide (AssignTime.period at_ = AssignTime.period asst)
                      && bool_decide (AssignTime.day at_ = AssignTime.day asst))
          (AssignTime_of_teacher db t) = true.
Proof.
  intros (at_ & a & Hat & Ha & Hid & Ht & Hday & Hperiod).
  apply existsb_exists. exists at_. split.
  - apply list_elem_of_In. unfold AssignTime_of_teacher.
    apply list_elem_of_filter. split; [|done].
    apply exists_filter_true. exists a. done.
  - rewrite !bool_decide_eq_true_2; done.
Qed.

Lemma has_subject_knowledge_true (db : Database) (t : Teacher.t) (subject : Z) :
  exists_ (filter (fun a => Assign.teacher a = Teacher.id t /\ Assign.subject a = subject)
                  (Assign_objects db)) = true
  -> teaches_subject db t subject.
Proof.
  intros H. apply exists_filter_true in H as (a & Ha & Ht & Hs). exists a. done.
Qed.

(** What the loop adds to its two lists. *)
Lemma partition_teachers_sound (db : Database) (asst : AssignTime.t) (subject : Z)
    (t_list ft0 tw0 ft_list tw_list : list Teacher.t) :
  partition_teachers db asst subject t_list ft0 tw0 = (ft_list, tw_list) ->
  (forall t, t ∈ ft_list ->
     t ∈ ft0 \/ (t ∈ t_list
                 /\ ~ has_slot_at db t (AssignTime.day asst) (AssignTime.period asst)
                 /\ teaches_subject db t subject))
  /\ (forall t, t ∈ tw_list ->
        t ∈ tw0 \/ (t ∈ t_list
                    /\ ~ has_slot_at db t (AssignTime.day asst) (AssignTime.period asst))).
Proof.
  revert ft0 tw0. induction t_list as [|t rest IH]; intros ft0 tw0 Hrun; simpl in Hrun.
  - injection Hrun as <- <-. split; intros t Ht; by left.
  - destruct (existsb _ (AssignTime_of_teacher db t)) eqn:Hbusy; simpl in Hrun.
    + apply IH in Hrun as [Hft Htw].
      split; intros t' Ht'; [apply Hft in Ht' | apply Htw in Ht'];
        (destruct Ht' as [?|(? & ?)]; [by left | right; split; [by right | done]]).
    + assert (Hfree : ~ has_slot_at db t (AssignTime.day asst) (AssignTime.period asst)).
      { intros Hslot. apply is_busy_true in Hslot. congruence. }
      destruct (exists_ _) eqn:Hknow.
      * apply has_subject_knowledge_true in Hknow.
        apply IH in Hrun as [Hft Htw]. split; intros t' Ht'.
        -- apply Hft in Ht' as [Ht'|(? & ?)].
           ++ apply elem_of_app in Ht' as [?|Ht']; [by left|].
              apply list_elem_of_singleton in Ht' as ->. right. split; [left | done].
           ++ right. split; [by right | done].
        -- apply Htw in Ht' as [?|(? & ?)]; [by left | right; split; [by right | done]].
      * apply IH in Hrun as [Hft Htw]. split; intros t' Ht'.
        -- apply Hft in Ht' as [?|(? & ?)]; [by left | right; split; [by right | done]].
        -- apply Htw in Ht' as [Ht'|(? & ?)].
           ++ apply elem_of_app in Ht' as [?|Ht']; [by left|].
              apply list_elem_of_singleton in Ht' as ->. right. split; [left | done].
           ++ right. split; [by right | done].
Qed.

(** The view renders the two lists whenever the slot and its assignment are
    found. *)
Lemma free_teachers_renders (request : HttpRequest) (asst_id : Z) (db : Database)
    (asst : AssignTime.t) (assign : Assign.t) :
  is_Some (user request) ->
  filter (fun at_ => AssignTime.id at_ = asst_id) (AssignTime_objects db) = [asst] ->
  Assign_of db (AssignTime.assign asst) = Ok assign ->
  exists ft_list tw_list msgs,
    free_teachers request asst_id db =
      mkViewResult db msgs
        (Ok (render "free_teachers.html"
               (free_teachers_context ft_list (Assign.subject assign) asst tw_list
                  (count (teachers_of_class db (Assign.class_id assign)))
                  (count ft_list)))).
Proof.
  intros [u Hu] Hasst Hassign. unfold free_teachers, login_required.
  rewrite Hu, Hasst. simpl. rewrite Hassign. simpl.
  destruct (partition_teachers _ _ _ _ _ _) as [ft_list tw_list].
  by eexists _, _, _.
Qed.

(** C4. In the output of [free_teachers], a teacher with a scheduled slot at
    the (day, period) of the queried slot is in neither list, and a teacher
    with no assignment for the required subject is not in the qualified-free
    list. *)
Theorem free_teachers_partition (request : HttpRequest) (asst_id : Z) (db db' : Database)
    (msgs : list message) (ft_list teachers_without_knowledge : list Teacher.t)
    (required_subject : Z) (asst : AssignTime.t) (total available : Z) (t : Teacher.t) :
  free_teachers request asst_id db =
    mkViewResult db' msgs
      (Ok (render "free_teachers.html"
             (free_teachers_context ft_list required_subject asst
                teachers_without_knowledge total available))) ->
  (has_slot_at db t (AssignTime.day asst) (AssignTime.period asst) ->
     (t ∉ ft_list) /\ (t ∉ teachers_without_knowledge))
  /\ (~ teaches_subject db t required_subject -> t ∉ ft_list).
Proof.
  unfold free_teachers, login_required. intros Hview.
  destruct (user request); [|discriminate].
  destruct (get_object_or_404 _) as [asst0|] eqn:Hasst; simpl in Hview; [|discriminate].
  destruct (Assign_of db _) as [assign|] eqn:Hassign; simpl in Hview; [|discriminate].
  destruct (partition_teachers _ _ _ _ _ _) as [ft tw] eqn:Hpart.
  injection Hview as _ _ <- <- <- <- _ _.
  apply partition_teachers_sound in Hpart as [Hft Htw].
  split.
  - intros Hslot. split; intros Hin.
    + apply Hft in Hin as [Hin|(_ & Hfree & _)]; [inversion Hin | done].
    + apply Htw in Hin as [Hin|(_ & Hfree)]; [inversion Hin | done].
  - intros Hno Hin. apply Hft in Hin as [Hin|(_ & _ & Hknow)]; [inversion Hin | done].
Qed.

(** *** Creating sessions *)

Lemma get_object_or_404_filter {A : Type} (P : A -> Prop) `{forall x, Decision (P x)}
    (l : list A) (row : A) :
  get_object_or_404 (filter P l) = Ok row -> row ∈ l /\ P row.
Proof.
  unfold get_object_or_404, get.
  destruct (filter P l) as [|x [|y l']] eqn:Hf; try discriminate.
  intros [= <-]. apply and_comm, (list_elem_of_filter P). rewrite Hf. left.
Qed.

Lemma get_filter {A : Type} (P : A -> Prop) `{forall x, Decision (P x)}
    (l : list A) (row : A) :
  get (filter P l) = Ok row -> row ∈ l /\ P row.
Proof.
  unfold get.
  destruct (filter P l) as [|x [|y l']] eqn:Hf; try discriminate.
  intros [= <-]. apply and_comm, (list_elem_of_filter P). rewrite Hf. left.
Qed.

Lemma ExamSession_get_or_create_existing (assign : Z) (name : string) (db : Database)
    (existing : ExamSession.t) :
  existing ∈ ExamSession_objects db ->
  ExamSession.assign existing = assign ->
  ExamSession.name existing = name ->
  match ExamSession_get_or_create assign name db with
  | Ok (_, created, db') => created = false /\ db' = db
  | Raise _ => True
  end.
Proof.
  intros Hin Ha Hn. unfold ExamSession_get_or_create.
  destruct (filter _ _) as [|x [|y l']] eqn:Hf; try done.
  assert (Hx : existing ∈ filter
            (fun e => ExamSession.assign e = assign /\ ExamSession.name e = name)
            (ExamSession_objects db)) by (apply list_elem_of_filter; done).
  rewrite Hf in Hx. inversion Hx.
Qed.

Lemma t_class_date_page_database (assign : Assign.t)
    (att_list_with_stats : list (AttendanceClass.t * AttendanceStatistics))
    (has_students : bool) (students : list Student.t)
    (db : Database) (selected_assc : option AttendanceClass.t) :
  database (t_class_date_page assign att_list_with_stats has_students students
              db selected_assc) = db.
Proof. unfold t_class_date_page. by destruct (Teacher_of db assign). Qed.

(** C5. When an exam session with the key (assign, name) exists, a request
    to [t_marks_list] that names it leaves the database as it is; when an
    attendance session with the key (assign, date) exists, a
    [create_attendance] request to [t_class_date] for that date leaves the
    database as it is.  So no second row is created and no status changes. *)
Theorem creation_with_used_key_changes_nothing (request : HttpRequest) (assign_id : Z)
    (db : Database) :
  (forall existing : ExamSession.t,
     existing ∈ ExamSession_objects db ->
     ExamSession.assign existing = assign_id ->
     POST request !! "exam_name" = Some (ExamSession.name existing) ->
     database (t_marks_list request assign_id db) = db)
  /\ (forall (existing : AttendanceClass.t) (date_str : string),
        existing ∈ AttendanceClass_objects db ->
        AttendanceClass.assign existing = assign_id ->
        method request = "POST" ->
        is_Some (POST request !! "create_attendance") ->
        POST request !! "attendance_date" = Some date_str ->
        strptime date_str = Some (AttendanceClass.date_ existing) ->
        database (t_class_date request assign_id db) = db).
Proof.
  split.
  - intros existing Hin Hassign Hname.
    unfold t_marks_list, login_required.
    destruct (user request); [|done].
    destruct (get_object_or_404 _) as [assignment|] eqn:Hget; [|done].
    apply get_object_or_404_filter in Hget as [_ Hid].
    destruct (Teacher_of db assignment); [|done].
    destruct (_ && _); [done|].
    destruct (_ && _); [|done].
    rewrite Hname.
    destruct (ExamSession.name existing) as [|c s] eqn:Hn; [done|].
    pose proof (ExamSession_get_or_create_existing (Assign.id assignment)
                  (String c s) db existing Hin) as Hgoc.
    destruct (ExamSession_get_or_create _ _ _) as [[[new_exam created] db1]|]; [|done].
    destruct Hgoc as [-> ->]; [congruence | done | done].
  - intros existing date_str Hin Hassign Hmethod Hcreate Hdate Hparse.
    unfold t_class_date, login_required.
    destruct (user request); [|done].
    destruct (get_object_or_404 _) as [assign|] eqn:Hget; [|done].
    apply get_object_or_404_filter in Hget as [_ Hid].
    destruct (students_of_class db _) as [has_students students].
    rewrite !bool_decide_eq_true_2 by done. simpl.
    rewrite Hdate, Hparse.
    assert (Hex : exists_ (filter
              (fun c => AttendanceClass.assign c = Assign.id assign
                        /\ AttendanceClass.date_ c = AttendanceClass.date_ existing)
              (AttendanceClass_objects db)) = true).
    { apply exists_filter_true. exists existing. split; [done|]. split; congruence. }
    rewrite Hex. simpl.
    destruct (get _); [|done].
    apply t_class_date_page_database.
Qed.

(** *** Responses of the write paths *)

Lemma save_marks_frame (request : HttpRequest) (subject : Z) (exam_name : string)
    (students : list Student.t) (db db' : Database) :
  save_marks request subject exam_name students db = Ok db' ->
  ExamSession_objects db' = ExamSession_objects db
  /\ AttendanceClass_objects db' = AttendanceClass_objects db
  /\ Attendance_objects db' = Attendance_objects db
  /\ StudentSubject_objects db' = StudentSubject_objects db.
Proof.
  revert db. induction students as [|student rest IH]; intros db Hrun; simpl in Hrun.
  - by injection Hrun as <-.
  - destruct (POST request !! Student.USN student) as [student_mark|]; [|by apply IH].
    destruct (get _) as [student_subject|[]]; try discriminate; [|by apply IH].
    unfold Marks_get_or_create in Hrun.
    destruct (filter _ (Marks_objects db)) as [|m [|m' ms]]; simpl in Hrun;
      try discriminate;
      (destruct (int student_mark); [|discriminate]);
      apply IH in Hrun; simpl in Hrun; done.
Qed.

Lemma record_attendance_frame (request : HttpRequest) (subject : Z)
    (assc : AttendanceClass.t) (students : list Student.t) (db db' : Database) :
  record_attendance request subject assc students db = Ok db' ->
  ExamSession_objects db' = ExamSession_objects db
  /\ AttendanceClass_objects db' = AttendanceClass_objects db
  /\ Student_objects db' = Student_objects db.
Proof.
  revert db. induction students as [|student rest IH]; intros db Hrun; simpl in Hrun.
  - by injection Hrun as <-.
  - unfold Attendance_get_or_create in Hrun.
    destruct (filter _ (Attendance_objects db)) as [|a [|a' l]]; simpl in Hrun;
      try discriminate; apply IH in Hrun; simpl in Hrun; done.
Qed.

(** C6 (as amended). A request handled by a write path is answered by a
    redirect: exam-session creation in [t_marks_list], [marks_confirm],
    [confirm] and the confirmation branch of [t_class_date] never answer by
    rendering a page.  Attendance-session creation in [t_class_date] is the
    exception by design: for a date that parses it renders the class-date
    page with the session of that date selected, and that session is in the
    database. *)
Theorem write_paths_redirect (request : HttpRequest) (db : Database) (id : Z)
    (r : HttpResponse) :
  (method request = "POST" -> is_Some (POST request !! "create_exam") ->
   response (t_marks_list request id db) = Ok r -> is_redirect r)
  /\ (response (marks_confirm request id db) = Ok r -> is_redirect r)
  /\ (response (confirm request id db) = Ok r -> is_redirect r)
  /\ (method request = "POST" -> POST request !! "create_attendance" = None ->
      is_Some (POST request !! "confirm_attendance") ->
      response (t_class_date request id db) = Ok r -> is_redirect r)
  /\ (forall (date_str : string) (attendance_date : date),
        is_Some (user request) ->
        method request = "POST" -> is_Some (POST request !! "create_attendance") ->
        POST request !! "attendance_date" = Some date_str ->
        strptime date_str = Some attendance_date ->
        response (t_class_date request id db) = Ok r ->
        exists assign att_list selected_assc has_students students teacher_name,
          r = render "t_class_date.html"
                (t_class_date_context assign att_list (Some selected_assc)
                   has_students students teacher_name)
          /\ selected_assc ∈ AttendanceClass_objects (database (t_class_date request id db))
          /\ AttendanceClass.assign selected_assc = id
          /\ AttendanceClass.date_ selected_assc = attendance_date).
Proof.
  repeat split.
  - intros Hmethod Hcreate. unfold t_marks_list, login_required.
    destruct (user request); [|by intros [= <-]].
    destruct (get_object_or_404 _); [|done].
    destruct (Teacher_of db _); [|done].
    destruct (_ && _); [by intros [= <-]|].
    rewrite !bool_decide_eq_true_2 by done. simpl.
    match goal with |- context [let '(_, _) := ?p in _] => destruct p end.
    by intros [= <-].
  - unfold marks_confirm, login_required.
    destruct (user request); [|by intros [= <-]].
    destruct (_ ≫= _) as [[assignment db']|]; [by intros [= <-] | done].
  - unfold confirm, login_required.
    destruct (user request); [|by intros [= <-]].
    destruct (_ ≫= _) as [[assign db']|]; [by intros [= <-] | done].
  - intros Hmethod Hnocreate Hconfirm. unfold t_class_date, login_required.
    destruct (user request); [|by intros [= <-]].
    destruct (get_object_or_404 _); [|done].
    destruct (students_of_class db _) as [has_students students].
    rewrite Hnocreate.
    rewrite (bool_decide_eq_false_2 (is_Some None)) by (by intros [? ?]).
    rewrite andb_false_r.
    rewrite !bool_decide_eq_true_2 by done. simpl.
    destruct (_ ≫= _) as [assc|]; [|done].
    destruct (confirm_attendance _ _ _ _ _); [by intros [= <-] | done].
  - intros date_str attendance_date [u Hu] Hmethod Hcreate Hdate Hparse.
    unfold t_class_date, login_required. rewrite Hu.
    destruct (get_object_or_404 _) as [assign|] eqn:Hget; [|done].
    apply get_object_or_404_filter in Hget as [_ Hid].
    destruct (students_of_class db _) as [has_students students].
    rewrite !bool_decide_eq_true_2 by done. simpl.
    rewrite Hdate, Hparse.
    match goal with |- context [get (filter ?P (AttendanceClass_objects ?d))] =>
      set (db1 := d); destruct (get (filter P (AttendanceClass_objects db1)))
        as [selected_assc|] eqn:Hsel; [|done] end.
    apply get_filter in Hsel as [Hin [Hassign Hday]].
    unfold t_class_date_page.
    destruct (Teacher_of db1 assign) as [teacher|]; [|done].
    simpl. intros [= <-]. eexists _, _, _, _, _, _. split; [reflexivity|].
    split; [done|]. split; congruence.
Qed.

(** *** The status flags *)

Lemma ExamSession_step_refl (by_confirm : Prop) (rows : list ExamSession.t) :
  ExamSession_step by_confirm rows rows.
Proof.
  exists rows, []. rewrite app_nil_r. split; [done|]. split; [|constructor].
  induction rows; constructor; auto.
Qed.

Lemma ExamSession_step_create (by_confirm : Prop) (rows : list ExamSession.t)
    (new_exam : ExamSession.t) :
  ExamSession.status new_exam = false ->
  ExamSession_step by_confirm rows (rows ++ [new_exam]).
Proof.
  intros Hnew. exists rows, [new_exam]. split; [done|]. split.
  - induction rows; constructor; auto.
  - by constructor.
Qed.

Lemma ExamSession_step_save (by_confirm : Prop) (rows : list ExamSession.t)
    (exam_session : ExamSession.t) :
  by_confirm ->
  ExamSession.status exam_session = true ->
  ExamSession_step by_confirm rows
    ((fun e => if bool_decide (ExamSession.id e = ExamSession.id exam_session)
               then exam_session else e) <$> rows).
Proof.
  intros Hby Hstatus. eexists _, []. rewrite app_nil_r. split; [done|].
  split; [|constructor].
  induction rows as [|e rows IH]; simpl; constructor; [|done].
  case_bool_decide; auto.
Qed.

Lemma AttendanceClass_step_refl (by_confirm : Prop) (rows : list AttendanceClass.t) :
  AttendanceClass_step by_confirm rows rows.
Proof.
  exists rows, []. rewrite app_nil_r. split; [done|]. split; [|constructor].
  induction rows; constructor; auto.
Qed.

Lemma AttendanceClass_step_create (by_confirm : Prop) (rows : list AttendanceClass.t)
    (new_assc : AttendanceClass.t) :
  AttendanceClass.status new_assc = 0 ->
  AttendanceClass_step by_confirm rows (rows ++ [new_assc]).
Proof.
  intros Hnew. exists rows, [new_assc]. split; [done|]. split.
  - induction rows; constructor; auto.
  - by constructor.
Qed.

Lemma AttendanceClass_step_save (by_confirm : Prop) (rows : list AttendanceClass.t)
    (assc : AttendanceClass.t) :
  by_confirm ->
  AttendanceClass.status assc = 1 ->
  AttendanceClass_step by_confirm rows
    ((fun c => if bool_decide (AttendanceClass.id c = AttendanceClass.id assc)
               then assc else c) <$> rows).
Proof.
  intros Hby Hstatus. eexists _, []. rewrite app_nil_r. split; [done|].
  split; [|constructor].
  induction rows as [|c rows IH]; simpl; constructor; [|done].
  case_bool_decide; auto.
Qed.

(** Closes the goals of a request that left both tables of sessions as they
    were. *)
Ltac sessions_unchanged :=
  split; solve [done | apply ExamSession_step_refl | apply AttendanceClass_step_refl].

(** What each writing view does to the two tables of sessions. *)
Lemma t_marks_list_sessions (request : HttpRequest) (assign_id : Z) (db : Database) :
  let db' := database (t_marks_list request assign_id db) in
  ExamSession_step False (ExamSession_objects db) (ExamSession_objects db')
  /\ AttendanceClass_objects db' = AttendanceClass_objects db.
Proof.
  unfold t_marks_list, login_required.
  destruct (user request); [|sessions_unchanged].
  destruct (get_object_or_404 _) as [assignment|];
    [|sessions_unchanged].
  destruct (Teacher_of db assignment);
    [|sessions_unchanged].
  destruct (_ && _); [sessions_unchanged|].
  destruct (_ && _); [|sessions_unchanged].
  destruct (POST request !! "exam_name") as [[|c s]|];
    try (sessions_unchanged).
  unfold ExamSession_get_or_create.
  destruct (filter _ (ExamSession_objects db)) as [|e [|e' l]]; simpl;
    try (sessions_unchanged).
  split; [by apply ExamSession_step_create | done].
Qed.

Lemma marks_confirm_sessions (request : HttpRequest) (marks_c_id : Z) (db : Database) :
  let db' := database (marks_confirm request marks_c_id db) in
  ExamSession_step True (ExamSession_objects db) (ExamSession_objects db')
  /\ AttendanceClass_objects db' = AttendanceClass_objects db.
Proof.
  unfold marks_confirm, login_required.
  destruct (user request); [|sessions_unchanged].
  destruct (get_object_or_404 _) as [exam_session|]; simpl;
    [|sessions_unchanged].
  destruct (Assign_of db _) as [assignment|]; simpl;
    [|sessions_unchanged].
  destruct (save_marks _ _ _ _ _) as [db1|] eqn:Hsave; simpl;
    [|sessions_unchanged].
  apply save_marks_frame in Hsave as (-> & -> & _).
  split; [|done].
  exact (ExamSession_step_save True _ (ExamSession.mk _ _ _ true) I eq_refl).
Qed.

Lemma confirm_attendance_sessions (request : HttpRequest) (subject : Z)
    (assc : AttendanceClass.t) (students : list Student.t) (db db' : Database) :
  confirm_attendance request subject assc students db = Ok db' ->
  ExamSession_objects db' = ExamSession_objects db
  /\ AttendanceClass_step True (AttendanceClass_objects db) (AttendanceClass_objects db').
Proof.
  unfold confirm_attendance.
  destruct (record_attendance _ _ _ _ _) as [db1|] eqn:Hrec; simpl; [|done].
  apply record_attendance_frame in Hrec as (<- & <- & _).
  intros [= <-]. simpl. split; [done|].
  exact (AttendanceClass_step_save True _ (AttendanceClass.mk _ _ _ 1) I eq_refl).
Qed.

Lemma confirm_sessions (request : HttpRequest) (ass_c_id : Z) (db : Database) :
  let db' := database (confirm request ass_c_id db) in
  ExamSession_objects db' = ExamSession_objects db
  /\ AttendanceClass_step True (AttendanceClass_objects db) (AttendanceClass_objects db').
Proof.
  unfold confirm, login_required.
  destruct (user request); [|sessions_unchanged].
  destruct (get_object_or_404 _) as [assc|]; simpl;
    [|sessions_unchanged].
  destruct (Assign_of db _) as [assign|]; simpl;
    [|sessions_unchanged].
  destruct (confirm_attendance _ _ _ _ _) as [db1|] eqn:Hconfirm; simpl;
    [|sessions_unchanged].
  by apply confirm_attendance_sessions in Hconfirm.
Qed.

Lemma t_class_date_sessions (request : HttpRequest) (assign_id : Z) (db : Database) :
  let db' := database (t_class_date request assign_id db) in
  ExamSession_objects db' = ExamSession_objects db
  /\ AttendanceClass_step (is_Some (POST request !! "confirm_attendance"))
       (AttendanceClass_objects db) (AttendanceClass_objects db').
Proof.
  unfold t_class_date, login_required.
  destruct (user request); [|sessions_unchanged].
  destruct (get_object_or_404 _) as [assign|];
    [|sessions_unchanged].
  destruct (students_of_class db _) as [has_students students].
  destruct (bool_decide (method request = "POST")
            && bool_decide (is_Some (POST request !! "create_attendance"))).
  { destruct (POST request !! "attendance_date") as [date_str|];
      [|sessions_unchanged].
    destruct (strptime date_str) as [attendance_date|];
      [|sessions_unchanged].
    destruct (negb _); simpl.
    - destruct (get _); rewrite ?t_class_date_page_database; simpl;
        (split; [done | by apply AttendanceClass_step_create]).
    - destruct (get _); rewrite ?t_class_date_page_database; simpl;
        (sessions_unchanged). }
  destruct (bool_decide (method request = "POST")
            && bool_decide (is_Some (POST request !! "confirm_attendance"))) eqn:Hc.
  { apply andb_true_iff in Hc as [_ Hc]. apply bool_decide_eq_true in Hc.
    destruct (_ ≫= _) as [assc|]; [|sessions_unchanged].
    destruct (confirm_attendance _ _ _ _ _) as [db1|] eqn:Hconfirm; simpl;
      [|sessions_unchanged].
    apply confirm_attendance_sessions in Hconfirm as [-> (updated & created & Hstep)].
    split; [done|]. exists updated, created.
    destruct Hstep as (-> & Hupd & Hnew). split; [done|]. split; [|done].
    eapply Forall2_impl; [exact Hupd|]. simpl. intros c c' [Hid [Hs|[Hs _]]]; auto. }
  destruct (bool_decide (method request = "POST")
            && bool_decide (is_Some (POST request !! "select_attendance"))).
  { destruct (_ ≫= _) as [assc|]; [|sessions_unchanged].
    rewrite t_class_date_page_database. sessions_unchanged. }
  rewrite t_class_date_page_database. sessions_unchanged.
Qed.

(** The views that only read leave the database as it is. *)
Lemma marks_entry_page_database (is_edit_mode : bool) (request : HttpRequest)
    (marks_c_id : Z) (db : Database) :
  database (marks_entry_page is_edit_mode request marks_c_id db) = db.
Proof. done. Qed.

Lemma read_only_views (op : operation) (request : HttpRequest) (db : Database) :
  match op with
  | call_t_marks_list _ | call_marks_confirm _ | call_t_class_date _ | call_confirm _ =>
      True
  | _ => database (handle op request db) = db
  end.
Proof.
  destruct op; simpl; try done;
    unfold teacher_dashboard, teacher_logout, index, t_clas, t_marks_entry, edit_marks,
      t_timetable, free_teachers, t_attendance, edit_att, view_att, t_report,
      view_students, login_required;
    destruct (user request); try done.
  - destruct (negb _); [done|]. by destruct (get _) as [?|[]].
  - destruct (get_object_or_404 _); [|done].
    destruct (_ && _); [done|]. by destruct (fill_timetable _ _ _).
  - destruct (_ ≫= _) as [[asst assign]|]; [|done].
    by destruct (partition_teachers _ _ _ _ _ _).
  - destruct (get_object_or_404 _); [|done].
    by destruct (report_loop _ _ _ _ _ _ _) as [[[? ?] ?] ?].
  - destruct (get_object_or_404 _); [|done].
    destruct (Teacher_of db _); [|done].
    destruct (_ && _); [done|]. by destruct (mapM _ _).
Qed.

(** How one request moves the two tables of sessions, whatever view handles
    it. *)
Lemma handle_sessions (op : operation) (request : HttpRequest) (db : Database) :
  ExamSession_step (exists marks_c_id, op = call_marks_confirm marks_c_id)
    (ExamSession_objects db) (ExamSession_objects (database (handle op request db)))
  /\ AttendanceClass_step
       ((exists ass_c_id, op = call_confirm ass_c_id)
        \/ (exists assign_id, op = call_t_class_date assign_id
                              /\ is_Some (POST request !! "confirm_attendance")))
       (AttendanceClass_objects db)
       (AttendanceClass_objects (database (handle op request db))).
Proof.
  pose proof (read_only_views op request db) as Hread.
  destruct op as [ | | | ? ? | assign_id | ? | marks_c_id | ? | ? | ? | assign_id
                   | ? | ass_c_id | ? | ? | ? | ? ];
    simpl in Hread |- *; try (rewrite ?Hread; sessions_unchanged).
  - destruct (t_marks_list_sessions request assign_id db)
      as [(updated & created & -> & Hupd & Hnew) ->].
    split; [|apply AttendanceClass_step_refl].
    exists updated, created. split; [done|]. split; [|done].
    eapply Forall2_impl; [exact Hupd|]. simpl. intros e e' [Hid [Hs|[_ []]]]; auto.
  - destruct (marks_confirm_sessions request marks_c_id db)
      as [(updated & created & -> & Hupd & Hnew) ->].
    split; [|apply AttendanceClass_step_refl].
    exists updated, created. split; [done|]. split; [|done].
    eapply Forall2_impl; [exact Hupd|]. simpl. intros e e' [Hid [Hs|[Hs _]]]; eauto.
  - destruct (t_class_date_sessions request assign_id db)
      as [-> (updated & created & -> & Hupd & Hnew)].
    split; [apply ExamSession_step_refl|].
    exists updated, created. split; [done|]. split; [|done].
    eapply Forall2_impl; [exact Hupd|]. simpl. intros c c' [Hid [Hs|[Hs Hc]]]; eauto 10.
  - destruct (confirm_sessions request ass_c_id db)
      as [-> (updated & created & -> & Hupd & Hnew)].
    split; [apply ExamSession_step_refl|].
    exists updated, created. split; [done|]. split; [|done].
    eapply Forall2_impl; [exact Hupd|]. simpl. intros c c' [Hid [Hs|[Hs _]]]; eauto 10.
Qed.

(** C7. Whatever view handles a request, the rows of [ExamSession] that
    existed keep their place and identity and their status either stays or
    becomes [true] (Finalized), which only [marks_confirm] does; the rows of
    [AttendanceClass] likewise either keep their status or get 1 (Marked),
    which only [confirm] and the confirmation branch of [t_class_date] do;
    rows that are created start Pending / Not Marked.  Hence over any
    sequence of requests a session that is finalized stays finalized and an
    attendance session that is marked stays marked: no view sets a flag
    back. *)
Theorem status_flags_move_forward_only :
  (forall (op : operation) (request : HttpRequest) (db : Database),
     let db' := database (handle op request db) in
     ExamSession_step (exists marks_c_id, op = call_marks_confirm marks_c_id)
       (ExamSession_objects db) (ExamSession_objects db')
     /\ AttendanceClass_step
          ((exists ass_c_id, op = call_confirm ass_c_id)
           \/ (exists assign_id, op = call_t_class_date assign_id
                                 /\ is_Some (POST request !! "confirm_attendance")))
          (AttendanceClass_objects db) (AttendanceClass_objects db'))
  /\ (forall (calls : list (operation * HttpRequest)) (db : Database),
        (exists updated created,
            ExamSession_objects (run calls db) = updated ++ created
            /\ Forall2 (fun e e' =>
                          ExamSession.id e' = ExamSession.id e
                          /\ (ExamSession.status e = true -> ExamSession.status e' = true))
                       (ExamSession_objects db) updated)
        /\ (exists updated created,
              AttendanceClass_objects (run calls db) = updated ++ created
              /\ Forall2 (fun c c' =>
                            AttendanceClass.id c' = AttendanceClass.id c
                            /\ (AttendanceClass.status c = 1 ->
                                AttendanceClass.status c' = 1))
                         (AttendanceClass_objects db) updated)).
Proof.
  split; [exact handle_sessions|].
  intros calls. induction calls as [|[op request] rest IH]; intros db; simpl.
  - split; eexists _, []; rewrite app_nil_r; (split; [done|]);
      (match goal with |- Forall2 _ ?l _ => induction l; constructor; auto end).
  - destruct (handle_sessions op request db)
      as [(upd1 & new1 & Hdb1 & Hupd1 & _) (upd2 & new2 & Hdb2 & Hupd2 & _)].
    destruct (IH (database (handle op request db)))
      as [(upd1' & new1' & Hrun1 & Hupd1') (upd2' & new2' & Hrun2 & Hupd2')].
    split.
    + rewrite Hdb1 in Hupd1'. apply Forall2_app_inv_l in Hupd1'
        as (k1 & k2 & Hk1 & Hk2 & ->).
      exists k1, (k2 ++ new1'). split; [by rewrite Hrun1, app_assoc|].
      eapply Forall2_trans; [|exact Hupd1|exact Hk1].
      simpl. intros e e' e'' [Hid [Hs|[Hs _]]] [Hid' Hs']; split; try congruence.
      * intros He. apply Hs'. congruence.
      * intros _. by apply Hs'.
    + rewrite Hdb2 in Hupd2'. apply Forall2_app_inv_l in Hupd2'
        as (k1 & k2 & Hk1 & Hk2 & ->).
      exists k1, (k2 ++ new2'). split; [by rewrite Hrun2, app_assoc|].
      eapply Forall2_trans; [|exact Hupd2|exact Hk1].
      simpl. intros c c' c'' [Hid [Hs|[Hs _]]] [Hid' Hs']; split; try congruence.
      * intros Hc. apply Hs'. congruence.
      * intros _. by apply Hs'.
Qed.

(** *** Timetable *)

Lemma add_breaks_acc (base time_slots0 : list string) :
  add_breaks base time_slots0 = time_slots0 ++ add_breaks base [].
Proof.
  unfold add_breaks. revert time_slots0.
  induction base as [|slot base IH]; intros acc; simpl.
  - by rewrite app_nil_r.
  - rewrite IH. symmetry. rewrite IH.
    repeat case_bool_decide; by rewrite <- ?app_assoc.
Qed.

Lemma add_breaks_cons (slot : string) (base : list string) :
  add_breaks (slot :: base) [] =
    slot :: (if bool_decide (slot = "9:30 - 10:30") then [BREAK_PERIOD]
             else if bool_decide (slot = "12:40 - 1:30") then [LUNCH_PERIOD]
             else []) ++ add_breaks base [].
Proof.
  unfold add_breaks at 1. simpl. fold (add_breaks base).
  repeat case_bool_decide; by rewrite add_breaks_acc.
Qed.

Lemma add_breaks_app (before after : list string) :
  add_breaks (before ++ after) [] = add_breaks before [] ++ add_breaks after [].
Proof.
  unfold add_breaks at 1. rewrite fold_left_app.
  fold (add_breaks before []). fold (add_breaks after (add_breaks before [])).
  apply add_breaks_acc.
Qed.

Lemma lookup_list_to_map_keys {V : Type} (v : string -> V) (keys : list string)
    (k : string) :
  (list_to_map ((fun key => (key, v key)) <$> keys) : gmap string V) !! k =
    if decide (k ∈ keys) then Some (v k) else None.
Proof.
  induction keys as [|key keys IH]; [simpl | rewrite fmap_cons, list_to_map_cons].
  - rewrite lookup_empty. destruct (decide (k ∈ [])) as [Hin|]; [inversion Hin | done].
  - destruct (decide (key = k)) as [->|Hne].
    + rewrite lookup_insert_eq. rewrite decide_True; [done | left].
    + rewrite lookup_insert_ne by done. rewrite IH.
      destruct (decide (k ∈ keys)) as [Hin|Hnin].
      * rewrite decide_True; [done | by right].
      * rewrite decide_False; [done|]. intros Hin. inversion Hin; subst; done.
Qed.

Lemma cell_at_empty_timetable (day slot : string) :
  cell_at empty_timetable day slot =
    if decide (day ∈ days) then
      if decide (slot ∈ time_slots) then Some None else None
    else None.
Proof.
  unfold cell_at, empty_timetable.
  rewrite (lookup_list_to_map_keys
             (fun _ => list_to_map ((fun slot => (slot, None)) <$> time_slots))).
  destruct (decide (day ∈ days)); [|done]. simpl.
  apply (lookup_list_to_map_keys (fun _ => None)).
Qed.

(** Placing the slots changes no cell whose label differs from the period of
    every placed slot. *)
Lemma fill_timetable_other_slots (db : Database) (asst : list AssignTime.t)
    (timetable timetable' : gmap string (gmap string (option Cell)))
    (day slot : string) :
  (forall at_, at_ ∈ asst -> AssignTime.period at_ <> slot) ->
  fill_timetable db asst timetable = Ok timetable' ->
  cell_at timetable' day slot = cell_at timetable day slot.
Proof.
  revert timetable. induction asst as [|at_ rest IH]; intros timetable Hperiods Hfill;
    simpl in Hfill.
  - by injection Hfill as <-.
  - assert (Hrest : forall a, a ∈ rest -> AssignTime.period a <> slot)
      by (intros a Ha; apply Hperiods; by right).
    assert (Hat : AssignTime.period at_ <> slot) by (apply Hperiods; left).
    destruct (timetable !! AssignTime.day at_) as [row|] eqn:Hrow; [|by apply IH].
    case_bool_decide; [|by apply IH].
    destruct (Assign_of db _) as [assign|]; simpl in Hfill; [|discriminate].
    rewrite (IH _ Hrest Hfill). unfold cell_at.
    destruct (decide (AssignTime.day at_ = day)) as [<-|Hne].
    + rewrite lookup_insert_eq, Hrow. simpl. by rewrite lookup_insert_ne.
    + by rewrite lookup_insert_ne.
Qed.

(** The loop returns a grid when every slot refers to one assignment. *)
Lemma fill_timetable_returns (db : Database) (asst : list AssignTime.t)
    (timetable : gmap string (gmap string (option Cell))) :
  (forall at_, at_ ∈ asst -> exists assign, Assign_of db (AssignTime.assign at_) = Ok assign) ->
  exists timetable', fill_timetable db asst timetable = Ok timetable'.
Proof.
  revert timetable. induction asst as [|at_ rest IH]; intros timetable Hfk; simpl.
  - by eexists.
  - assert (Hrest : forall a, a ∈ rest ->
              exists assign, Assign_of db (AssignTime.assign a) = Ok assign)
      by (intros a Ha; apply Hfk; by right).
    destruct (timetable !! AssignTime.day at_) as [row|]; [|by apply IH].
    case_bool_decide; [|by apply IH].
    destruct (Hfk at_) as [assign ->]; [left|]. simpl. by apply IH.
Qed.

(** C8 (as amended). In the slot list of the timetable the break marker
    comes immediately after every '9:30 - 10:30' slot and the lunch marker
    immediately after every '12:40 - 1:30' slot; and for every list of
    scheduled slots none of whose period is a marker label, the cells of the
    grid at the two markers are not occupied: they are the empty cells of
    the initial grid. *)
Theorem timetable_markers :
  (forall before after : list string,
     base_slots = before ++ "9:30 - 10:30" :: after ->
     time_slots = add_breaks before [] ++ "9:30 - 10:30" :: BREAK_PERIOD
                    :: add_breaks after [])
  /\ (forall before after : list string,
        base_slots = before ++ "12:40 - 1:30" :: after ->
        time_slots = add_breaks before [] ++ "12:40 - 1:30" :: LUNCH_PERIOD
                       :: add_breaks after [])
  /\ (forall (db : Database) (asst : list AssignTime.t)
             (timetable : gmap string (gmap string (option Cell)))
             (day marker : string),
        (forall at_, at_ ∈ asst ->
           AssignTime.period at_ <> BREAK_PERIOD /\ AssignTime.period at_ <> LUNCH_PERIOD) ->
        fill_timetable db asst empty_timetable = Ok timetable ->
        marker = BREAK_PERIOD \/ marker = LUNCH_PERIOD ->
        (forall cell, cell_at timetable day marker <> Some (Some cell))
        /\ (day ∈ days -> marker ∈ time_slots -> cell_at timetable day marker = Some None)).
Proof.
  split; [|split].
  - intros before after Hbase. unfold time_slots. rewrite Hbase.
    rewrite add_breaks_app, add_breaks_cons. by rewrite bool_decide_eq_true_2.
  - intros before after Hbase. unfold time_slots. rewrite Hbase.
    rewrite add_breaks_app, add_breaks_cons.
    rewrite bool_decide_eq_false_2 by discriminate. by rewrite bool_decide_eq_true_2.
  - intros db asst timetable day marker Hperiods Hfill Hmarker.
    assert (Hcell : cell_at timetable day marker = cell_at empty_timetable day marker).
    { apply (fill_timetable_other_slots db asst); [|done].
      intros at_ Hat. destruct (Hperiods at_ Hat). by destruct Hmarker as [->| ->]. }
    rewrite Hcell, cell_at_empty_timetable. split.
    + intros cell. repeat case_decide; discriminate.
    + intros Hday Hslot. by rewrite !decide_True.
Qed.

(** *** Confirming attendance *)

Lemma next_id_fresh (ids : list Z) (x : Z) : x ∈ ids -> x < next_id ids.
Proof.
  unfold next_id. induction ids as [|y ids IH]; intros Hin; [inversion Hin|].
  simpl. inversion Hin; subst; [lia|]. specialize (IH ltac:(done)). lia.
Qed.

Lemma NoDup_fmap_same {A B : Type} (f : A -> B) (l : list A) (x y : A) :
  NoDup (f <$> l) -> x ∈ l -> y ∈ l -> f x = f y -> x = y.
Proof.
  induction l as [|a l IH]; intros Hnd Hx Hy Hf; [inversion Hx|].
  rewrite fmap_cons in Hnd. apply NoDup_cons in Hnd as [Hnotin Hnd].
  inversion Hx; inversion Hy; subst; auto.
  - exfalso. apply Hnotin. rewrite Hf. by apply list_elem_of_fmap_2.
  - exfalso. apply Hnotin. rewrite <- Hf. by apply list_elem_of_fmap_2.
Qed.

Lemma students_of_class_all (db : Database) (class_id : Z) :
  snd (students_of_class db class_id) = student_set db class_id.
Proof.
  unfold students_of_class. simpl. by destruct (student_set db class_id).
Qed.

(** One turn of the loop: the student's row is there afterwards, the rows
    recorded for the others stay, and primary keys stay distinct. *)
Lemma record_attendance_one (request : HttpRequest) (subject : Z)
    (assc : AttendanceClass.t) (student : Student.t) (db db' : Database) :
  NoDup (Attendance.id <$> Attendance_objects db) ->
  record_attendance request subject assc [student] db = Ok db' ->
  recorded db' student subject assc (submitted_status request student)
  /\ (forall other, recorded db other subject assc (submitted_status request other) ->
                    recorded db' other subject assc (submitted_status request other))
  /\ NoDup (Attendance.id <$> Attendance_objects db').
Proof.
  intros Hnd. simpl. unfold Attendance_get_or_create.
  destruct (filter _ (Attendance_objects db)) as [|existing [|? ?]] eqn:Hf; simpl;
    [| |discriminate]; intros [= <-]; simpl.
  - split; [|split].
    + eexists. split; [apply elem_of_app; right; left|]. done.
    + intros other (row & Hin & Hkey). exists row. split; [|done].
      apply elem_of_app. by left.
    + rewrite fmap_app. apply NoDup_app. split; [done|]. split; [|apply NoDup_singleton].
      intros x Hx Hnew. apply list_elem_of_singleton in Hnew.
      apply next_id_fresh in Hx. simpl in Hnew. lia.
  - assert (Hex : existing ∈ filter
              (fun a => Attendance.student a = Student.USN student
                        /\ Attendance.subject a = subject
                        /\ Attendance.attendanceclass a = AttendanceClass.id assc
                        /\ Attendance.date_ a = AttendanceClass.date_ assc)
              (Attendance_objects db)) by (rewrite Hf; left).
    apply list_elem_of_filter in Hex as [(Hst & Hsu & Hac & Hda) Hin].
    set (updated := Attendance.mk (Attendance.id existing) (Attendance.student existing)
                      (Attendance.subject existing) (Attendance.attendanceclass existing)
                      (Attendance.date_ existing)
                      (bool_decide (POST request !! Student.USN student = Some "present"))).
    set (save := fun a => if bool_decide (Attendance.id a = Attendance.id existing)
                          then updated else a).
    assert (Hsaved : updated ∈ save <$> Attendance_objects db).
    { apply list_elem_of_fmap. exists existing. split; [|done].
      unfold save. by rewrite bool_decide_eq_true_2. }
    split; [|split].
    + exists updated. split; [exact Hsaved | done].
    + intros other (row & Hrow & Hst' & Hsu' & Hac' & Hda' & Hstatus).
      destruct (decide (Attendance.id row = Attendance.id existing)) as [Hsame|Hdiff].
      * assert (row = existing) as -> by (by apply (NoDup_fmap_same Attendance.id
                                                     (Attendance_objects db))).
        exists updated. split; [exact Hsaved|].
        unfold updated; simpl. repeat split; try done.
        unfold submitted_status. by rewrite <- Hst', Hst.
      * exists row. split; [|done].
        apply (list_elem_of_fmap save). exists row. split; [|done].
        unfold save. by rewrite bool_decide_eq_false_2.
    + rewrite <- list_fmap_compose.
      erewrite list_fmap_ext; [exact Hnd|].
      intros i a _. unfold save; simpl. by case_bool_decide.
Qed.

Lemma record_attendance_cons (request : HttpRequest) (subject : Z)
    (assc : AttendanceClass.t) (student : Student.t) (rest : list Student.t)
    (db : Database) :
  record_attendance request subject assc (student :: rest) db =
    (db1 ← record_attendance request subject assc [student] db;
     record_attendance request subject assc rest db1).
Proof.
  simpl. destruct (Attendance_get_or_create _ _ _ _ _) as [[[obj created] db1]|];
    simpl; [|done]. by destruct created.
Qed.

(** The whole loop: every student of the list has the row with the status
    the form submitted. *)
Lemma record_attendance_all (request : HttpRequest) (subject : Z)
    (assc : AttendanceClass.t) (students : list Student.t) (db db' : Database) :
  NoDup (Attendance.id <$> Attendance_objects db) ->
  record_attendance request subject assc students db = Ok db' ->
  (forall student, student ∈ students ->
     recorded db' student subject assc (submitted_status request student))
  /\ (forall other, recorded db other subject assc (submitted_status request other) ->
                    recorded db' other subject assc (submitted_status request other)).
Proof.
  revert db. induction students as [|student rest IH]; intros db Hnd Hrun.
  - simpl in Hrun. injection Hrun as <-. split; [|done]. intros s Hs. inversion Hs.
  - rewrite record_attendance_cons in Hrun.
    destruct (record_attendance request subject assc [student] db) as [db1|] eqn:Hone;
      simpl in Hrun; [|discriminate].
    apply record_attendance_one in Hone as (Hthis & Hkeep & Hnd1); [|done].
    destruct (IH db1 Hnd1 Hrun) as [Hrest Hkeep'].
    split.
    + intros s Hs. inversion Hs; subst; [by apply Hkeep' | by apply Hrest].
    + intros other Hother. by apply Hkeep', Hkeep.
Qed.

Lemma confirm_attendance_all (request : HttpRequest) (subject : Z)
    (assc : AttendanceClass.t) (students : list Student.t) (db db' : Database) :
  NoDup (Attendance.id <$> Attendance_objects db) ->
  confirm_attendance request subject assc students db = Ok db' ->
  forall student, student ∈ students ->
    recorded db' student subject assc (submitted_status request student).
Proof.
  intros Hnd. unfold confirm_attendance.
  destruct (record_attendance _ _ _ _ _) as [db1|] eqn:Hrec; simpl; [|done].
  intros [= <-] student Hin.
  destruct (record_attendance_all _ _ _ _ _ _ Hnd Hrec) as [Hall _].
  exact (Hall student Hin).
Qed.

(** C9. After a successful confirmation, through [confirm] or through the
    [confirm_attendance] branch of [t_class_date], every student of the
    class has an attendance row for (student, subject, attendance session,
    date), and its status is the submitted one: present when the field of the
    student's USN holds 'present', absent when the field is missing or holds
    anything else. *)
Theorem confirmation_records_every_student (request : HttpRequest) (id : Z)
    (db : Database) (r : HttpResponse) :
  NoDup (Attendance.id <$> Attendance_objects db) ->
  is_Some (user request) ->
  (response (confirm request id db) = Ok r ->
   exists assc assign,
     assc ∈ AttendanceClass_objects db /\ AttendanceClass.id assc = id
     /\ Assign_of db (AttendanceClass.assign assc) = Ok assign
     /\ forall student,
          student ∈ Student_objects db ->
          Student.class_id student = Assign.class_id assign ->
          recorded (database (confirm request id db)) student (Assign.subject assign)
            assc (submitted_status request student))
  /\ (method request = "POST" ->
      POST request !! "create_attendance" = None ->
      is_Some (POST request !! "confirm_attendance") ->
      response (t_class_date request id db) = Ok r ->
      exists assc assign,
        assc ∈ AttendanceClass_objects db
        /\ (int <$> POST request !! "assc_id") = Some (Some (AttendanceClass.id assc))
        /\ assign ∈ Assign_objects db /\ Assign.id assign = id
        /\ forall student,
             student ∈ Student_objects db ->
             Student.class_id student = Assign.class_id assign ->
             recorded (database (t_class_date request id db)) student
               (Assign.subject assign) assc (submitted_status request student)).
Proof.
  intros Hnd [u Hu]. split.
  - unfold confirm, login_required. rewrite Hu.
    destruct (get_object_or_404 _) as [assc|] eqn:Hassc; simpl; [|done].
    apply get_object_or_404_filter in Hassc as [Hin Hid].
    destruct (Assign_of db _) as [assign|] eqn:Hassign; simpl; [|done].
    destruct (confirm_attendance _ _ _ _ _) as [db'|] eqn:Hconfirm; simpl; [|done].
    intros _. exists assc, assign. repeat split; try done.
    intros student Hstudent Hclass.
    eapply confirm_attendance_all; [done | exact Hconfirm |].
    pose proof (students_of_class_all db (Assign.class_id assign)) as Hall.
    simpl in Hall. rewrite Hall. by apply list_elem_of_filter.
  - intros Hmethod Hnocreate Hconfirm_field.
    unfold t_class_date, login_required. rewrite Hu.
    destruct (get_object_or_404 _) as [assign|] eqn:Hassign; [|done].
    apply get_object_or_404_filter in Hassign as [Hin Hid].
    pose proof (students_of_class_all db (Assign.class_id assign)) as Hall.
    destruct (students_of_class db _) as [has_students students]. simpl in Hall.
    rewrite Hnocreate.
    rewrite (bool_decide_eq_false_2 (is_Some None)) by (by intros [? ?]).
    rewrite andb_false_r.
    rewrite !bool_decide_eq_true_2 by done. simpl.
    unfold pk_of_field.
    destruct (POST request !! "assc_id") as [field|]; simpl.
    + destruct (int field) as [pk|] eqn:Hint; simpl; [|done].
      destruct (get_object_or_404 _) as [assc|] eqn:Hassc; [|done].
      apply get_object_or_404_filter in Hassc as [Hassc_in Hassc_id].
      destruct (confirm_attendance _ _ _ _ _) as [db'|] eqn:Hconfirm; simpl; [|done].
      intros _. exists assc, assign. repeat split; try done.
      * congruence.
      * intros student Hstudent Hclass.
        eapply confirm_attendance_all; [done | exact Hconfirm |].
        rewrite Hall. by apply list_elem_of_filter.
    + destruct (get_object_or_404 _) as [assc|] eqn:Hassc; [|done].
      apply get_object_or_404_filter in Hassc as [_ Hassc_id]. done.
Qed.

(** *** The ownership check *)

(** C10 (as amended). In [t_marks_list] and [view_students] the ownership
    check is skipped when the teacher of the assignment has no linked user
    account: whoever is logged in, no access-denied message is queued and
    the request goes on.  [view_students] then answers with the page of the
    assignment whenever it answers; [t_marks_list] answers with the page of
    the assignment, except for a [create_exam] POST, which it handles as a
    write and answers with the redirect to the marks list. *)
Theorem unlinked_owner_skips_check (request : HttpRequest) (assign_id : Z)
    (db : Database) (assignment : Assign.t) (teacher : Teacher.t) :
  is_Some (user request) ->
  filter (fun a => Assign.id a = assign_id) (Assign_objects db) = [assignment] ->
  filter (fun t => Teacher.id t = Assign.teacher assignment) (Teacher_objects db) = [teacher] ->
  Teacher.user teacher = None ->
  (((error, no_permission_for_assignment) ∉ messages (t_marks_list request assign_id db))
   /\ (method request = "POST" /\ is_Some (POST request !! "create_exam") ->
       response (t_marks_list request assign_id db) = Ok (redirect "t_marks_list" [assign_id]))
   /\ (~ (method request = "POST" /\ is_Some (POST request !! "create_exam")) ->
       exists m_list total_exams completed_exams pending_exams,
         t_marks_list request assign_id db =
           mkViewResult db []
             (Ok (render "t_marks_list.html"
                    (t_marks_list_context assignment m_list total_exams completed_exams
                       pending_exams)))))
  /\ (((error, no_permission_for_assignment) ∉ messages (view_students request assign_id db))
      /\ forall r, response (view_students request assign_id db) = Ok r ->
           exists students_page students_total,
             view_students request assign_id db =
               mkViewResult db []
                 (Ok (render "t_view_students.html"
                        (t_view_students_context assignment students_page students_total)))).
Proof.
  intros [u Hu] Hassign Hteacher Hnull. split.
  - unfold t_marks_list, login_required, Teacher_of.
    rewrite Hu, Hassign. simpl. rewrite Hteacher. simpl. rewrite Hnull.
    rewrite (bool_decide_eq_false_2 (is_Some None)) by (by intros [? ?]). simpl.
    destruct (bool_decide (method request = "POST")
              && bool_decide (is_Some (POST request !! "create_exam"))) eqn:Hcreate.
    + apply andb_true_iff in Hcreate as [Hm Hc].
      apply bool_decide_eq_true in Hm, Hc.
      match goal with |- context [let '(_, _) := ?p in _] =>
        assert (Hmsg : snd p <> (error, no_permission_for_assignment));
          [|destruct p as [db' msg]] end.
      { destruct (POST request !! "exam_name") as [[|c s]|]; simpl; try done.
        destruct (ExamSession_get_or_create _ _ _) as [[[e []] d]|]; done. }
      simpl in Hmsg |- *. split; [|split].
      * intros Hin. apply list_elem_of_singleton in Hin. done.
      * done.
      * intros Hno. exfalso. apply Hno. done.
    + simpl. split; [|split].
      * intros Hin. inversion Hin.
      * intros [Hm Hc]. rewrite !bool_decide_eq_true_2 in Hcreate by done. done.
      * intros _. by eexists _, _, _, _.
  - unfold view_students, login_required, Teacher_of.
    rewrite Hu, Hassign. simpl. rewrite Hteacher. simpl. rewrite Hnull.
    rewrite (bool_decide_eq_false_2 (is_Some None)) by (by intros [? ?]). simpl.
    destruct (mapM _ _) as [students_data|]; simpl.
    + split; [intros Hin; inversion Hin|]. intros r _. by eexists _, _.
    + split; [intros Hin; inversion Hin|]. done.
Qed.

(** The writes of [marks_confirm] and [confirm] do not depend on who is
    logged in. *)
Lemma confirmations_ignore_the_user (u u' : Z) (is_teacher is_staff is_superuser : bool)
    (method : string) (GET POST : gmap string string) (id : Z) (db : Database) :
  marks_confirm (mkRequest (Some u) is_teacher is_staff is_superuser method GET POST) id db
  = marks_confirm (mkRequest (Some u') is_teacher is_staff is_superuser method GET POST) id db
  /\ confirm (mkRequest (Some u) is_teacher is_staff is_superuser method GET POST) id db
     = confirm (mkRequest (Some u') is_teacher is_staff is_superuser method GET POST) id db.
Proof.
  assert (Hmarks : forall subject exam_name students d,
            save_marks (mkRequest (Some u) is_teacher is_staff is_superuser method GET POST)
              subject exam_name students d
            = save_marks (mkRequest (Some u') is_teacher is_staff is_superuser method GET POST)
                subject exam_name students d).
  { intros subject exam_name students.
    induction students as [|s rest IH]; intros d; simpl; [done|].
    destruct (POST !! Student.USN s); [|apply IH].
    destruct (get _) as [ss|[]]; try done.
    destruct (Marks_get_or_create _ _ _) as [[[m c] d1]|]; simpl; [|done].
    destruct (int _); [apply IH | done]. }
  assert (Hatt : forall subject assc students d,
            record_attendance (mkRequest (Some u) is_teacher is_staff is_superuser method GET POST)
              subject assc students d
            = record_attendance
                (mkRequest (Some u') is_teacher is_staff is_superuser method GET POST)
                subject assc students d).
  { intros subject assc students.
    induction students as [|s rest IH]; intros d; simpl; [done|].
    destruct (Attendance_get_or_create _ _ _ _ _) as [[[a []] d1]|]; simpl;
      [apply IH | apply IH | done]. }
  split.
  - unfold marks_confirm, login_required. simpl.
    destruct (get_object_or_404 _); simpl; [|done].
    destruct (Assign_of db _); simpl; [|done]. by rewrite Hmarks.
  - unfold confirm, login_required, confirm_attendance. simpl.
    destruct (get_object_or_404 _); simpl; [|done].
    destruct (Assign_of db _); simpl; [|done]. by rewrite Hatt.
Qed.

(** *** Primary keys and the tables a request may change *)

Lemma fmap_save_keys {A : Type} (key : A -> Z) (x : A) (l : list A) :
  key <$> ((fun a => if bool_decide (key a = key x) then x else a) <$> l) = key <$> l.
Proof.
  rewrite <- list_fmap_compose. apply list_fmap_ext.
  intros i a _. simpl. by case_bool_decide.
Qed.

Lemma fmap_save_keys_at {A : Type} (key : A -> Z) (k : Z) (x : A) (l : list A) :
  k = key x ->
  key <$> ((fun a => if bool_decide (key a = k) then x else a) <$> l) = key <$> l.
Proof. intros ->. apply fmap_save_keys. Qed.

Lemma fmap_save_same {A : Type} (key : A -> Z) (x : A) (l : list A) :
  NoDup (key <$> l) -> x ∈ l ->
  (fun a => if bool_decide (key a = key x) then x else a) <$> l = l.
Proof.
  intros Hnd Hx. rewrite <- (list_fmap_id l) at 2. apply list_fmap_ext.
  intros i a Ha. simpl. case_bool_decide as Hkey; [|done].
  symmetry. apply (NoDup_fmap_same key l); [done | | done | done].
  by apply list_elem_of_lookup_2 in Ha.
Qed.

Lemma NoDup_snoc_next_id (ids : list Z) : NoDup ids -> NoDup (ids ++ [next_id ids]).
Proof.
  intros Hnd. apply NoDup_app. split; [done|]. split; [|apply NoDup_singleton].
  intros x Hx Hnew. apply list_elem_of_singleton in Hnew.
  apply next_id_fresh in Hx. lia.
Qed.

Lemma Marks_save_keys (marks_instance : Marks.t) (db : Database) :
  Marks.id <$> Marks_objects (Marks_save marks_instance db) = Marks.id <$> Marks_objects db.
Proof. exact (fmap_save_keys Marks.id marks_instance (Marks_objects db)). Qed.

Lemma Attendance_save_keys (attendance_obj : Attendance.t) (db : Database) :
  Attendance.id <$> Attendance_objects (Attendance_save attendance_obj db)
  = Attendance.id <$> Attendance_objects db.
Proof. exact (fmap_save_keys Attendance.id attendance_obj (Attendance_objects db)). Qed.

(** The loop of [marks_confirm] keeps the primary keys of the marks that
    were there, in place, and adds keys after them. *)
Lemma save_marks_keys (request : HttpRequest) (subject : Z) (exam_name : string)
    (students : list Student.t) (db db' : Database) :
  save_marks request subject exam_name students db = Ok db' ->
  (Marks.id <$> Marks_objects db) `prefix_of` (Marks.id <$> Marks_objects db')
  /\ (NoDup (Marks.id <$> Marks_objects db) -> NoDup (Marks.id <$> Marks_objects db')).
Proof.
  revert db. induction students as [|student rest IH]; intros db Hrun; simpl in Hrun.
  - injection Hrun as <-. done.
  - destruct (POST request !! Student.USN student) as [student_mark|]; [|by apply IH].
    destruct (get _) as [student_subject|[]]; try discriminate; [|by apply IH].
    unfold Marks_get_or_create in Hrun.
    destruct (filter _ (Marks_objects db)) as [|m [|m' ms]];
      simpl in Hrun; try discriminate;
      (destruct (int student_mark) as [mark|]; [|discriminate]);
      apply IH in Hrun as [Hpre Hnd]; rewrite Marks_save_keys in Hpre, Hnd.
    + simpl in Hpre, Hnd. rewrite fmap_app in Hpre, Hnd. simpl in Hpre, Hnd. split.
      * etrans; [|exact Hpre]. by apply prefix_app_r.
      * intros Hdb. apply Hnd. by apply NoDup_snoc_next_id.
    + done.
Qed.

Lemma record_attendance_keys (request : HttpRequest) (subject : Z)
    (assc : AttendanceClass.t) (students : list Student.t) (db db' : Database) :
  record_attendance request subject assc students db = Ok db' ->
  (Attendance.id <$> Attendance_objects db) `prefix_of`
    (Attendance.id <$> Attendance_objects db')
  /\ (NoDup (Attendance.id <$> Attendance_objects db) ->
      NoDup (Attendance.id <$> Attendance_objects db'))
  /\ Marks_objects db' = Marks_objects db.
Proof.
  revert db. induction students as [|student rest IH]; intros db Hrun; simpl in Hrun.
  - injection Hrun as <-. done.
  - unfold Attendance_get_or_create in Hrun.
    destruct (filter _ (Attendance_objects db)) as [|a [|a' l]];
      simpl in Hrun; try discriminate;
      apply IH in Hrun as (Hpre & Hnd & Hmarks).
    + simpl in Hpre, Hnd, Hmarks. rewrite fmap_app in Hpre, Hnd. simpl in Hpre, Hnd.
      split; [|split; [|done]].
      * etrans; [|exact Hpre]. by apply prefix_app_r.
      * intros Hdb. apply Hnd. by apply NoDup_snoc_next_id.
    + rewrite Attendance_save_keys in Hpre, Hnd. done.
Qed.

Lemma grows_refl (db : Database) : grows db db.
Proof. unfold grows. repeat split; try reflexivity; by destruct H as (? & ? & ? & ?). Qed.

Lemma grows_intro (db db' : Database) :
  Teacher_objects db' = Teacher_objects db ->
  Student_objects db' = Student_objects db ->
  Assign_objects db' = Assign_objects db ->
  AssignTime_objects db' = AssignTime_objects db ->
  StudentSubject_objects db' = StudentSubject_objects db ->
  (ExamSession.id <$> ExamSession_objects db)
    `prefix_of` (ExamSession.id <$> ExamSession_objects db') ->
  (AttendanceClass.id <$> AttendanceClass_objects db)
    `prefix_of` (AttendanceClass.id <$> AttendanceClass_objects db') ->
  (Attendance.id <$> Attendance_objects db)
    `prefix_of` (Attendance.id <$> Attendance_objects db') ->
  (Marks.id <$> Marks_objects db) `prefix_of` (Marks.id <$> Marks_objects db') ->
  (NoDup (ExamSession.id <$> ExamSession_objects db) ->
   NoDup (ExamSession.id <$> ExamSession_objects db')) ->
  (NoDup (AttendanceClass.id <$> AttendanceClass_objects db) ->
   NoDup (AttendanceClass.id <$> AttendanceClass_objects db')) ->
  (NoDup (Attendance.id <$> Attendance_objects db) ->
   NoDup (Attendance.id <$> Attendance_objects db')) ->
  (NoDup (Marks.id <$> Marks_objects db) -> NoDup (Marks.id <$> Marks_objects db')) ->
  grows db db'.
Proof.
  intros. unfold grows. repeat split; try done.
  all: match goal with Hk : keys_distinct _ |- _ => destruct Hk as (? & ? & ? & ?) end; auto.
Qed.

Lemma save_marks_students (request : HttpRequest) (subject : Z) (exam_name : string)
    (students : list Student.t) (db db' : Database) :
  save_marks request subject exam_name students db = Ok db' ->
  Teacher_objects db' = Teacher_objects db
  /\ Student_objects db' = Student_objects db
  /\ Assign_objects db' = Assign_objects db
  /\ AssignTime_objects db' = AssignTime_objects db.
Proof.
  revert db. induction students as [|student rest IH]; intros db Hrun; simpl in Hrun.
  - by injection Hrun as <-.
  - destruct (POST request !! Student.USN student) as [student_mark|]; [|by apply IH].
    destruct (get _) as [student_subject|[]]; try discriminate; [|by apply IH].
    unfold Marks_get_or_create in Hrun.
    destruct (filter _ (Marks_objects db)) as [|m [|m' ms]]; simpl in Hrun;
      try discriminate;
      (destruct (int student_mark); [|discriminate]);
      apply IH in Hrun; simpl in Hrun; done.
Qed.

Lemma record_attendance_static (request : HttpRequest) (subject : Z)
    (assc : AttendanceClass.t) (students : list Student.t) (db db' : Database) :
  record_attendance request subject assc students db = Ok db' ->
  Teacher_objects db' = Teacher_objects db
  /\ Assign_objects db' = Assign_objects db
  /\ AssignTime_objects db' = AssignTime_objects db
  /\ StudentSubject_objects db' = StudentSubject_objects db.
Proof.
  revert db. induction students as [|student rest IH]; intros db Hrun; simpl in Hrun.
  - by injection Hrun as <-.
  - unfold Attendance_get_or_create in Hrun.
    destruct (filter _ (Attendance_objects db)) as [|a [|a' l]]; simpl in Hrun;
      try discriminate; apply IH in Hrun; simpl in Hrun; done.
Qed.

Lemma t_marks_list_grows (request : HttpRequest) (assign_id : Z) (db : Database) :
  grows db (database (t_marks_list request assign_id db))
  /\ Marks_objects (database (t_marks_list request assign_id db)) = Marks_objects db
  /\ Attendance_objects (database (t_marks_list request assign_id db))
     = Attendance_objects db.
Proof.
  unfold t_marks_list, login_required.
  destruct (user request); [|split; [apply grows_refl | done]].
  destruct (get_object_or_404 _) as [assignment|]; [|split; [apply grows_refl | done]].
  destruct (Teacher_of db assignment); [|split; [apply grows_refl | done]].
  destruct (_ && _); [split; [apply grows_refl | done]|].
  destruct (_ && _); [|split; [apply grows_refl | done]].
  destruct (POST request !! "exam_name") as [[|c s]|];
    try (split; [apply grows_refl | done]).
  unfold ExamSession_get_or_create.
  destruct (filter _ (ExamSession_objects db)) as [|e [|e' l]]; simpl;
    try (split; [apply grows_refl | done]).
  split; [|done]. apply grows_intro; simpl; rewrite ?fmap_app; simpl; try done.
  - by apply prefix_app_r.
  - apply NoDup_snoc_next_id.
Qed.

Lemma marks_confirm_grows (request : HttpRequest) (marks_c_id : Z) (db : Database) :
  grows db (database (marks_confirm request marks_c_id db))
  /\ Attendance_objects (database (marks_confirm request marks_c_id db))
     = Attendance_objects db.
Proof.
  unfold marks_confirm, login_required.
  destruct (user request); [|split; [apply grows_refl | done]].
  destruct (get_object_or_404 _) as [exam_session|]; simpl;
    [|split; [apply grows_refl | done]].
  destruct (Assign_of db _) as [assignment|]; simpl; [|split; [apply grows_refl | done]].
  destruct (save_marks _ _ _ _ _) as [db1|] eqn:Hsave; simpl;
    [|split; [apply grows_refl | done]].
  pose proof (save_marks_frame _ _ _ _ _ _ Hsave) as (Hes & Hac & Hatt & Hss).
  pose proof (save_marks_students _ _ _ _ _ _ Hsave) as (Ht & Hst & Has & Hat).
  pose proof (save_marks_keys _ _ _ _ _ _ Hsave) as [Hpre Hnd].
  split; [|done]. apply grows_intro; simpl;
    rewrite ?(fmap_save_keys_at ExamSession.id (ExamSession.id exam_session)
                (ExamSession.mk (ExamSession.id exam_session)
                   (ExamSession.assign exam_session)
                   (ExamSession.name exam_session) true) (ExamSession_objects db1) eq_refl);
    rewrite ?Hes, ?Hac, ?Hatt, ?Hss, ?Ht, ?Hst, ?Has, ?Hat; done.
Qed.

Lemma confirm_attendance_grows (request : HttpRequest) (subject : Z)
    (assc : AttendanceClass.t) (students : list Student.t) (db db' : Database) :
  confirm_attendance request subject assc students db = Ok db' ->
  grows db db' /\ Marks_objects db' = Marks_objects db.
Proof.
  unfold confirm_attendance.
  destruct (record_attendance _ _ _ _ _) as [db1|] eqn:Hrec; simpl; [|done].
  pose proof (record_attendance_frame _ _ _ _ _ _ Hrec) as (Hes & Hac & Hst).
  pose proof (record_attendance_static _ _ _ _ _ _ Hrec) as (Ht & Has & Hat & Hss).
  pose proof (record_attendance_keys _ _ _ _ _ _ Hrec) as (Hpre & Hnd & Hmarks).
  intros [= <-]. split; [|done]. apply grows_intro; simpl;
    rewrite ?(fmap_save_keys_at AttendanceClass.id (AttendanceClass.id assc)
                (AttendanceClass.mk (AttendanceClass.id assc) (AttendanceClass.assign assc)
                   (AttendanceClass.date_ assc) 1) (AttendanceClass_objects db1) eq_refl);
    rewrite ?Hes, ?Hac, ?Hst, ?Ht, ?Has, ?Hat, ?Hss, ?Hmarks; done.
Qed.

Lemma confirm_grows (request : HttpRequest) (ass_c_id : Z) (db : Database) :
  grows db (database (confirm request ass_c_id db))
  /\ Marks_objects (database (confirm request ass_c_id db)) = Marks_objects db.
Proof.
  unfold confirm, login_required.
  destruct (user request); [|split; [apply grows_refl | done]].
  destruct (get_object_or_404 _) as [assc|]; simpl; [|split; [apply grows_refl | done]].
  destruct (Assign_of db _) as [assign|]; simpl; [|split; [apply grows_refl | done]].
  destruct (confirm_attendance _ _ _ _ _) as [db1|] eqn:Hconfirm; simpl;
    [|split; [apply grows_refl | done]].
  by apply confirm_attendance_grows in Hconfirm.
Qed.

Lemma t_class_date_grows (request : HttpRequest) (assign_id : Z) (db : Database) :
  grows db (database (t_class_date request assign_id db))
  /\ Marks_objects (database (t_class_date request assign_id db)) = Marks_objects db
  /\ (Attendance_objects (database (t_class_date request assign_id db))
        <> Attendance_objects db ->
      is_Some (POST request !! "confirm_attendance")).
Proof.
  unfold t_class_date, login_required.
  destruct (user request); [|split; [apply grows_refl | done]].
  destruct (get_object_or_404 _) as [assign|]; [|split; [apply grows_refl | done]].
  destruct (students_of_class db _) as [has_students students].
  destruct (bool_decide (method request = "POST")
            && bool_decide (is_Some (POST request !! "create_attendance"))).
  { destruct (POST request !! "attendance_date") as [date_str|];
      [|split; [apply grows_refl | done]].
    destruct (strptime date_str) as [attendance_date|];
      [|split; [apply grows_refl | done]].
    destruct (negb _); simpl.
    - assert (Hgrows : grows db
                (set_AttendanceClass_objects
                   (AttendanceClass_objects db ++
                    [AttendanceClass.mk
                       (next_id (AttendanceClass.id <$> AttendanceClass_objects db))
                       (Assign.id assign) attendance_date 0]) db)).
      { apply grows_intro; simpl; rewrite ?fmap_app; simpl; try done.
        - by apply prefix_app_r.
        - apply NoDup_snoc_next_id. }
      destruct (get _); rewrite ?t_class_date_page_database; simpl; (split; [done|done]).
    - destruct (get _); rewrite ?t_class_date_page_database; simpl;
        (split; [apply grows_refl | done]). }
  destruct (bool_decide (method request = "POST")
            && bool_decide (is_Some (POST request !! "confirm_attendance"))) eqn:Hc.
  { apply andb_true_iff in Hc as [_ Hc]. apply bool_decide_eq_true in Hc.
    destruct (_ ≫= _) as [assc|]; [|split; [apply grows_refl | done]].
    destruct (confirm_attendance _ _ _ _ _) as [db1|] eqn:Hconfirm; simpl;
      [|split; [apply grows_refl | done]].
    apply confirm_attendance_grows in Hconfirm as [Hgrows Hmarks]. done. }
  destruct (bool_decide (method request = "POST")
            && bool_decide (is_Some (POST request !! "select_attendance"))).
  { destruct (_ ≫= _) as [assc|]; [|split; [apply grows_refl | done]].
    rewrite t_class_date_page_database. split; [apply grows_refl | done]. }
  rewrite t_class_date_page_database. split; [apply grows_refl | done].
Qed.

Lemma grows_trans (db1 db2 db3 : Database) :
  grows db1 db2 -> grows db2 db3 -> grows db1 db3.
Proof.
  intros ((T1 & S1 & A1 & AT1 & SS1) & (E1 & C1 & N1 & M1) & K1)
         ((T2 & S2 & A2 & AT2 & SS2) & (E2 & C2 & N2 & M2) & K2).
  unfold grows. repeat split; try congruence; try (by etrans); auto.
  all: by apply K2, K1.
Qed.

Lemma handle_grows (op : operation) (request : HttpRequest) (db : Database) :
  grows db (database (handle op request db)).
Proof.
  pose proof (read_only_views op request db) as Hread.
  destruct op as [ | | | ? ? | assign_id | ? | marks_c_id | ? | ? | ? | assign_id
                   | ? | ass_c_id | ? | ? | ? | ? ];
    simpl in Hread |- *; try (rewrite ?Hread; apply grows_refl).
  - apply t_marks_list_grows.
  - apply marks_confirm_grows.
  - apply t_class_date_grows.
  - apply confirm_grows.
Qed.

(** Whatever view handles a request, and over any sequence of requests: the
    tables of teachers, students, assignments, scheduled slots and
    enrollments are not written; no row of exam sessions, attendance
    sessions, attendance or marks is deleted or given another primary key
    (the old keys stay in place, new ones come after them); and primary keys
    that are distinct stay distinct. *)
Theorem requests_only_grow_the_database (calls : list (operation * HttpRequest))
    (db : Database) :
  grows db (run calls db).
Proof.
  revert db. induction calls as [|[op request] rest IH]; intros db; simpl.
  - apply grows_refl.
  - eapply grows_trans; [apply handle_grows | apply IH].
Qed.

(** Marks are written by [marks_confirm] only, and attendance rows by
    [confirm] and by the [confirm_attendance] branch of [t_class_date]
    only: under every other view, and every other request, the two tables
    are returned as they were. *)
Theorem marks_and_attendance_writers (op : operation) (request : HttpRequest)
    (db : Database) :
  (Marks_objects (database (handle op request db)) <> Marks_objects db ->
   exists marks_c_id, op = call_marks_confirm marks_c_id)
  /\ (Attendance_objects (database (handle op request db)) <> Attendance_objects db ->
      (exists ass_c_id, op = call_confirm ass_c_id)
      \/ (exists assign_id, op = call_t_class_date assign_id
                            /\ method request = "POST"
                            /\ is_Some (POST request !! "confirm_attendance"))).
Proof.
  pose proof (read_only_views op request db) as Hread.
  destruct op as [ | | | ? ? | assign_id | ? | marks_c_id | ? | ? | ? | assign_id
                   | ? | ass_c_id | ? | ? | ? | ? ];
    simpl in Hread |- *; try (rewrite ?Hread; split; intros Hchanged; done).
  - destruct (t_marks_list_grows request assign_id db) as (_ & -> & ->).
    split; intros Hchanged; done.
  - destruct (marks_confirm_grows request marks_c_id db) as (_ & ->).
    split; [eauto | intros Hchanged; done].
  - destruct (t_class_date_grows request assign_id db) as (_ & -> & Hatt).
    split; [intros Hchanged; done|]. intros Hchanged. right. exists assign_id.
    split; [done|]. split; [|by apply Hatt].
    destruct (decide (method request = "POST")) as [|Hget]; [done|].
    exfalso. apply Hchanged. clear Hatt Hchanged.
    unfold t_class_date, login_required.
    destruct (user request); [|done].
    destruct (get_object_or_404 _) as [assign|]; [|done].
    destruct (students_of_class db _) as [has_students students].
    rewrite (bool_decide_eq_false_2 (method request = "POST")) by done. simpl.
    by rewrite t_class_date_page_database.
  - destruct (confirm_grows request ass_c_id db) as (_ & ->).
    split; [intros Hchanged; done | eauto].
Qed.

(** *** Creating an exam session *)

Lemma owner_check_passes (db : Database) (request : HttpRequest) (assignment : Assign.t) :
  passes_owner_check db request assignment ->
  exists teacher,
    Teacher_of db assignment = Ok teacher
    /\ bool_decide (is_Some (Teacher.user teacher))
       && bool_decide (Teacher.user teacher <> user request) = false.
Proof.
  intros (teacher & Hteacher & Howner). exists teacher.
  unfold Teacher_of. rewrite Hteacher. split; [done|].
  destruct Howner as [Hnone|Hsame].
  - rewrite Hnone. rewrite (bool_decide_eq_false_2 (is_Some None)); [done|].
    by intros [? ?].
  - rewrite (bool_decide_eq_false_2 (Teacher.user teacher <> user request));
      [apply andb_false_r|]. intros Hne. by apply Hne.
Qed.

(** A [create_exam] request that passes the ownership check leaves exactly
    one session with the key (assignment, name) when at most one existed:
    a missing session is added as pending, with the next primary key and
    the success message; an existing one is kept, with the warning.  The
    answer is the redirect to the marks list in both cases. *)
Theorem exam_creation_get_or_create (request : HttpRequest) (assign_id : Z)
    (db : Database) (assignment : Assign.t) (c : ascii) (s : string) :
  is_Some (user request) ->
  filter (fun a => Assign.id a = assign_id) (Assign_objects db) = [assignment] ->
  passes_owner_check db request assignment ->
  method request = "POST" ->
  is_Some (POST request !! "create_exam") ->
  POST request !! "exam_name" = Some (String c s) ->
  (length (filter (fun e => ExamSession.assign e = assign_id
                            /\ ExamSession.name e = String c s)
                  (ExamSession_objects db)) <= 1)%nat ->
  let result := t_marks_list request assign_id db in
  let same_key := fun e => ExamSession.assign e = assign_id
                           /\ ExamSession.name e = String c s in
  response result = Ok (redirect "t_marks_list" [assign_id])
  /\ length (filter same_key (ExamSession_objects (database result))) = 1%nat
  /\ (filter same_key (ExamSession_objects db) = [] ->
      database result =
        set_ExamSession_objects
          (ExamSession_objects db ++
           [ExamSession.mk (next_id (ExamSession.id <$> ExamSession_objects db))
              assign_id (String c s) false]) db
      /\ messages result = [(success, exam_created (String c s))])
  /\ (filter same_key (ExamSession_objects db) <> [] ->
      database result = db
      /\ messages result = [(warning, exam_already_exists (String c s))]).
Proof.
  intros [u Hu] Hassign Howner Hmethod Hcreate Hname Hatmost result same_key.
  destruct (owner_check_passes _ _ _ Howner) as (teacher & Hteacher & Hcheck).
  assert (Hid : Assign.id assignment = assign_id).
  { assert (Hin : assignment ∈ filter (fun a => Assign.id a = assign_id)
                                     (Assign_objects db)) by (rewrite Hassign; left).
    by apply list_elem_of_filter in Hin as [? _]. }
  unfold result, t_marks_list, login_required.
  rewrite Hu in Hcheck |- *. rewrite Hassign. simpl. rewrite Hteacher, Hcheck.
  rewrite !bool_decide_eq_true_2 by done. simpl. rewrite Hname.
  unfold ExamSession_get_or_create. rewrite Hid. fold same_key in Hatmost |- *.
  destruct (filter same_key (ExamSession_objects db)) as [|e [|e' l]] eqn:Hf;
    simpl in Hatmost; [| |lia]; simpl.
  - split; [done|]. split; [|split; [done | intros Hne; by destruct Hne]].
    rewrite filter_app, Hf. simpl. rewrite filter_cons_True; [done|]. by split.
  - split; [done|]. split; [by rewrite Hf|]. split; [discriminate | done].
Qed.

(** A [create_exam] request that passes the ownership check writes nothing
    and redirects to the marks list with an error message when the name is
    missing or empty, and when several sessions already have the key. *)
Theorem exam_creation_failures (request : HttpRequest) (assign_id : Z)
    (db : Database) (assignment : Assign.t) :
  is_Some (user request) ->
  filter (fun a => Assign.id a = assign_id) (Assign_objects db) = [assignment] ->
  passes_owner_check db request assignment ->
  method request = "POST" ->
  is_Some (POST request !! "create_exam") ->
  (POST request !! "exam_name" = None \/ POST request !! "exam_name" = Some EmptyString ->
   t_marks_list request assign_id db
   = mkViewResult db [(error, exam_name_required)]
       (Ok (redirect "t_marks_list" [assign_id])))
  /\ (forall exam_name,
        POST request !! "exam_name" = Some exam_name ->
        exam_name <> EmptyString ->
        (2 <= length (filter (fun e => ExamSession.assign e = assign_id
                                       /\ ExamSession.name e = exam_name)
                             (ExamSession_objects db)))%nat ->
        t_marks_list request assign_id db
        = mkViewResult db [(error, exam_creation_failed MultipleObjectsReturned)]
            (Ok (redirect "t_marks_list" [assign_id]))).
Proof.
  intros [u Hu] Hassign Howner Hmethod Hcreate.
  destruct (owner_check_passes _ _ _ Howner) as (teacher & Hteacher & Hcheck).
  assert (Hid : Assign.id assignment = assign_id).
  { assert (Hin : assignment ∈ filter (fun a => Assign.id a = assign_id)
                                     (Assign_objects db)) by (rewrite Hassign; left).
    by apply list_elem_of_filter in Hin as [? _]. }
  split.
  - intros Hname. unfold t_marks_list, login_required.
    rewrite Hu in Hcheck |- *. rewrite Hassign. simpl. rewrite Hteacher, Hcheck.
    rewrite !bool_decide_eq_true_2 by done. simpl.
    by destruct Hname as [-> | ->].
  - intros exam_name Hname Hnonempty Hmany. unfold t_marks_list, login_required.
    rewrite Hu in Hcheck |- *. rewrite Hassign. simpl. rewrite Hteacher, Hcheck.
    rewrite !bool_decide_eq_true_2 by done. simpl. rewrite Hname.
    destruct exam_name as [|c s]; [done|].
    unfold ExamSession_get_or_create. rewrite Hid.
    destruct (filter _ (ExamSession_objects db)) as [|e [|e' l]];
      simpl in Hmany; [lia | lia | done].
Qed.

(** *** Creating an attendance session *)

(** A [create_attendance] request with a date that parses leaves exactly
    one session with the key (assignment, date) when at most one existed,
    and renders the page with that session selected: a missing session is
    added as Not Marked with the next primary key, an existing one is kept
    and nothing is written.  No message is queued. *)
Theorem attendance_creation_get_or_create (request : HttpRequest) (assign_id : Z)
    (db : Database) (assign : Assign.t) (teacher : Teacher.t)
    (date_str : string) (attendance_date : date) :
  is_Some (user request) ->
  filter (fun a => Assign.id a = assign_id) (Assign_objects db) = [assign] ->
  Teacher_of db assign = Ok teacher ->
  method request = "POST" ->
  is_Some (POST request !! "create_attendance") ->
  POST request !! "attendance_date" = Some date_str ->
  strptime date_str = Some attendance_date ->
  (length (filter (fun c => AttendanceClass.assign c = assign_id
                            /\ AttendanceClass.date_ c = attendance_date)
                  (AttendanceClass_objects db)) <= 1)%nat ->
  let result := t_class_date request assign_id db in
  let same_key := fun c => AttendanceClass.assign c = assign_id
                           /\ AttendanceClass.date_ c = attendance_date in
  messages result = []
  /\ exists selected_assc att_list has_students students,
       filter same_key (AttendanceClass_objects (database result)) = [selected_assc]
       /\ response result =
            Ok (render "t_class_date.html"
                  (t_class_date_context assign att_list (Some selected_assc)
                     has_students students (Teacher.name teacher)))
       /\ (filter same_key (AttendanceClass_objects db) = [] ->
           selected_assc =
             AttendanceClass.mk
               (next_id (AttendanceClass.id <$> AttendanceClass_objects db))
               assign_id attendance_date 0
           /\ database result =
                set_AttendanceClass_objects
                  (AttendanceClass_objects db ++ [selected_assc]) db)
       /\ (filter same_key (AttendanceClass_objects db) <> [] -> database result = db).
Proof.
  intros [u Hu] Hassign Hteacher Hmethod Hcreate Hdate Hparse Hatmost result same_key.
  assert (Hid : Assign.id assign = assign_id).
  { assert (Hin : assign ∈ filter (fun a => Assign.id a = assign_id)
                                 (Assign_objects db)) by (rewrite Hassign; left).
    by apply list_elem_of_filter in Hin as [? _]. }
  unfold result, t_class_date, login_required.
  rewrite Hu, Hassign. simpl.
  rewrite !bool_decide_eq_true_2 by done. simpl.
  rewrite Hdate, Hparse, Hid. fold same_key in Hatmost |- *.
  destruct (filter same_key (AttendanceClass_objects db)) as [|row [|row' l]] eqn:Hf;
    simpl in Hatmost; [| |lia]; simpl.
  - assert (Hnew : forall new_assc,
              same_key new_assc ->
              filter same_key (AttendanceClass_objects db ++ [new_assc]) = [new_assc]).
    { intros new_assc Hkey. rewrite filter_app, Hf. simpl.
      by rewrite filter_cons_True. }
    rewrite Hnew by (by split). simpl.
    unfold t_class_date_page, Teacher_of in Hteacher |- *. simpl. rewrite Hteacher.
    simpl. split; [done|]. eexists _, _, _, _.
    split; [apply Hnew; by split|].
    split; [reflexivity|]. split; [done | intros Hne; by destruct Hne].
  - rewrite Hf. simpl.
    unfold t_class_date_page. rewrite Hteacher.
    simpl. split; [done|]. eexists _, _, _, _. split; [exact Hf|].
    split; [reflexivity|]. split; [discriminate | done].
Qed.

(** A [create_attendance] request writes nothing when it cannot create:
    without the field [attendance_date] a [TypeError] escapes the view; with
    a date that does not parse the view queues the error message and
    redirects to the class-date page; with several sessions already holding
    the key, [MultipleObjectsReturned] escapes the view. *)
Theorem attendance_creation_failures (request : HttpRequest) (assign_id : Z)
    (db : Database) (assign : Assign.t) :
  is_Some (user request) ->
  filter (fun a => Assign.id a = assign_id) (Assign_objects db) = [assign] ->
  method request = "POST" ->
  is_Some (POST request !! "create_attendance") ->
  (POST request !! "attendance_date" = None ->
   t_class_date request assign_id db = raised db TypeError)
  /\ (forall date_str,
        POST request !! "attendance_date" = Some date_str ->
        strptime date_str = None ->
        t_class_date request assign_id db
        = mkViewResult db [(error, invalid_date_format)]
            (Ok (redirect "t_class_date" [assign_id])))
  /\ (forall date_str attendance_date,
        POST request !! "attendance_date" = Some date_str ->
        strptime date_str = Some attendance_date ->
        (2 <= length (filter (fun c => AttendanceClass.assign c = assign_id
                                       /\ AttendanceClass.date_ c = attendance_date)
                             (AttendanceClass_objects db)))%nat ->
        t_class_date request assign_id db = raised db MultipleObjectsReturned).
Proof.
  intros [u Hu] Hassign Hmethod Hcreate.
  assert (Hid : Assign.id assign = assign_id).
  { assert (Hin : assign ∈ filter (fun a => Assign.id a = assign_id)
                                 (Assign_objects db)) by (rewrite Hassign; left).
    by apply list_elem_of_filter in Hin as [? _]. }
  split; [|split].
  - intros Hdate. unfold t_class_date, login_required.
    rewrite Hu, Hassign. simpl. rewrite !bool_decide_eq_true_2 by done. simpl.
    by rewrite Hdate.
  - intros date_str Hdate Hparse. unfold t_class_date, login_required.
    rewrite Hu, Hassign. simpl. rewrite !bool_decide_eq_true_2 by done. simpl.
    by rewrite Hdate, Hparse, Hid.
  - intros date_str attendance_date Hdate Hparse Hmany.
    unfold t_class_date, login_required.
    rewrite Hu, Hassign. simpl. rewrite !bool_decide_eq_true_2 by done. simpl.
    rewrite Hdate, Hparse, Hid.
    destruct (filter _ (AttendanceClass_objects db)) as [|row [|row' l]] eqn:Hf;
      simpl in Hmany; [lia | lia |]. simpl. by rewrite Hf.
Qed.

(** *** Confirming marks *)

Lemma filter_singleton_elem {A : Type} (P : A -> Prop) `{forall x, Decision (P x)}
    (l : list A) (x y : A) :
  filter P l = [x] -> y ∈ l -> P y -> y = x.
Proof.
  intros Hf Hy HP.
  assert (Hin : y ∈ filter P l) by (by apply list_elem_of_filter).
  rewrite Hf in Hin. by apply list_elem_of_singleton in Hin.
Qed.

Lemma get_Ok_singleton {A : Type} (l : list A) (x : A) : get l = Ok x -> l = [x].
Proof. destruct l as [|y [|z l]]; simpl; try discriminate. by intros [= ->]. Qed.

Lemma get_DoesNotExist_nil {A : Type} (l : list A) : get l = Raise DoesNotExist -> l = [].
Proof. by destruct l as [|y [|z l]]. Qed.

(** The loop of [marks_confirm]: every student of the list who has a form
    field and an enrollment ends with a mark holding the submitted score;
    marks that already hold the submitted score of their enrollment keep
    it. *)
Lemma save_marks_records (request : HttpRequest) (subject : Z) (exam_name : string)
    (enrollments : list StudentSubject.t) (students : list Student.t)
    (db db' : Database) :
  NoDup (StudentSubject.id <$> enrollments) ->
  StudentSubject_objects db = enrollments ->
  NoDup (Marks.id <$> Marks_objects db) ->
  save_marks request subject exam_name students db = Ok db' ->
  (forall student ss student_mark,
     student ∈ students -> ss ∈ enrollments ->
     StudentSubject.subject ss = subject ->
     StudentSubject.student ss = Student.USN student ->
     POST request !! Student.USN student = Some student_mark ->
     exists mark, int student_mark = Some mark
                  /\ mark_recorded db' (StudentSubject.id ss) exam_name mark)
  /\ (forall ss student_mark mark,
        ss ∈ enrollments ->
        POST request !! StudentSubject.student ss = Some student_mark ->
        int student_mark = Some mark ->
        mark_recorded db (StudentSubject.id ss) exam_name mark ->
        mark_recorded db' (StudentSubject.id ss) exam_name mark).
Proof.
  intros Hss. revert db.
  induction students as [|student rest IH]; intros db Htable Hnd Hrun; simpl in Hrun.
  - injection Hrun as <-. split; [|done]. intros s ? ? Hs. inversion Hs.
  - destruct (POST request !! Student.USN student) as [student_mark|] eqn:Hfield.
    2:{ destruct (IH db Htable Hnd Hrun) as [Hrest Hkeep]. split; [|done].
        intros s ss0 sm Hs Hss0 Hsub Hstu Hf.
        apply elem_of_cons in Hs as [->|Hs]; [congruence | by eapply Hrest]. }
    rewrite Htable in Hrun.
    destruct (get _) as [student_subject|e] eqn:Hget.
    2:{ destruct e; try discriminate.
        destruct (IH db Htable Hnd Hrun) as [Hrest Hkeep]. split; [|done].
        intros s ss0 sm Hs Hss0 Hsub Hstu Hf.
        apply elem_of_cons in Hs as [->|Hs]; [|by eapply Hrest].
        apply get_DoesNotExist_nil in Hget.
        assert (Hin : ss0 ∈ filter
                  (fun ss => StudentSubject.subject ss = subject
                             /\ StudentSubject.student ss = Student.USN student)
                  enrollments) by (by apply list_elem_of_filter).
        rewrite Hget in Hin. inversion Hin. }
    apply get_Ok_singleton in Hget.
    assert (Hssin : student_subject ∈ enrollments
                    /\ StudentSubject.student student_subject = Student.USN student).
    { assert (Hin : student_subject ∈ filter
                  (fun ss => StudentSubject.subject ss = subject
                             /\ StudentSubject.student ss = Student.USN student)
                  enrollments) by (rewrite Hget; left).
      apply list_elem_of_filter in Hin as [[_ ?] ?]. done. }
    destruct Hssin as [Hssin Hssstudent].
    destruct (Marks_get_or_create _ _ _) as [[[marks_instance created] db1]|] eqn:Hgoc;
      simpl in Hrun; [|discriminate].
    destruct (int student_mark) as [mark|] eqn:Hint; [|discriminate].
    set (saved := Marks.mk (Marks.id marks_instance) (Marks.studentsubject marks_instance)
                    (Marks.name marks_instance) mark) in Hrun.
    assert (Hstep : StudentSubject_objects (Marks_save saved db1) = enrollments
                    /\ NoDup (Marks.id <$> Marks_objects (Marks_save saved db1))
                    /\ mark_recorded (Marks_save saved db1)
                         (StudentSubject.id student_subject) exam_name mark
                    /\ (forall ss sm m,
                          ss ∈ enrollments ->
                          POST request !! StudentSubject.student ss = Some sm ->
                          int sm = Some m ->
                          mark_recorded db (StudentSubject.id ss) exam_name m ->
                          mark_recorded (Marks_save saved db1)
                            (StudentSubject.id ss) exam_name m)).
    { unfold Marks_get_or_create in Hgoc.
      destruct (filter _ (Marks_objects db)) as [|existing [|? ?]] eqn:Hf;
        [| |discriminate]; injection Hgoc as <- <- <-.
      - (* created *)
        assert (Hfresh : forall row, row ∈ Marks_objects db ->
                  Marks.id row <> next_id (Marks.id <$> Marks_objects db)).
        { intros row Hrow Heq.
          assert (Marks.id row < next_id (Marks.id <$> Marks_objects db))
            by (apply next_id_fresh; by apply list_elem_of_fmap_2).
          lia. }
        split; [done|]. split.
        { rewrite Marks_save_keys. simpl. rewrite fmap_app. by apply NoDup_snoc_next_id. }
        split.
        + exists saved. split; [|done]. unfold Marks_save; simpl.
          apply list_elem_of_fmap. eexists. split; [|apply elem_of_app; right; left].
          unfold saved; simpl. by rewrite bool_decide_eq_true_2.
        + intros ss sm m Hin Hfield' Hint' (row & Hrow & Hkey).
          exists row. split; [|done]. unfold Marks_save; simpl.
          apply list_elem_of_fmap. exists row. split.
          * unfold saved; simpl. rewrite bool_decide_eq_false_2; [done|].
            by apply Hfresh.
          * apply elem_of_app. by left.
      - (* existing *)
        assert (Hex : existing ∈ Marks_objects db
                      /\ Marks.studentsubject existing = StudentSubject.id student_subject
                      /\ Marks.name existing = exam_name).
        { assert (Hin : existing ∈ filter
                    (fun m => Marks.studentsubject m = StudentSubject.id student_subject
                              /\ Marks.name m = exam_name) (Marks_objects db))
            by (rewrite Hf; left).
          apply list_elem_of_filter in Hin as [[? ?] ?]. done. }
        destruct Hex as (Hexin & Hexss & Hexname).
        assert (Hsaved : saved ∈ Marks_objects (Marks_save saved db)).
        { unfold Marks_save; simpl. apply list_elem_of_fmap. exists existing.
          split; [|done]. unfold saved; simpl. by rewrite bool_decide_eq_true_2. }
        split; [done|]. split; [by rewrite Marks_save_keys|]. split.
        + exists saved. split; [exact Hsaved | done].
        + intros ss sm m Hin Hfield' Hint' (row & Hrow & Hrss & Hrname & Hrmark).
          destruct (decide (Marks.id row = Marks.id existing)) as [Hsame|Hdiff].
          * assert (row = existing) as ->
              by (by apply (NoDup_fmap_same Marks.id (Marks_objects db))).
            assert (ss = student_subject) as ->.
            { apply (NoDup_fmap_same StudentSubject.id enrollments); try done.
              congruence. }
            exists saved. split; [exact Hsaved|]. unfold saved; simpl.
            repeat split; try done. congruence.
          * exists row. split; [|done]. unfold Marks_save; simpl.
            apply list_elem_of_fmap. exists row. split; [|done].
            unfold saved; simpl. by rewrite bool_decide_eq_false_2. }
    destruct Hstep as (Htable' & Hnd' & Hthis & Hkeep1).
    destruct (IH _ Htable' Hnd' Hrun) as [Hrest Hkeep].
    split.
    + intros s ss0 sm Hs Hss0 Hsub Hstu Hf.
      apply elem_of_cons in Hs as [->|Hs]; [|by eapply Hrest].
      assert (ss0 = student_subject) as ->
        by (by apply (filter_singleton_elem _ _ _ _ Hget)).
      assert (sm = student_mark) as -> by congruence.
      exists mark. split; [done|].
      apply (Hkeep student_subject student_mark mark); try done. congruence.
    + intros ss sm m Hin Hfield' Hint' Hrec.
      apply (Hkeep ss sm m); try done. by apply (Hkeep1 ss sm m).
Qed.

(** When [marks_confirm] answers, it answers with the redirect to the marks
    list of the session's assignment; every session with the given primary
    key is finalized; and every student of the class who has a form field
    and an enrollment for the subject has a mark of that enrollment under
    the name of the exam, holding the integer of the submitted field. *)
Theorem marks_confirm_records_marks (request : HttpRequest) (marks_c_id : Z)
    (db : Database) (r : HttpResponse) :
  NoDup (Marks.id <$> Marks_objects db) ->
  NoDup (StudentSubject.id <$> StudentSubject_objects db) ->
  is_Some (user request) ->
  response (marks_confirm request marks_c_id db) = Ok r ->
  exists exam_session assignment,
    exam_session ∈ ExamSession_objects db
    /\ ExamSession.id exam_session = marks_c_id
    /\ Assign_of db (ExamSession.assign exam_session) = Ok assignment
    /\ r = redirect "t_marks_list" [Assign.id assignment]
    /\ (forall e, e ∈ ExamSession_objects (database (marks_confirm request marks_c_id db)) ->
                  ExamSession.id e = marks_c_id -> ExamSession.status e = true)
    /\ (forall student ss student_mark,
          student ∈ Student_objects db ->
          Student.class_id student = Assign.class_id assignment ->
          ss ∈ StudentSubject_objects db ->
          StudentSubject.subject ss = Assign.subject assignment ->
          StudentSubject.student ss = Student.USN student ->
          POST request !! Student.USN student = Some student_mark ->
          exists mark,
            int student_mark = Some mark
            /\ mark_recorded (database (marks_confirm request marks_c_id db))
                 (StudentSubject.id ss) (ExamSession.name exam_session) mark).
Proof.
  intros Hnd Hss [u Hu]. unfold marks_confirm, login_required. rewrite Hu.
  destruct (get_object_or_404 _) as [exam_session|] eqn:Hes; simpl; [|done].
  apply get_object_or_404_filter in Hes as [Hin Hid].
  destruct (Assign_of db _) as [assignment|] eqn:Hassign; simpl; [|done].
  destruct (save_marks _ _ _ _ _) as [db1|] eqn:Hsave; simpl; [|done].
  intros [= <-]. exists exam_session, assignment. repeat split; try done.
  - intros e He Heid. apply list_elem_of_fmap in He as (e0 & -> & _).
    case_bool_decide as Hcase; [done|]. simpl in Heid. congruence.
  - intros student ss student_mark Hstudent Hclass Hssin Hsub Hstu Hfield.
    destruct (save_marks_records _ _ _ _ _ _ _ Hss eq_refl Hnd Hsave) as [Hall _].
    destruct (Hall student ss student_mark) as (mark & Hint & row & Hrow & Hkey);
      try done.
    { by apply list_elem_of_filter. }
    exists mark. split; [done|]. exists row. split; [exact Hrow | done].
Qed.

(** The loop of [marks_confirm] raises when a student of the list with an
    enrollment submitted a field that is no integer. *)
Lemma save_marks_raises (request : HttpRequest) (subject : Z) (exam_name : string)
    (enrollments : list StudentSubject.t) (students : list Student.t) (db : Database)
    (student : Student.t) (ss : StudentSubject.t) (student_mark : string) :
  StudentSubject_objects db = enrollments ->
  student ∈ students -> ss ∈ enrollments ->
  StudentSubject.subject ss = subject ->
  StudentSubject.student ss = Student.USN student ->
  POST request !! Student.USN student = Some student_mark ->
  int student_mark = None ->
  exists e, save_marks request subject exam_name students db = Raise e.
Proof.
  intros Htable Hstudent Hss Hsub Hstu Hfield Hint. revert db Htable.
  induction students as [|s rest IH]; intros db Htable; [inversion Hstudent|].
  simpl. apply elem_of_cons in Hstudent as [<-|Hrest].
  - rewrite Hfield, Htable.
    destruct (get _) as [student_subject|e] eqn:Hget.
    + unfold Marks_get_or_create.
      destruct (filter _ (Marks_objects db)) as [|m [|m' ms]]; simpl; try (by eexists);
        rewrite Hint; by eexists.
    + destruct e; try (by eexists).
      apply get_DoesNotExist_nil in Hget.
      assert (Hin : ss ∈ filter
                (fun x => StudentSubject.subject x = subject
                          /\ StudentSubject.student x = Student.USN student)
                enrollments) by (by apply list_elem_of_filter).
      rewrite Hget in Hin. inversion Hin.
  - destruct (POST request !! Student.USN s) as [sm|]; [|by apply IH].
    destruct (get _) as [student_subject|[]]; try (by eexists); [|by apply IH].
    unfold Marks_get_or_create.
    destruct (filter _ (Marks_objects db)) as [|m [|m' ms]]; simpl; try (by eexists);
      (destruct (int sm); [|by eexists]); by apply IH.
Qed.

(** All or nothing: when a student of the class with an enrollment for the
    subject submitted a field that is no integer, an exception escapes
    [marks_confirm] and the database is as before the request (no mark of
    any student is written and the session is not finalized). *)
Theorem marks_confirm_rolls_back (request : HttpRequest) (marks_c_id : Z)
    (db : Database) (exam_session : ExamSession.t) (assignment : Assign.t)
    (student : Student.t) (ss : StudentSubject.t) (student_mark : string) :
  is_Some (user request) ->
  filter (fun e => ExamSession.id e = marks_c_id) (ExamSession_objects db) = [exam_session] ->
  Assign_of db (ExamSession.assign exam_session) = Ok assignment ->
  student ∈ Student_objects db ->
  Student.class_id student = Assign.class_id assignment ->
  ss ∈ StudentSubject_objects db ->
  StudentSubject.subject ss = Assign.subject assignment ->
  StudentSubject.student ss = Student.USN student ->
  POST request !! Student.USN student = Some student_mark ->
  int student_mark = None ->
  exists e, marks_confirm request marks_c_id db = raised db e.
Proof.
  intros [u Hu] Hes Hassign Hstudent Hclass Hss Hsub Hstu Hfield Hint.
  unfold marks_confirm, login_required. rewrite Hu, Hes. simpl. rewrite Hassign. simpl.
  destruct (save_marks_raises request (Assign.subject assignment)
              (ExamSession.name exam_session) (StudentSubject_objects db)
              (student_set db (Assign.class_id assignment)) db student ss student_mark)
    as [e ->]; try done.
  { by apply list_elem_of_filter. }
  by exists e.
Qed.

(** *** Submitting the attendance form again *)

Lemma filter_fmap_stable {A : Type} (P : A -> Prop) `{forall x, Decision (P x)}
    (f : A -> A) (l : list A) :
  (forall a, a ∈ l -> (P (f a) <-> P a)) ->
  filter P (f <$> l) = f <$> filter P l.
Proof.
  induction l as [|a l IH]; intros Hstable; [done|].
  rewrite fmap_cons.
  assert (Ha : P (f a) <-> P a) by (apply Hstable; left).
  assert (Hl : forall b, b ∈ l -> (P (f b) <-> P b))
    by (intros b Hb; apply Hstable; by right).
  destruct (decide (P a)) as [HP|HnP].
  - rewrite (filter_cons_True P a l HP), filter_cons_True by (by apply Ha).
    rewrite fmap_cons. f_equal. by apply IH.
  - rewrite (filter_cons_False P a l HnP), filter_cons_False
      by (intros HP; by apply HnP, Ha).
    by apply IH.
Qed.

Lemma record_attendance_settles_one (request : HttpRequest) (subject : Z)
    (assc : AttendanceClass.t) (student : Student.t) (db db' : Database) :
  NoDup (Attendance.id <$> Attendance_objects db) ->
  record_attendance request subject assc [student] db = Ok db' ->
  settled request subject assc db' student
  /\ (forall other, settled request subject assc db other ->
                    settled request subject assc db' other).
Proof.
  intros Hnd. simpl. unfold Attendance_get_or_create.
  destruct (filter _ (Attendance_objects db)) as [|existing [|? ?]] eqn:Hf; simpl;
    [| |discriminate]; intros [= <-]; unfold settled; simpl.
  - split.
    + eexists. rewrite filter_app, Hf. simpl. rewrite filter_cons_True by done.
      split; [reflexivity | done].
    + intros other (row & Hrow & Hstatus). exists row. split; [|done].
      rewrite filter_app, Hrow. simpl. rewrite filter_cons_False; [done|].
      simpl. intros (Husn & _). rewrite Husn in Hf. rewrite Hf in Hrow. discriminate.
  - assert (Hex : existing ∈ filter
              (fun a => Attendance.student a = Student.USN student
                        /\ Attendance.subject a = subject
                        /\ Attendance.attendanceclass a = AttendanceClass.id assc
                        /\ Attendance.date_ a = AttendanceClass.date_ assc)
              (Attendance_objects db)) by (rewrite Hf; left).
    apply list_elem_of_filter in Hex as [(Hst & Hsu & Hac & Hda) Hin].
    set (updated := Attendance.mk (Attendance.id existing) (Attendance.student existing)
                      (Attendance.subject existing) (Attendance.attendanceclass existing)
                      (Attendance.date_ existing)
                      (bool_decide (POST request !! Student.USN student = Some "present"))).
    set (save := fun a => if bool_decide (Attendance.id a = Attendance.id existing)
                          then updated else a).
    assert (Hkeys : forall other a,
              a ∈ Attendance_objects db ->
              (Attendance.student (save a) = Student.USN other
               /\ Attendance.subject (save a) = subject
               /\ Attendance.attendanceclass (save a) = AttendanceClass.id assc
               /\ Attendance.date_ (save a) = AttendanceClass.date_ assc)
              <-> (Attendance.student a = Student.USN other
                   /\ Attendance.subject a = subject
                   /\ Attendance.attendanceclass a = AttendanceClass.id assc
                   /\ Attendance.date_ a = AttendanceClass.date_ assc)).
    { intros other a Ha. unfold save. case_bool_decide as Hid; [|done].
      assert (a = existing) as ->
        by (by apply (NoDup_fmap_same Attendance.id (Attendance_objects db))).
      done. }
    assert (Hsave_existing : save existing = updated)
      by (unfold save; by rewrite bool_decide_eq_true_2).
    split.
    + exists updated. split; [|done].
      rewrite (filter_fmap_stable _ save _ (Hkeys student)), Hf. simpl.
      by rewrite Hsave_existing.
    + intros other (row & Hrow & Hstatus). exists (save row).
      rewrite (filter_fmap_stable _ save _ (Hkeys other)), Hrow. split; [done|].
      unfold save. case_bool_decide as Hid; [|done].
      assert (Hrowin : row ∈ filter
                (fun a => Attendance.student a = Student.USN other
                          /\ Attendance.subject a = subject
                          /\ Attendance.attendanceclass a = AttendanceClass.id assc
                          /\ Attendance.date_ a = AttendanceClass.date_ assc)
                (Attendance_objects db)) by (rewrite Hrow; left).
      apply list_elem_of_filter in Hrowin as [(Hst' & _) Hrowin].
      assert (row = existing) as ->
        by (by apply (NoDup_fmap_same Attendance.id (Attendance_objects db))).
      unfold updated, submitted_status; simpl. by rewrite <- Hst', Hst.
Qed.

Lemma record_attendance_settles (request : HttpRequest) (subject : Z)
    (assc : AttendanceClass.t) (students : list Student.t) (db db' : Database) :
  NoDup (Attendance.id <$> Attendance_objects db) ->
  record_attendance request subject assc students db = Ok db' ->
  (forall student, student ∈ students -> settled request subject assc db' student)
  /\ (forall other, settled request subject assc db other ->
                    settled request subject assc db' other).
Proof.
  revert db. induction students as [|student rest IH]; intros db Hnd Hrun.
  - simpl in Hrun. injection Hrun as <-. split; [|done]. intros s Hs. inversion Hs.
  - rewrite record_attendance_cons in Hrun.
    destruct (record_attendance request subject assc [student] db) as [db1|] eqn:Hone;
      simpl in Hrun; [|discriminate].
    pose proof (record_attendance_keys _ _ _ _ _ _ Hone) as (_ & Hnd1 & _).
    apply record_attendance_settles_one in Hone as (Hthis & Hkeep); [|done].
    destruct (IH db1 (Hnd1 Hnd) Hrun) as [Hrest Hkeep'].
    split.
    + intros s Hs. apply elem_of_cons in Hs as [->|Hs]; [by apply Hkeep' | by apply Hrest].
    + intros other Hother. by apply Hkeep', Hkeep.
Qed.

(** When every student of the list already has the single row with the
    submitted status, the loop writes nothing. *)
Lemma record_attendance_fixed (request : HttpRequest) (subject : Z)
    (assc : AttendanceClass.t) (students : list Student.t) (db : Database) :
  NoDup (Attendance.id <$> Attendance_objects db) ->
  (forall student, student ∈ students -> settled request subject assc db student) ->
  record_attendance request subject assc students db = Ok db.
Proof.
  intros Hnd. induction students as [|student rest IH]; intros Hall; [done|].
  simpl. unfold Attendance_get_or_create.
  destruct (Hall student) as (row & Hrow & Hstatus); [left|].
  rewrite Hrow. simpl.
  assert (Hin : row ∈ Attendance_objects db).
  { assert (Hin : row ∈ filter
              (fun a => Attendance.student a = Student.USN student
                        /\ Attendance.subject a = subject
                        /\ Attendance.attendanceclass a = AttendanceClass.id assc
                        /\ Attendance.date_ a = AttendanceClass.date_ assc)
              (Attendance_objects db)) by (rewrite Hrow; left).
    by apply list_elem_of_filter in Hin as [_ ?]. }
  assert (Hsame : Attendance.mk (Attendance.id row) (Attendance.student row)
                    (Attendance.subject row) (Attendance.attendanceclass row)
                    (Attendance.date_ row)
                    (bool_decide (POST request !! Student.USN student = Some "present"))
                  = row).
  { unfold submitted_status in Hstatus. rewrite <- Hstatus. by destruct row. }
  rewrite Hsame. unfold Attendance_save.
  rewrite (fmap_save_same Attendance.id row (Attendance_objects db) Hnd Hin).
  replace (set_Attendance_objects (Attendance_objects db) db) with db by (by destruct db).
  apply IH. intros s Hs. apply Hall. by right.
Qed.

(** Submitting the same attendance form to [confirm] again changes nothing:
    after a request that [confirm] answered, the same request gets the same
    answer and message and leaves the database as the first one left it. *)
Theorem confirm_is_idempotent (request : HttpRequest) (ass_c_id : Z) (db : Database)
    (r : HttpResponse) :
  NoDup (Attendance.id <$> Attendance_objects db) ->
  is_Some (user request) ->
  response (confirm request ass_c_id db) = Ok r ->
  confirm request ass_c_id (database (confirm request ass_c_id db))
  = confirm request ass_c_id db.
Proof.
  intros Hnd [u Hu]. unfold confirm, login_required. rewrite Hu.
  destruct (get_object_or_404 _) as [assc|] eqn:Hassc; simpl; [|done].
  destruct (Assign_of db _) as [assign|] eqn:Hassign; simpl; [|done].
  unfold confirm_attendance.
  destruct (record_attendance _ _ _ _ _) as [db1|] eqn:Hrec; simpl; [|done].
  intros _.
  pose proof (record_attendance_frame _ _ _ _ _ _ Hrec) as (_ & Hac & Hst).
  pose proof (record_attendance_static _ _ _ _ _ _ Hrec) as (_ & Has & _ & _).
  pose proof (record_attendance_keys _ _ _ _ _ _ Hrec) as (_ & Hnd1 & _).
  pose proof (record_attendance_settles _ _ _ _ _ _ Hnd Hrec) as [Hsettled _].
  set (assc1 := AttendanceClass.mk (AttendanceClass.id assc) (AttendanceClass.assign assc)
                  (AttendanceClass.date_ assc) 1).
  set (save := fun c => if bool_decide (AttendanceClass.id c = AttendanceClass.id assc)
                        then assc1 else c).
  assert (Hfound : filter (fun c => AttendanceClass.id c = ass_c_id)
                     (save <$> AttendanceClass_objects db1) = [assc1]).
  { unfold get_object_or_404 in Hassc.
    destruct (get _) as [x|e] eqn:Hget; [|by destruct e].
    injection Hassc as ->. apply get_Ok_singleton in Hget.
    assert (Hid : AttendanceClass.id assc = ass_c_id).
    { assert (Hin : assc ∈ filter (fun c => AttendanceClass.id c = ass_c_id)
                                 (AttendanceClass_objects db)) by (rewrite Hget; left).
      by apply list_elem_of_filter in Hin as [? _]. }
    rewrite filter_fmap_stable.
    - rewrite Hac, Hget. simpl. unfold save. by rewrite bool_decide_eq_true_2.
    - intros c _. unfold save. case_bool_decide; [|done]. simpl. by split; congruence. }
  change (AttendanceClass_objects (AttendanceClass_save assc1 db1))
    with (save <$> AttendanceClass_objects db1).
  rewrite Hfound. simpl.
  assert (Hassign1 : Assign_of (AttendanceClass_save assc1 db1) (AttendanceClass.assign assc)
                     = Ok assign)
    by (unfold Assign_of in Hassign |- *; simpl; by rewrite Has).
  assert (Hstudents1 : forall c, student_set (AttendanceClass_save assc1 db1) c
                                 = student_set db c)
    by (intros c; unfold student_set; simpl; by rewrite Hst).
  rewrite Hassign1. simpl. rewrite !Hstudents1.
  rewrite (record_attendance_fixed request (Assign.subject assign) assc1 _
             (AttendanceClass_save assc1 db1)).
  - simpl. f_equal. unfold AttendanceClass_save, set_AttendanceClass_objects. simpl.
    f_equal. rewrite <- list_fmap_compose. apply list_fmap_ext.
    intros i c _. simpl. by repeat case_bool_decide.
  - exact (Hnd1 Hnd).
  - intros student Hstudent. destruct (Hsettled student Hstudent) as (row & Hrow & Hstatus).
    exists row. split; [|done]. exact Hrow.
Qed.

(** *** The two lists of [free_teachers], exactly *)

Lemma is_busy_has_slot (db : Database) (t : Teacher.t) (asst : AssignTime.t) :
  existsb (fun at_ => bool_decide (AssignTime.period at_ = AssignTime.period asst)
                      && bool_decide (AssignTime.day at_ = AssignTime.day asst))
          (AssignTime_of_teacher db t) = true ->
  has_slot_at db t (AssignTime.day asst) (AssignTime.period asst).
Proof.
  intros Hbusy. apply existsb_exists in Hbusy as (at_ & Hin & Hsame).
  apply list_elem_of_In in Hin. unfold AssignTime_of_teacher in Hin.
  apply list_elem_of_filter in Hin as [Hassign Hat].
  apply exists_filter_true in Hassign as (a & Ha & Hid & Ht).
  apply andb_prop in Hsame as [Hperiod Hday].
  apply bool_decide_eq_true_1 in Hperiod. apply bool_decide_eq_true_1 in Hday.
  by exists at_, a.
Qed.

Lemma teaches_subject_knowledge (db : Database) (t : Teacher.t) (subject : Z) :
  teaches_subject db t subject ->
  exists_ (filter (fun a => Assign.teacher a = Teacher.id t /\ Assign.subject a = subject)
                  (Assign_objects db)) = true.
Proof.
  intros (a & Ha & Ht & Hs). apply exists_filter_true. by exists a.
Qed.

(** The loop appends to each of its lists the teachers that pass the two
    tests of the list, in the order of the candidates. *)
Lemma partition_teachers_filter (db : Database) (asst : AssignTime.t) (subject : Z)
    (t_list ft0 tw0 : list Teacher.t) :
  partition_teachers db asst subject t_list ft0 tw0 =
    (ft0 ++ filter (fun t =>
                      existsb (fun at_ =>
                                 bool_decide (AssignTime.period at_ = AssignTime.period asst)
                                 && bool_decide (AssignTime.day at_ = AssignTime.day asst))
                              (AssignTime_of_teacher db t) = false
                      /\ exists_ (filter (fun a => Assign.teacher a = Teacher.id t
                                                   /\ Assign.subject a = subject)
                                         (Assign_objects db)) = true) t_list,
     tw0 ++ filter (fun t =>
                      existsb (fun at_ =>
                                 bool_decide (AssignTime.period at_ = AssignTime.period asst)
                                 && bool_decide (AssignTime.day at_ = AssignTime.day asst))
                              (AssignTime_of_teacher db t) = false
                      /\ exists_ (filter (fun a => Assign.teacher a = Teacher.id t
                                                   /\ Assign.subject a = subject)
                                         (Assign_objects db)) = false) t_list).
Proof.
  revert ft0 tw0. induction t_list as [|t rest IH]; intros ft0 tw0.
  - simpl. by rewrite !app_nil_r.
  - rewrite !filter_cons. cbn [partition_teachers].
    destruct (existsb _ (AssignTime_of_teacher db t)) eqn:Hbusy.
    + rewrite !decide_False by (intros [? _]; discriminate). simpl. by rewrite IH.
    + destruct (exists_ _) eqn:Hknow.
      * rewrite decide_True by done. rewrite decide_False by (intros [_ ?]; discriminate).
        simpl. rewrite IH. by rewrite <- app_assoc.
      * rewrite decide_False by (intros [_ ?]; discriminate). rewrite decide_True by done.
        simpl. rewrite IH. by rewrite <- app_assoc.
Qed.

(** Whenever the slot and its assignment are found, [free_teachers] renders
    two lists that hold exactly the free teachers of the class: a teacher of
    the class with no slot at the day and period of the queried slot is in
    the first list when the teacher has an assignment for the required
    subject and in the second when not; both lists follow the order of the
    candidates, the count shown is the length of the first list, and the
    warning is queued exactly when the first list is empty. *)
Theorem free_teachers_lists_every_free_teacher (request : HttpRequest) (asst_id : Z)
    (db : Database) (asst : AssignTime.t) (assign : Assign.t) :
  is_Some (user request) ->
  filter (fun at_ => AssignTime.id at_ = asst_id) (AssignTime_objects db) = [asst] ->
  Assign_of db (AssignTime.assign asst) = Ok assign ->
  exists ft_list teachers_without_knowledge : list Teacher.t,
    free_teachers request asst_id db =
      mkViewResult db
        (if bool_decide (ft_list = [])
         then [(warning, FREE_TEACHERS_NO_AVAILABLE_TEACHERS_MESSAGE)] else [])
        (Ok (render "free_teachers.html"
               (free_teachers_context ft_list (Assign.subject assign) asst
                  teachers_without_knowledge
                  (count (teachers_of_class db (Assign.class_id assign)))
                  (count ft_list))))
    /\ (forall t, t ∈ ft_list <->
          t ∈ teachers_of_class db (Assign.class_id assign)
          /\ ~ has_slot_at db t (AssignTime.day asst) (AssignTime.period asst)
          /\ teaches_subject db t (Assign.subject assign))
    /\ (forall t, t ∈ teachers_without_knowledge <->
          t ∈ teachers_of_class db (Assign.class_id assign)
          /\ ~ has_slot_at db t (AssignTime.day asst) (AssignTime.period asst)
          /\ ~ teaches_subject db t (Assign.subject assign))
    /\ ft_list `sublist_of` teachers_of_class db (Assign.class_id assign)
    /\ teachers_without_knowledge `sublist_of` teachers_of_class db (Assign.class_id assign).
Proof.
  intros [u Hu] Hasst Hassign. unfold free_teachers, login_required.
  rewrite Hu, Hasst. simpl. rewrite Hassign. simpl.
  rewrite partition_teachers_filter. simpl.
  eexists _, _. split; [|split; [|split; [|split]]].
  - f_equal. by destruct (filter _ (teachers_of_class _ _)).
  - intros t. rewrite list_elem_of_filter. split.
    + intros [[Hfree Hknow] Hin]. split; [done|]. split.
      * intros Hslot. apply is_busy_true in Hslot. congruence.
      * by apply has_subject_knowledge_true.
    + intros (Hin & Hfree & Hknow). split; [|done]. split.
      * destruct (existsb _ (AssignTime_of_teacher db t)) eqn:Hbusy; [|done].
        by apply is_busy_has_slot in Hbusy.
      * by apply teaches_subject_knowledge.
  - intros t. rewrite list_elem_of_filter. split.
    + intros [[Hfree Hknow] Hin]. split; [done|]. split.
      * intros Hslot. apply is_busy_true in Hslot. congruence.
      * intros Hteaches. apply teaches_subject_knowledge in Hteaches. congruence.
    + intros (Hin & Hfree & Hknow). split; [|done]. split.
      * destruct (existsb _ (AssignTime_of_teacher db t)) eqn:Hbusy; [|done].
        by apply is_busy_has_slot in Hbusy.
      * destruct (exists_ _) eqn:Hk; [|done].
        by apply has_subject_knowledge_true in Hk.
  - apply sublist_filter.
  - apply sublist_filter.
Qed.

(** *** The grid of the timetable *)

(** Placing one slot in a cell of the grid changes that cell only. *)
Lemma cell_at_placed (timetable : gmap string (gmap string (option Cell)))
    (row : gmap string (option Cell)) (day_ period day slot : string) (cell : Cell) :
  timetable !! day_ = Some row ->
  cell_at (<[day_ := <[period := Some cell]> row]> timetable) day slot =
    if decide (day = day_ /\ slot = period) then Some (Some cell)
    else cell_at timetable day slot.
Proof.
  intros Hrow. unfold cell_at.
  destruct (decide (day = day_)) as [->|Hday].
  - rewrite lookup_insert_eq, Hrow. simpl.
    destruct (decide (slot = period)) as [->|Hslot].
    + rewrite lookup_insert_eq. by rewrite decide_True.
    + rewrite lookup_insert_ne by done. rewrite decide_False; [done | by intros [_ ?]].
  - rewrite lookup_insert_ne by done. rewrite decide_False; [done | by intros [? _]].
Qed.

Lemma fill_timetable_cells (db : Database) (asst : list AssignTime.t)
    (timetable timetable' : gmap string (gmap string (option Cell)))
    (day slot : string) :
  fill_timetable db asst timetable = Ok timetable' ->
  (is_Some (cell_at timetable' day slot) <-> is_Some (cell_at timetable day slot))
  /\ (forall cell, cell_at timetable' day slot = Some (Some cell) ->
        cell_at timetable day slot = Some (Some cell)
        \/ exists at_, at_ ∈ asst
                       /\ AssignTime.day at_ = day /\ AssignTime.period at_ = slot
                       /\ Assign_of db (AssignTime.assign at_) = Ok (cell_assignment cell)
                       /\ cell_subject cell = Assign.subject (cell_assignment cell)
                       /\ cell_teacher cell = Assign.teacher (cell_assignment cell))
  /\ ((exists cell, cell_at timetable day slot = Some (Some cell))
      \/ (is_Some (cell_at timetable day slot)
          /\ exists at_, at_ ∈ asst
                         /\ AssignTime.day at_ = day /\ AssignTime.period at_ = slot) ->
      exists cell, cell_at timetable' day slot = Some (Some cell)).
Proof.
  revert timetable. induction asst as [|at_ rest IH]; intros timetable Hfill;
    simpl in Hfill.
  - injection Hfill as <-. split; [done|]. split; [by left|].
    intros [Hcell|(_ & at_ & Hin & _)]; [done | inversion Hin].
  - assert (Hskip : fill_timetable db rest timetable = Ok timetable' ->
              ~ (AssignTime.day at_ = day /\ AssignTime.period at_ = slot
                 /\ is_Some (cell_at timetable day slot)) ->
              (is_Some (cell_at timetable' day slot) <-> is_Some (cell_at timetable day slot))
              /\ (forall cell, cell_at timetable' day slot = Some (Some cell) ->
                    cell_at timetable day slot = Some (Some cell)
                    \/ exists a, a ∈ at_ :: rest
                         /\ AssignTime.day a = day /\ AssignTime.period a = slot
                         /\ Assign_of db (AssignTime.assign a) = Ok (cell_assignment cell)
                         /\ cell_subject cell = Assign.subject (cell_assignment cell)
                         /\ cell_teacher cell = Assign.teacher (cell_assignment cell))
              /\ ((exists cell, cell_at timetable day slot = Some (Some cell))
                  \/ (is_Some (cell_at timetable day slot)
                      /\ exists a, a ∈ at_ :: rest
                           /\ AssignTime.day a = day /\ AssignTime.period a = slot) ->
                  exists cell, cell_at timetable' day slot = Some (Some cell))).
    { intros Hrest Hnot. destruct (IH _ Hrest) as (Hshape & Hfrom & Hto).
      split; [done|]. split.
      - intros cell Hcell. destruct (Hfrom cell Hcell) as [?|(a & Ha & ?)]; [by left|].
        right. exists a. split; [by right | done].
      - intros [Hcell|(Hsome & a & Ha & Hday & Hperiod)]; [apply Hto; by left|].
        apply elem_of_cons in Ha as [->|Ha]; [by destruct Hnot|].
        apply Hto. right. split; [done|]. by exists a. }
    destruct (timetable !! AssignTime.day at_) as [row|] eqn:Hrow.
    2:{ apply Hskip; [done|]. intros (<- & _ & Hsome).
        unfold cell_at in Hsome. rewrite Hrow in Hsome. by destruct Hsome. }
    case_bool_decide as Hperiod.
    2:{ apply Hskip; [done|]. intros (<- & <- & Hsome).
        unfold cell_at in Hsome. rewrite Hrow in Hsome. done. }
    destruct (Assign_of db _) as [assign|] eqn:Hassign; simpl in Hfill; [|discriminate].
    destruct (IH _ Hfill) as (Hshape & Hfrom & Hto).
    rewrite (cell_at_placed _ _ _ _ _ _ _ Hrow) in Hshape, Hfrom, Hto.
    destruct (decide (day = AssignTime.day at_ /\ slot = AssignTime.period at_))
      as [[-> ->]|Hother].
    + assert (Hhere : is_Some (cell_at timetable (AssignTime.day at_) (AssignTime.period at_)))
        by (unfold cell_at; rewrite Hrow; done).
      split; [|split].
      * rewrite Hshape. split; [done | by eexists].
      * intros cell Hcell. destruct (Hfrom cell Hcell) as [Hplaced|(a & Ha & ?)].
        -- injection Hplaced as <-. right. exists at_. split; [left | done].
        -- right. exists a. split; [by right | done].
      * intros _. apply Hto. left. by eexists.
    + split; [done|]. split.
      * intros cell Hcell. destruct (Hfrom cell Hcell) as [?|(a & Ha & ?)]; [by left|].
        right. exists a. split; [by right | done].
      * intros [Hcell|(Hsome & a & Ha & Hday & Hper)]; [apply Hto; by left|].
        apply elem_of_cons in Ha as [->|Ha]; [by destruct Hother|].
        apply Hto. right. split; [done|]. by exists a.
Qed.

(** The grid that [t_timetable] fills has a cell for every day of the week
    and every slot of the slot list and no other cell; a cell is occupied
    exactly when one of the scheduled slots has its day and period, and then
    it holds the assignment of such a slot, with the subject and the teacher
    of that assignment. *)
Theorem timetable_grid (db : Database) (asst : list AssignTime.t)
    (timetable : gmap string (gmap string (option Cell))) (day slot : string) :
  fill_timetable db asst empty_timetable = Ok timetable ->
  (is_Some (cell_at timetable day slot) <-> day ∈ days /\ slot ∈ time_slots)
  /\ ((exists cell, cell_at timetable day slot = Some (Some cell)) <->
      day ∈ days /\ slot ∈ time_slots
      /\ exists at_, at_ ∈ asst /\ AssignTime.day at_ = day /\ AssignTime.period at_ = slot)
  /\ (forall cell, cell_at timetable day slot = Some (Some cell) ->
        exists at_, at_ ∈ asst
                    /\ AssignTime.day at_ = day /\ AssignTime.period at_ = slot
                    /\ Assign_of db (AssignTime.assign at_) = Ok (cell_assignment cell)
                    /\ cell_subject cell = Assign.subject (cell_assignment cell)
                    /\ cell_teacher cell = Assign.teacher (cell_assignment cell)).
Proof.
  intros Hfill.
  destruct (fill_timetable_cells db asst empty_timetable timetable day slot Hfill)
    as (Hshape & Hfrom & Hto).
  rewrite cell_at_empty_timetable in Hshape, Hfrom, Hto.
  assert (Hgrid : is_Some (cell_at timetable day slot) <-> day ∈ days /\ slot ∈ time_slots).
  { rewrite Hshape. repeat case_decide; split; try done; try (by intros [? ?]).
    all: intros [? ?]; done. }
  assert (Hsource : forall cell, cell_at timetable day slot = Some (Some cell) ->
            exists at_, at_ ∈ asst
                        /\ AssignTime.day at_ = day /\ AssignTime.period at_ = slot
                        /\ Assign_of db (AssignTime.assign at_) = Ok (cell_assignment cell)
                        /\ cell_subject cell = Assign.subject (cell_assignment cell)
                        /\ cell_teacher cell = Assign.teacher (cell_assignment cell)).
  { intros cell Hcell. destruct (Hfrom cell Hcell) as [Hempty|?]; [|done].
    repeat case_decide; discriminate. }
  split; [done|]. split; [|done]. split.
  - intros [cell Hcell]. destruct (Hsource cell Hcell) as (at_ & Hin & Hday & Hperiod & _).
    assert (Hsome : is_Some (cell_at timetable day slot)) by (rewrite Hcell; done).
    apply Hgrid in Hsome as [? ?]. split; [done|]. split; [done|]. by exists at_.
  - intros (Hday & Hslot & Hat). apply Hto. right. split; [|done].
    by rewrite !decide_True.
Qed.

(** *** The slot list *)

Lemma add_breaks_slots (base : list string) :
  base `sublist_of` add_breaks base []
  /\ (forall s, s ∈ add_breaks base [] <->
        s ∈ base
        \/ (s = BREAK_PERIOD /\ "9:30 - 10:30" ∈ base)
        \/ (s = LUNCH_PERIOD /\ "12:40 - 1:30" ∈ base))
  /\ length (add_breaks base []) =
       (length base + length (filter (fun s => s = "9:30 - 10:30") base)
        + length (filter (fun s => s = "12:40 - 1:30") base))%nat.
Proof.
  induction base as [|slot base (IHsub & IHin & IHlen)].
  - split; [done|]. split; [|done]. intros s. split.
    + intros Hs. inversion Hs.
    + intros [Hs|[[_ Hs]|[_ Hs]]]; inversion Hs.
  - rewrite add_breaks_cons. split; [|split].
    + apply sublist_skip. repeat case_bool_decide; simpl;
        repeat apply sublist_cons; exact IHsub.
    + intros s. rewrite elem_of_cons, elem_of_app, IHin, !elem_of_cons.
      repeat case_bool_decide; subst; rewrite ?list_elem_of_singleton, ?elem_of_nil;
        clear int strptime; intuition (subst; try discriminate; auto; congruence).
    + rewrite !filter_cons. simpl. rewrite length_app, IHlen.
      repeat case_bool_decide; subst; simpl;
        repeat (first [rewrite decide_True by done | rewrite decide_False by done]);
        simpl; lia.
Qed.

(** The slot list of the timetable keeps the slots of [TIME_SLOTS] in their
    order and adds nothing but the two markers: it holds every slot, the
    break marker when '9:30 - 10:30' is a slot and the lunch marker when
    '12:40 - 1:30' is one, once for each occurrence of these slots. *)
Theorem time_slots_keep_the_slots :
  base_slots `sublist_of` time_slots
  /\ (forall s, s ∈ time_slots <->
        s ∈ base_slots
        \/ (s = BREAK_PERIOD /\ "9:30 - 10:30" ∈ base_slots)
        \/ (s = LUNCH_PERIOD /\ "12:40 - 1:30" ∈ base_slots))
  /\ length time_slots =
       (length base_slots + length (filter (fun s => s = "9:30 - 10:30") base_slots)
        + length (filter (fun s => s = "12:40 - 1:30") base_slots))%nat.
Proof.
  exact (add_breaks_slots base_slots).
Qed.

(** *** The counters of the report *)

Lemma report_loop_counters (db : Database) (subject_obj : Z) (students : list Student.t)
    (sc_list sc_list' : list StudentSubject.t) (ga gc ns ga' gc' ns' : Z) :
  report_loop db subject_obj students sc_list ga gc ns = (sc_list', ga', gc', ns') ->
  exists added : list StudentSubject.t,
    sc_list' = sc_list ++ added
    /\ count added <= count students
    /\ Forall (fun ss => ss ∈ StudentSubject_objects db
                         /\ StudentSubject.subject ss = subject_obj
                         /\ exists stud, stud ∈ students
                                         /\ StudentSubject.student ss = Student.USN stud)
              added
    /\ ga <= ga' <= ga + count added
    /\ gc <= gc' <= gc + count added
    /\ ns <= ns' <= ns + count added
    /\ (ga' - ga) + (gc' - gc) - count added <= count added - (ns' - ns)
    /\ count added - (ns' - ns) <= ga' - ga
    /\ count added - (ns' - ns) <= gc' - gc.
Proof.
  revert sc_list ga gc ns. induction students as [|stud rest IH];
    intros sc_list ga gc ns Hloop; simpl in Hloop.
  - injection Hloop as <- <- <- <-. exists []. rewrite app_nil_r.
    repeat split; try done; unfold count; simpl; lia.
  - destruct (filter _ (StudentSubject_objects db)) as [|student_subject others] eqn:Hf.
    + apply IH in Hloop as (added & -> & Hcount & Hrows & Hbounds).
      exists added. split; [done|]. split; [unfold count in *; simpl; lia|].
      split; [|done].
      eapply Forall_impl; [exact Hrows|]. simpl.
      intros ss (? & ? & s & Hs & ?). split; [done|]. split; [done|].
      exists s. split; [by right | done].
    + assert (Hin : student_subject ∈ filter
                (fun ss => StudentSubject.student ss = Student.USN stud
                           /\ StudentSubject.subject ss = subject_obj)
                (StudentSubject_objects db)) by (rewrite Hf; left).
      apply list_elem_of_filter in Hin as [[Hstud Hsubj] Hin].
      apply IH in Hloop as (added & -> & Hcount & Hrows & Hga & Hgc & Hns & H1 & H2 & H3).
      exists (student_subject :: added). split; [by rewrite <- app_assoc|].
      assert (Hlen : count (student_subject :: added) = count added + 1)
        by (unfold count; simpl; lia).
      assert (Hlen' : count (stud :: rest) = count rest + 1)
        by (unfold count; simpl; lia).
      rewrite Hlen, Hlen'. split; [lia|]. split.
      * constructor.
        -- split; [done|]. split; [done|]. exists stud. split; [left | done].
        -- eapply Forall_impl; [exact Hrows|]. simpl.
           intros ss (? & ? & s & Hs & ?). split; [done|]. split; [done|].
           exists s. split; [by right | done].
      * destruct (Qle_bool ATTENDANCE_STANDARD _), (Qle_bool CIE_STANDARD _);
          simpl in Hns, H1, H2, H3; lia.
Qed.

(** For an assignment that exists, [t_report] renders its page, leaves the
    database as it is, and the figures of the page fit together: the list
    holds enrollments of the subject, one at most for each student of the
    class; no counter exceeds the length of the list; the students who do
    not need support are those counted for both good attendance and good
    CIE; and the pass rate lies between 0 and 100, and is 100 when nobody
    needs support. *)
Theorem report_counters (request : HttpRequest) (assign_id : Z) (db : Database)
    (ass : Assign.t) :
  is_Some (user request) ->
  filter (fun a => Assign.id a = assign_id) (Assign_objects db) = [ass] ->
  exists (sc_list : list StudentSubject.t)
         (good_attendance_count good_cie_count need_support_count pass_rate : Z),
    t_report request assign_id db =
      mkViewResult db []
        (Ok (render "t_report.html"
               (t_report_context sc_list ass good_attendance_count good_cie_count
                  need_support_count pass_rate)))
    /\ count sc_list <= count (student_set db (Assign.class_id ass))
    /\ (forall ss, ss ∈ sc_list ->
          ss ∈ StudentSubject_objects db
          /\ StudentSubject.subject ss = Assign.subject ass
          /\ exists stud, stud ∈ student_set db (Assign.class_id ass)
                          /\ StudentSubject.student ss = Student.USN stud)
    /\ 0 <= good_attendance_count <= count sc_list
    /\ 0 <= good_cie_count <= count sc_list
    /\ 0 <= need_support_count <= count sc_list
    /\ good_attendance_count + good_cie_count - count sc_list
       <= count sc_list - need_support_count
    /\ count sc_list - need_support_count <= good_attendance_count
    /\ count sc_list - need_support_count <= good_cie_count
    /\ 0 <= pass_rate <= 100
    /\ (need_support_count = 0 -> pass_rate = 100).
Proof.
  intros [u Hu] Hass. unfold t_report, login_required. rewrite Hu, Hass. simpl.
  destruct (report_loop _ _ _ _ _ _ _) as [[[sc_list ga] gc] ns] eqn:Hloop.
  apply report_loop_counters in Hloop
    as (added & Hsc & Hcount & Hrows & Hga & Hgc & Hns & H1 & H2 & H3).
  simpl in Hsc. subst added.
  eexists sc_list, ga, gc, ns, _. split; [reflexivity|].
  split; [done|]. split; [by apply Forall_forall|].
  split; [lia|]. split; [lia|]. split; [lia|]. split; [lia|]. split; [lia|].
  split; [lia|].
  destruct (count sc_list =? 0) eqn:Hzero; [split; [lia | done]|].
  apply Z.eqb_neq in Hzero.
  assert (Htotal : 0 < count sc_list) by (unfold count in *; lia).
  assert (Hshare : 0 <= count sc_list - ns <= count sc_list) by lia.
  destruct (share_percentage _ _ Hshare Htotal) as [Hrange _].
  split.
  - apply round_half_even_between. exact Hrange.
  - intros ->. rewrite Z.sub_0_r.
    assert (H100 : 100 <= round_half_even
                            (fmul (int_true_divide (count sc_list) (count sc_list)) 100)
                   <= 100); [|lia].
    apply round_half_even_between.
    assert (Hone : (inject_Z 1 <= int_true_divide (count sc_list) (count sc_list)
                    <= inject_Z 1)%Q).
    { apply binary64_between; [done | done |].
      assert (Hq : (inject_Z (count sc_list) / inject_Z (count sc_list) == 1)%Q).
      { field. intros H0. apply inject_Z_pos in Htotal. rewrite H0 in Htotal.
        by apply Qlt_irrefl in Htotal. }
      rewrite Hq. split; apply Qle_refl. }
    apply fmul_between; [done | done |].
    change (inject_Z 1) with 1%Q in Hone. change (inject_Z 100) with 100%Q.
    destruct Hone. split; lra.
Qed.

(** *** Anonymous requests, unknown identifiers and refused teachers *)

(** Every view but [teacher_logout] sends an anonymous request to the login
    page: nothing is read, written or queued. *)
Theorem anonymous_requests_go_to_login (op : operation) (request : HttpRequest)
    (db : Database) :
  user request = None ->
  op <> call_teacher_logout ->
  handle op request db = mkViewResult db [] (Ok redirect_to_login).
Proof.
  intros Hanon Hop.
  destruct op; try done; simpl;
    unfold teacher_dashboard, index, t_clas, t_marks_list, t_marks_entry, marks_confirm,
      edit_marks, t_timetable, free_teachers, t_class_date, t_attendance, confirm,
      edit_att, view_att, t_report, view_students, login_required;
    by rewrite Hanon.
Qed.

Lemma filter_unknown_key {A : Type} (key : A -> Z) (k : Z) (rows : list A) :
  k ∉ key <$> rows -> filter (fun row => key row = k) rows = [].
Proof.
  intros Hk. induction rows as [|row rows IH]; [done|].
  rewrite fmap_cons in Hk. apply not_elem_of_cons in Hk as [Hne Hk].
  rewrite filter_cons_False by (intros Heq; by apply Hne). by apply IH.
Qed.

(** A call whose identifier names no row is answered 404 (the exception
    [Http404] leaves the view), for each of the thirteen views that take an
    identifier of a row; the database stays as it is and no message is
    queued, whatever the request carries. *)
Theorem unknown_id_is_not_found (op : operation) (request : HttpRequest) (db : Database) :
  is_Some (user request) ->
  names_no_row op db ->
  handle op request db = raised db Http404.
Proof.
  intros [u Hu] Hmissing.
  destruct op; simpl in Hmissing; try done; simpl;
    unfold t_marks_list, t_marks_entry, marks_confirm, edit_marks, marks_entry_page,
      t_timetable, free_teachers, t_class_date, t_attendance, confirm, edit_att,
      view_att, t_report, view_students, login_required;
    rewrite Hu;
    first [ rewrite (filter_unknown_key Assign.id _ _ Hmissing)
          | rewrite (filter_unknown_key ExamSession.id _ _ Hmissing)
          | rewrite (filter_unknown_key Teacher.id _ _ Hmissing)
          | rewrite (filter_unknown_key AssignTime.id _ _ Hmissing)
          | rewrite (filter_unknown_key AttendanceClass.id _ _ Hmissing) ];
    reflexivity.
Qed.

(** [t_marks_list] and [view_students] refuse a teacher who is not the owner
    of the assignment: when the teacher of the assignment has a user account
    other than the one of the request, both views answer with the redirect
    to the dashboard and the error message, and the database stays as it is,
    whatever the request submits (no exam session is created). *)
Theorem other_teachers_are_refused (request : HttpRequest) (assign_id : Z) (db : Database)
    (assignment : Assign.t) (teacher : Teacher.t) (owner : Z) :
  is_Some (user request) ->
  filter (fun a => Assign.id a = assign_id) (Assign_objects db) = [assignment] ->
  Teacher_of db assignment = Ok teacher ->
  Teacher.user teacher = Some owner ->
  user request <> Some owner ->
  t_marks_list request assign_id db =
    mkViewResult db [(error, no_permission_for_assignment)]
      (Ok (redirect "teacher_dashboard" []))
  /\ view_students request assign_id db =
       mkViewResult db [(error, no_permission_for_assignment)]
         (Ok (redirect "teacher_dashboard" [])).
Proof.
  intros [u Hu] Hassign Hteacher Howner Hother.
  assert (Hcheck : bool_decide (is_Some (Teacher.user teacher))
                   && bool_decide (Teacher.user teacher <> user request) = true).
  { rewrite Howner. rewrite !bool_decide_eq_true_2; [done | congruence | done]. }
  unfold t_marks_list, view_students, login_required.
  rewrite Hu, Hassign. simpl. rewrite Hteacher.
  rewrite Hu in Hcheck. by rewrite Hcheck.
Qed.

(** [teacher_dashboard] renders the home page exactly for a request of a
    teacher account linked to one teacher profile, and then with that
    profile; an account that is not a teacher's or has no profile is
    redirected with an error message.  The database is never changed. *)
Theorem dashboard_needs_a_teacher_profile (request : HttpRequest) (db : Database) :
  is_Some (user request) ->
  database (teacher_dashboard request () db) = db
  /\ (forall template ctx,
        response (teacher_dashboard request () db) = Ok (render template ctx) <->
        is_teacher request = true
        /\ exists teacher,
             filter (fun t => Teacher.user t = user request) (Teacher_objects db) = [teacher]
             /\ template = "t_homepage.html" /\ ctx = t_homepage_context teacher)
  /\ (is_teacher request = false ->
        teacher_dashboard request () db =
          mkViewResult db [(error, teacher_credentials_required)]
            (Ok (redirect "unified_login" [])))
  /\ (is_teacher request = true ->
      filter (fun t => Teacher.user t = user request) (Teacher_objects db) = [] ->
        teacher_dashboard request () db =
          mkViewResult db [(error, teacher_profile_not_found)]
            (Ok (redirect "unified_logout" []))).
Proof.
  intros [u Hu]. unfold teacher_dashboard, login_required. rewrite Hu.
  destruct (is_teacher request); simpl.
  - destruct (filter _ (Teacher_objects db)) as [|teacher [|other rest]]; simpl.
    + split; [done|]. split; [|done]. intros template ctx. split; [done|].
      intros (_ & teacher & Hnil & _). discriminate.
    + split; [done|]. split; [|split; [done|]; discriminate].
      intros template ctx. split.
      * intros [= <- <-]. split; [done|]. by exists teacher.
      * intros (_ & t & [= <-] & -> & ->). done.
    + split; [done|]. split; [|split; [done|]; discriminate].
      intros template ctx. split; [done|].
      intros (_ & teacher' & Hmany & _). discriminate.
  - split; [done|]. split; [|done]. intros template ctx. split; [done|].
    by intros [? _].
Qed.

(** *** The two ways to confirm attendance *)

(** For a session of the assignment in the URL, the [confirm_attendance]
    form of [t_class_date] does what the view [confirm] does for the session
    named by the field [assc_id]: the same rows are written, the same
    message is queued and the answer is the same redirect. *)
Theorem class_date_confirmation_is_confirm (request : HttpRequest) (assign_id ass_c_id : Z)
    (db : Database) (assign : Assign.t) (assc : AttendanceClass.t) (field : string) :
  is_Some (user request) ->
  filter (fun a => Assign.id a = assign_id) (Assign_objects db) = [assign] ->
  method request = "POST" ->
  POST request !! "create_attendance" = None ->
  is_Some (POST request !! "confirm_attendance") ->
  POST request !! "assc_id" = Some field ->
  int field = Some ass_c_id ->
  filter (fun c => AttendanceClass.id c = ass_c_id) (AttendanceClass_objects db) = [assc] ->
  AttendanceClass.assign assc = assign_id ->
  t_class_date request assign_id db = confirm request ass_c_id db.
Proof.
  intros [u Hu] Hassign Hmethod Hcreate Hconfirm Hfield Hint Hassc Hof.
  unfold t_class_date, confirm, login_required. rewrite Hu, Hassign, Hassc. simpl.
  unfold Assign_of. rewrite Hof, Hassign. simpl.
  rewrite Hmethod, Hcreate, Hfield. simpl. rewrite Hint. simpl.
  rewrite (bool_decide_eq_true_2 _ Hconfirm). simpl.
  rewrite (list_filter_iff (fun c => Some (AttendanceClass.id c) = Some ass_c_id)
             (fun c => AttendanceClass.id c = ass_c_id))
    by (intros c; split; congruence).
  rewrite Hassc. simpl.
  by destruct (confirm_attendance _ _ _ _ _).
Qed.

(** *** The figures of the marks list *)

(** For a request that passes the ownership check and does not create an
    exam, [t_marks_list] renders the sessions of the assignment and nothing
    else, in the order of the table; the three figures of the page are the
    number of these sessions, the number of the finalized ones and the
    number of the pending ones, although the last is computed by
    subtraction. *)
Theorem marks_list_figures (request : HttpRequest) (assign_id : Z) (db : Database)
    (assignment : Assign.t) :
  is_Some (user request) ->
  filter (fun a => Assign.id a = assign_id) (Assign_objects db) = [assignment] ->
  passes_owner_check db request assignment ->
  method request <> "POST" \/ POST request !! "create_exam" = None ->
  exists (m_list : list ExamSession.t) (total_exams completed_exams pending_exams : Z),
    t_marks_list request assign_id db =
      mkViewResult db []
        (Ok (render "t_marks_list.html"
               (t_marks_list_context assignment m_list
                  total_exams completed_exams pending_exams)))
    /\ m_list = filter (fun e => ExamSession.assign e = assign_id) (ExamSession_objects db)
    /\ total_exams = count m_list
    /\ completed_exams = count (filter (fun e => ExamSession.status e = true) m_list)
    /\ pending_exams = count (filter (fun e => ExamSession.status e = false) m_list)
    /\ 0 <= pending_exams <= total_exams.
Proof.
  intros [u Hu] Hassign Howner Hget.
  assert (Hid : Assign.id assignment = assign_id).
  { assert (Hin : assignment ∈ filter (fun a => Assign.id a = assign_id) (Assign_objects db))
      by (rewrite Hassign; left).
    by apply list_elem_of_filter in Hin as [? _]. }
  apply owner_check_passes in Howner as (teacher & Hteacher & Hcheck).
  unfold t_marks_list, login_required. rewrite Hu, Hassign. simpl.
  rewrite Hteacher. rewrite Hu in Hcheck. rewrite Hcheck.
  assert (Hnot : bool_decide (method request = "POST")
                 && bool_decide (is_Some (POST request !! "create_exam")) = false).
  { destruct Hget as [Hmethod|Hfield].
    - by rewrite (bool_decide_eq_false_2 _ Hmethod).
    - rewrite Hfield. rewrite (bool_decide_eq_false_2 (is_Some None)) by (by intros [? ?]).
      apply andb_false_r. }
  rewrite Hnot, Hid.
  set (m_list := filter (fun e => ExamSession.assign e = assign_id) (ExamSession_objects db)).
  eexists m_list, _, _, _. split; [reflexivity|].
  split; [done|]. split; [done|]. split; [done|].
  pose proof (count_filter_split (fun e => ExamSession.status e = true) m_list) as Hsplit.
  cbv beta in Hsplit.
  assert (Hpending : filter (fun e => ~ ExamSession.status e = true) m_list
                     = filter (fun e => ExamSession.status e = false) m_list).
  { apply list_filter_iff. intros e. by destruct (ExamSession.status e). }
  rewrite Hpending in Hsplit.
  assert (Hnn : 0 <= count (filter (fun e => ExamSession.status e = true) m_list))
    by (unfold count; lia).
  assert (Hnn' : 0 <= count (filter (fun e => ExamSession.status e = false) m_list))
    by (unfold count; lia).
  split; lia.
Qed.

(** *** The rows of the student list *)

Lemma mapM_result_rows {A B : Type} (f : A -> result B) (R : A -> B -> Prop)
    (l : list A) :
  (forall x, x ∈ l -> exists y, f x = Ok y /\ R x y) ->
  exists l', mapM f l = Ok l' /\ Forall2 R l l'.
Proof.
  induction l as [|x l IH]; intros Hall.
  - exists []. split; [done | constructor].
  - destruct (Hall x) as (y & Hy & HR); [left|].
    destruct IH as (l' & Hl' & HF); [intros z Hz; apply Hall; by right|].
    exists (y :: l'). split; [|by constructor].
    simpl. rewrite Hy. simpl. rewrite Hl'. done.
Qed.

(** The entry of a student is computed when the divisor is not zero, the
    student has one enrollment at most and the dividend of the CIE score is
    [2^1023] at most in absolute value. *)
Lemma student_data_returns (db : Database) (assignment : Assign.t) (student : Student.t) :
  CIE_DIVISOR <> 0 ->
  (length (filter (fun ss => StudentSubject.student ss = Student.USN student
                             /\ StudentSubject.subject ss = Assign.subject assignment)
                  (StudentSubject_objects db)) <= 1)%nat ->
  (forall ss, ss ∈ StudentSubject_objects db -> Z.abs (cie_dividend db ss) <= 2 ^ 1023) ->
  exists sd : StudentData, student_data db assignment student = Ok sd.
Proof.
  intros Hdiv Hone Hfit. unfold student_data.
  destruct (filter _ (StudentSubject_objects db)) as [|ss [|ss' others]] eqn:Hf;
    simpl in Hone; [| |lia]; simpl; [by eexists|].
  assert (Hin : ss ∈ StudentSubject_objects db).
  { assert (Hss : ss ∈ filter
              (fun ss => StudentSubject.student ss = Student.USN student
                         /\ StudentSubject.subject ss = Assign.subject assignment)
              (StudentSubject_objects db)) by (rewrite Hf; left).
    by apply list_elem_of_filter in Hss as [_ ?]. }
  specialize (Hfit ss Hin). unfold cie_dividend, marks_by_name in Hfit.
  unfold cie_of_marks. destruct (_ <$> _) as [|m ms] eqn:Hmarks; [by eexists|].
  rewrite (truediv_bounded _ _ Hdiv Hfit). simpl. by eexists.
Qed.

(** What every entry shows of the attendance and of the registration. *)
Lemma student_data_row (db : Database) (assignment : Assign.t) (student : Student.t)
    (sd : StudentData) :
  student_data db assignment student = Ok sd ->
  sd_student sd = student
  /\ 0 <= attended_classes sd <= total_classes sd
  /\ (0 <= sd_attendance_percentage sd <= 100)%Q
  /\ (is_registered sd = true <->
      exists ss, ss ∈ StudentSubject_objects db
                 /\ StudentSubject.student ss = Student.USN student
                 /\ StudentSubject.subject ss = Assign.subject assignment)
  /\ (is_registered sd = false ->
      sd_marks sd = [] /\ total_marks sd = 0 /\ cie_score sd = 0
      /\ total_classes sd = 0 /\ attended_classes sd = 0).
Proof.
  unfold student_data.
  destruct (get _) as [ss|e] eqn:Hget.
  - apply get_Ok_singleton in Hget.
    destruct (cie_of_marks _) as [c|e]; simpl; [|discriminate].
    intros [= <-]. simpl. split; [done|].
    set (records := filter (fun a => Attendance.student a = Student.USN student
                                     /\ Attendance.subject a = Assign.subject assignment)
                           (Attendance_objects db)).
    pose proof (count_filter_split (fun a => Attendance.status a = true) records) as Hsplit.
    cbv beta in Hsplit.
    assert (Hrest : 0 <= count (filter (fun a => ~ Attendance.status a = true) records))
      by (unfold count; lia).
    assert (Hpresent : 0 <= count (filter (fun a => Attendance.status a = true) records))
      by (unfold count; lia).
    split; [lia|]. split.
    + destruct (0 <? count records) eqn:Hpos; [|split; discriminate].
      apply Z.ltb_lt in Hpos.
      apply (round_between _ 2 0 100); [done | done |].
      apply share_percentage; [lia | done].
    + split; [|discriminate]. split; [|done]. intros _.
      assert (Hss : ss ∈ filter
                (fun ss => StudentSubject.student ss = Student.USN student
                           /\ StudentSubject.subject ss = Assign.subject assignment)
                (StudentSubject_objects db)) by (rewrite Hget; left).
      apply list_elem_of_filter in Hss as [[? ?] ?]. by exists ss.
  - destruct e; try discriminate. apply get_DoesNotExist_nil in Hget.
    intros [= <-]. simpl. split; [done|]. split; [lia|].
    split; [split; discriminate|]. split; [|done]. split; [discriminate|].
    intros (ss & Hin & Hstud & Hsubj).
    assert (Hss : ss ∈ filter
              (fun ss => StudentSubject.student ss = Student.USN student
                         /\ StudentSubject.subject ss = Assign.subject assignment)
              (StudentSubject_objects db)) by (by apply list_elem_of_filter).
    rewrite Hget in Hss. inversion Hss.
Qed.


(** [view_students] renders one entry for each student of the class, in the
    order of the query, when every entry is computed. *)
Lemma view_students_renders (request : HttpRequest) (assign_id : Z) (db : Database)
    (assignment : Assign.t) :
  is_Some (user request) ->
  filter (fun a => Assign.id a = assign_id) (Assign_objects db) = [assignment] ->
  passes_owner_check db request assignment ->
  (forall student, exists sd, student_data db assignment student = Ok sd) ->
  exists students_data : list StudentData,
    view_students request assign_id db =
      mkViewResult db []
        (Ok (render "t_view_students.html"
               (t_view_students_context assignment
                  (Paginator_page StudentData 25 (GET request !! "page") students_data)
                  (count students_data))))
    /\ Forall2 (fun student sd => student_data db assignment student = Ok sd)
               (order_by Student.t "name" (student_set db (Assign.class_id assignment)))
               students_data.
Proof.
  intros [u Hu] Hassign Howner Hreturns.
  apply owner_check_passes in Howner as (teacher & Hteacher & Hcheck).
  unfold view_students, login_required. rewrite Hu, Hassign. simpl.
  rewrite Hteacher. rewrite Hu in Hcheck. rewrite Hcheck.
  destruct (mapM_result_rows (student_data db assignment)
              (fun student sd => student_data db assignment student = Ok sd)
              (order_by Student.t "name" (student_set db (Assign.class_id assignment))))
    as (students_data & Hrows & Hall).
  { intros student _. destruct (Hreturns student) as [sd Hsd]. by exists sd. }
  rewrite Hrows. by exists students_data.
Qed.

(** When the divisor of the CIE score is not zero, no student has two
    enrollments for the subject and the dividend of every CIE score is
    [2^1023] at most in absolute value (beyond, the division may raise
    [OverflowError]), [view_students] renders its page for every request that passes
    the ownership check, with one row for each student of the class, in the
    order of the query; in every row the attended classes are at most the
    classes held, the attendance percentage lies between 0 and 100, the row
    is marked registered exactly when the student has an enrollment, and a
    row that is not shows zeros. *)
Theorem view_students_rows (request : HttpRequest) (assign_id : Z) (db : Database)
    (assignment : Assign.t) :
  is_Some (user request) ->
  filter (fun a => Assign.id a = assign_id) (Assign_objects db) = [assignment] ->
  passes_owner_check db request assignment ->
  CIE_DIVISOR <> 0 ->
  (forall student : Student.t,
     (length (filter (fun ss => StudentSubject.student ss = Student.USN student
                                /\ StudentSubject.subject ss = Assign.subject assignment)
                     (StudentSubject_objects db)) <= 1)%nat) ->
  (forall ss, ss ∈ StudentSubject_objects db -> Z.abs (cie_dividend db ss) <= 2 ^ 1023) ->
  exists students_data : list StudentData,
    view_students request assign_id db =
      mkViewResult db []
        (Ok (render "t_view_students.html"
               (t_view_students_context assignment
                  (Paginator_page StudentData 25 (GET request !! "page") students_data)
                  (count students_data))))
    /\ sd_student <$> students_data =
         order_by Student.t "name" (student_set db (Assign.class_id assignment))
    /\ Forall (fun sd =>
                 0 <= attended_classes sd <= total_classes sd
                 /\ (0 <= sd_attendance_percentage sd <= 100)%Q
                 /\ (is_registered sd = true <->
                     exists ss, ss ∈ StudentSubject_objects db
                                /\ StudentSubject.student ss = Student.USN (sd_student sd)
                                /\ StudentSubject.subject ss = Assign.subject assignment)
                 /\ (is_registered sd = false ->
                     sd_marks sd = [] /\ total_marks sd = 0 /\ cie_score sd = 0
                     /\ total_classes sd = 0 /\ attended_classes sd = 0))
              students_data.
Proof.
  intros Huser Hassign Howner Hdiv Hone Hfit.
  destruct (view_students_renders request assign_id db assignment Huser Hassign Howner)
    as (students_data & Hview & Hall).
  { intros student. by apply student_data_returns. }
  exists students_data. split; [done|].
  clear Hview. induction Hall as [|student sd students rows Hsd Hall IH].
  - split; [done | constructor].
  - destruct IH as [IHs IHrows].
    destruct (student_data_row _ _ _ _ Hsd) as (Hs & Hrow).
    split.
    + rewrite fmap_cons, Hs. by f_equal.
    + constructor; [|done]. rewrite Hs. exact Hrow.
Qed.


(** *** Confirmed marks on the edit page *)

Lemma fmap_save_fresh {A : Type} (key : A -> Z) (x : A) (l : list A) :
  (forall a, a ∈ l -> key a <> key x) ->
  (fun a => if bool_decide (key a = key x) then x else a) <$> l = l.
Proof.
  intros Hfresh. rewrite <- (list_fmap_id l) at 2. apply list_fmap_ext.
  intros i a Ha. simpl. rewrite bool_decide_eq_false_2; [done|].
  apply Hfresh. by apply list_elem_of_lookup_2 in Ha.
Qed.

(** One turn of the loop of [marks_confirm]: the number of marks of any
    enrollment under the name of the exam stays or goes from 0 to 1, and
    the enrollment of the turn ends with one mark. *)
Lemma Marks_turn_key_count (studentsubject : Z) (exam_name : string) (mark : Z)
    (db db1 : Database) (marks_instance : Marks.t) (created : bool) (other : Z) :
  NoDup (Marks.id <$> Marks_objects db) ->
  Marks_get_or_create studentsubject exam_name db = Ok (marks_instance, created, db1) ->
  (length (filter (fun m => Marks.studentsubject m = other /\ Marks.name m = exam_name)
                  (Marks_objects db))
   <= length (filter (fun m => Marks.studentsubject m = other /\ Marks.name m = exam_name)
                     (Marks_objects
                        (Marks_save
                           (Marks.mk (Marks.id marks_instance)
                              (Marks.studentsubject marks_instance)
                              (Marks.name marks_instance) mark) db1)))
   <= Nat.max 1 (length (filter (fun m => Marks.studentsubject m = other
                                          /\ Marks.name m = exam_name)
                                (Marks_objects db))))%nat
  /\ (other = studentsubject ->
      length (filter (fun m => Marks.studentsubject m = other /\ Marks.name m = exam_name)
                     (Marks_objects
                        (Marks_save
                           (Marks.mk (Marks.id marks_instance)
                              (Marks.studentsubject marks_instance)
                              (Marks.name marks_instance) mark) db1))) = 1%nat).
Proof.
  intros Hnd. unfold Marks_get_or_create.
  destruct (filter _ (Marks_objects db)) as [|existing [|? ?]] eqn:Hf;
    [| |discriminate]; intros [= <- <- <-].
  - set (new := Marks.mk (next_id (Marks.id <$> Marks_objects db)) studentsubject
                  exam_name 0).
    set (saved := Marks.mk (Marks.id new) (Marks.studentsubject new) (Marks.name new) mark).
    assert (Hrows : Marks_objects (Marks_save saved
                       (set_Marks_objects (Marks_objects db ++ [new]) db))
                    = Marks_objects db ++ [saved]).
    { unfold Marks_save. simpl. rewrite fmap_app. f_equal.
      - apply (fmap_save_fresh Marks.id saved). intros row Hrow. simpl.
        assert (Marks.id row < next_id (Marks.id <$> Marks_objects db))
          by (apply next_id_fresh; by apply list_elem_of_fmap_2).
        lia.
      - simpl. by rewrite bool_decide_eq_true_2. }
    rewrite Hrows, filter_app, length_app.
    destruct (decide (other = studentsubject)) as [->|Hother].
    + rewrite Hf. rewrite filter_cons_True by done. simpl. split; [lia | done].
    + rewrite filter_cons_False by (simpl; intros [? _]; congruence).
      simpl. split; [lia | done].
  - assert (Hex : existing ∈ Marks_objects db
                  /\ Marks.studentsubject existing = studentsubject
                  /\ Marks.name existing = exam_name).
    { assert (Hin : existing ∈ filter
                (fun m => Marks.studentsubject m = studentsubject
                          /\ Marks.name m = exam_name) (Marks_objects db))
        by (rewrite Hf; left).
      apply list_elem_of_filter in Hin as [[? ?] ?]. done. }
    destruct Hex as (Hexin & Hexss & Hexname).
    set (saved := Marks.mk (Marks.id existing) (Marks.studentsubject existing)
                    (Marks.name existing) mark).
    assert (Hrows : filter (fun m => Marks.studentsubject m = other
                                     /\ Marks.name m = exam_name)
                      (Marks_objects (Marks_save saved db))
                    = (fun m => if bool_decide (Marks.id m = Marks.id saved)
                                then saved else m)
                      <$> filter (fun m => Marks.studentsubject m = other
                                           /\ Marks.name m = exam_name)
                            (Marks_objects db)).
    { unfold Marks_save. simpl. apply filter_fmap_stable.
      intros row Hrow. simpl. case_bool_decide as Hid; [|done].
      assert (row = existing) as ->
        by (by apply (NoDup_fmap_same Marks.id (Marks_objects db))).
      done. }
    rewrite Hrows, length_fmap. split; [lia|].
    intros ->. by rewrite Hf.
Qed.

Lemma save_marks_key_counts (request : HttpRequest) (subject : Z) (exam_name : string)
    (students : list Student.t) (db db' : Database) (other : Z) :
  NoDup (Marks.id <$> Marks_objects db) ->
  save_marks request subject exam_name students db = Ok db' ->
  (length (filter (fun m => Marks.studentsubject m = other /\ Marks.name m = exam_name)
                  (Marks_objects db))
   <= length (filter (fun m => Marks.studentsubject m = other /\ Marks.name m = exam_name)
                     (Marks_objects db'))
   <= Nat.max 1 (length (filter (fun m => Marks.studentsubject m = other
                                          /\ Marks.name m = exam_name)
                                (Marks_objects db))))%nat.
Proof.
  revert db. induction students as [|student rest IH]; intros db Hnd Hrun; simpl in Hrun.
  - injection Hrun as <-. lia.
  - destruct (POST request !! Student.USN student) as [student_mark|]; [|by apply IH].
    destruct (get _) as [student_subject|[]]; try discriminate; [|by apply IH].
    destruct (Marks_get_or_create _ _ _) as [[[marks_instance created] db1]|] eqn:Hgoc;
      simpl in Hrun; [|discriminate].
    destruct (int student_mark) as [mark|]; [|discriminate].
    pose proof (Marks_turn_key_count _ _ mark _ _ _ _ other Hnd Hgoc) as [Hturn _].
    assert (Hnd1 : NoDup (Marks.id <$> Marks_objects
                            (Marks_save (Marks.mk (Marks.id marks_instance)
                                           (Marks.studentsubject marks_instance)
                                           (Marks.name marks_instance) mark) db1))).
    { rewrite Marks_save_keys. unfold Marks_get_or_create in Hgoc.
      destruct (filter _ (Marks_objects db)) as [|m [|m' ms]]; try discriminate;
        injection Hgoc as <- <- <-; [|done].
      simpl. rewrite fmap_app. by apply NoDup_snoc_next_id. }
    pose proof (IH _ Hnd1 Hrun) as Hrest. lia.
Qed.

(** After the loop, a student of the list with a form field and a single
    enrollment for the subject has exactly one mark under the name of the
    exam. *)
Lemma save_marks_key_one (request : HttpRequest) (subject : Z) (exam_name : string)
    (students : list Student.t) (db db' : Database)
    (student : Student.t) (ss : StudentSubject.t) (student_mark : string) :
  NoDup (Marks.id <$> Marks_objects db) ->
  save_marks request subject exam_name students db = Ok db' ->
  student ∈ students ->
  POST request !! Student.USN student = Some student_mark ->
  filter (fun x => StudentSubject.subject x = subject
                   /\ StudentSubject.student x = Student.USN student)
         (StudentSubject_objects db) = [ss] ->
  length (filter (fun m => Marks.studentsubject m = StudentSubject.id ss
                           /\ Marks.name m = exam_name)
                 (Marks_objects db')) = 1%nat.
Proof.
  revert db. induction students as [|s rest IH];
    intros db Hnd Hrun Hstudent Hfield Hss; [inversion Hstudent|].
  simpl in Hrun.
  assert (Hskip : save_marks request subject exam_name rest db = Ok db' ->
            student ∈ rest ->
            length (filter (fun m => Marks.studentsubject m = StudentSubject.id ss
                                     /\ Marks.name m = exam_name)
                           (Marks_objects db')) = 1%nat)
    by (intros; by apply (IH db)).
  destruct (POST request !! Student.USN s) as [sm|] eqn:Hsm.
  2:{ apply elem_of_cons in Hstudent as [->|Hrest]; [congruence | by apply Hskip]. }
  destruct (get _) as [student_subject|e] eqn:Hget.
  2:{ destruct e; try discriminate.
      apply elem_of_cons in Hstudent as [->|Hrest]; [|by apply Hskip].
      apply get_DoesNotExist_nil in Hget. rewrite Hget in Hss. discriminate. }
  destruct (Marks_get_or_create _ _ _) as [[[marks_instance created] db1]|] eqn:Hgoc;
    simpl in Hrun; [|discriminate].
  destruct (int sm) as [mark|]; [|discriminate].
  assert (Hnd1 : NoDup (Marks.id <$> Marks_objects
                          (Marks_save (Marks.mk (Marks.id marks_instance)
                                         (Marks.studentsubject marks_instance)
                                         (Marks.name marks_instance) mark) db1))).
  { rewrite Marks_save_keys. unfold Marks_get_or_create in Hgoc.
    destruct (filter _ (Marks_objects db)) as [|m [|m' ms]]; try discriminate;
      injection Hgoc as <- <- <-; [|done].
    simpl. rewrite fmap_app. by apply NoDup_snoc_next_id. }
  assert (Htable : StudentSubject_objects
                     (Marks_save (Marks.mk (Marks.id marks_instance)
                                    (Marks.studentsubject marks_instance)
                                    (Marks.name marks_instance) mark) db1)
                   = StudentSubject_objects db).
  { unfold Marks_get_or_create in Hgoc.
    destruct (filter _ (Marks_objects db)) as [|m [|m' ms]]; try discriminate;
      by injection Hgoc as <- <- <-. }
  apply elem_of_cons in Hstudent as [->|Hrest].
  - apply get_Ok_singleton in Hget. rewrite Hget in Hss. injection Hss as ->.
    pose proof (Marks_turn_key_count _ _ mark _ _ _ _ (StudentSubject.id ss) Hnd Hgoc)
      as [_ Hone].
    specialize (Hone eq_refl).
    pose proof (save_marks_key_counts _ _ _ _ _ _ (StudentSubject.id ss) Hnd1 Hrun) as Hrest.
    lia.
  - apply (IH _ Hnd1 Hrun Hrest Hfield). by rewrite Htable.
Qed.

(** The row of the entry page for a student with one enrollment and one mark
    under the name of the exam. *)
Lemma prefill_mark_single (db : Database) (subject : Z) (exam_name : string)
    (student : Student.t) (ss : StudentSubject.t) (row : Marks.t) :
  order_by Marks.t "-id" [row] = [row] ->
  filter (fun x => StudentSubject.student x = Student.USN student
                   /\ StudentSubject.subject x = subject)
         (StudentSubject_objects db) = [ss] ->
  filter (fun m => Marks.studentsubject m = StudentSubject.id ss /\ Marks.name m = exam_name)
         (Marks_objects db) = [row] ->
  prefill_mark db subject exam_name student
  = Ok (mkMarksEntryRow student (Marks.marks1 row) true).
Proof.
  intros Horder Hss Hrow. unfold prefill_mark. rewrite Hss. simpl.
  by rewrite Hrow, Horder.
Qed.

(** Round trip: after [marks_confirm] answered, [edit_marks] renders the
    entry page of the same session, now finalized, for any logged-in user,
    and every row of the page whose student is registered and had a field
    in the confirmed form shows the integer of that field.  The ordering
    and the paginator are assumed to return rows of their argument, no
    student has two enrollments for a subject, and primary keys are
    distinct. *)
Theorem confirmed_marks_are_shown (request request' : HttpRequest) (marks_c_id : Z)
    (db : Database) (r : HttpResponse) :
  (forall row : Marks.t, order_by Marks.t "-id" [row] = [row]) ->
  (forall students : list Student.t, order_by Student.t "name" students ⊆ students) ->
  (forall per_page number (students : list Student.t),
     Paginator_page Student.t per_page number students ⊆ students) ->
  NoDup (Marks.id <$> Marks_objects db) ->
  NoDup (StudentSubject.id <$> StudentSubject_objects db) ->
  (forall (student : Student.t) (subject : Z),
     (length (filter (fun x => StudentSubject.student x = Student.USN student
                               /\ StudentSubject.subject x = subject)
                     (StudentSubject_objects db)) <= 1)%nat) ->
  is_Some (user request) ->
  is_Some (user request') ->
  response (marks_confirm request marks_c_id db) = Ok r ->
  exists (assignment : Assign.t) (exam_session : ExamSession.t) (students_total : Z)
         (rows : list MarksEntryRow),
    edit_marks request' marks_c_id (database (marks_confirm request marks_c_id db)) =
      mkViewResult (database (marks_confirm request marks_c_id db)) []
        (Ok (render "t_marks_entry.html"
               (t_marks_entry_context assignment exam_session students_total rows true)))
    /\ ExamSession.id exam_session = marks_c_id
    /\ ExamSession.status exam_session = true
    /\ Forall (fun row =>
                 forall student_mark,
                   POST request !! Student.USN (mer_student row) = Some student_mark ->
                   mer_is_registered row = true ->
                   int student_mark = Some (current_mark row))
              rows.
Proof.
  intros Hlatest Horder Hpage Hnd Hss Hone [u Hu] [u' Hu'].
  unfold marks_confirm, login_required. rewrite Hu.
  destruct (get_object_or_404 _) as [exam_session|] eqn:Hes; simpl; [|done].
  destruct (Assign_of db _) as [assignment|] eqn:Hassign; simpl; [|done].
  destruct (save_marks _ _ _ _ _) as [db1|] eqn:Hsave; simpl; [|done].
  intros _.
  pose proof (save_marks_frame _ _ _ _ _ _ Hsave) as (Hes1 & _ & _ & Hss1).
  pose proof (save_marks_students _ _ _ _ _ _ Hsave) as (_ & Hst1 & Has1 & _).
  destruct (save_marks_records _ _ _ _ _ _ _ Hss eq_refl Hnd Hsave) as [Hrecorded _].
  set (finalized := ExamSession.mk (ExamSession.id exam_session)
                      (ExamSession.assign exam_session)
                      (ExamSession.name exam_session) true).
  set (db' := ExamSession_save finalized db1).
  assert (Hid : ExamSession.id exam_session = marks_c_id)
    by (by apply get_object_or_404_filter in Hes as [_ ?]).
  assert (Hfound : filter (fun e => ExamSession.id e = marks_c_id) (ExamSession_objects db')
                   = [finalized]).
  { unfold get_object_or_404 in Hes.
    destruct (get _) as [x|e] eqn:Hget; [|by destruct e].
    injection Hes as ->. apply get_Ok_singleton in Hget.
    unfold db', ExamSession_save. simpl. rewrite filter_fmap_stable.
    - rewrite Hes1, Hget. simpl. by rewrite bool_decide_eq_true_2.
    - intros e _. simpl. case_bool_decide; [|done]. simpl. split; congruence. }
  assert (Hassign' : Assign_of db' (ExamSession.assign exam_session) = Ok assignment)
    by (unfold Assign_of in Hassign |- *; simpl; by rewrite Has1).
  assert (Hstudents' : student_set db' (Assign.class_id assignment)
                       = student_set db (Assign.class_id assignment))
    by (unfold student_set; simpl; by rewrite Hst1).
  destruct (mapM_result_rows
              (prefill_mark db' (Assign.subject assignment) (ExamSession.name finalized))
              (fun student row =>
                 mer_student row = student
                 /\ forall student_mark,
                      POST request !! Student.USN student = Some student_mark ->
                      mer_is_registered row = true ->
                      int student_mark = Some (current_mark row))
              (Paginator_page Student.t 20 (GET request' !! "page")
                 (order_by Student.t "name" (student_set db (Assign.class_id assignment)))))
    as (rows & Hrows & Hall).
  { intros student Hstudent. apply Hpage, Horder in Hstudent.
    pose proof (Hone student (Assign.subject assignment)) as Hle.
    unfold prefill_mark.
    change (StudentSubject_objects db') with (StudentSubject_objects db1).
    change (Marks_objects db') with (Marks_objects db1).
    rewrite Hss1.
    destruct (filter _ (StudentSubject_objects db)) as [|ss [|ss' others]] eqn:Hf;
      simpl in Hle; [| |lia]; simpl.
    - eexists. split; [reflexivity|]. simpl. split; [done|]. discriminate.
    - assert (Hssin : ss ∈ StudentSubject_objects db
                      /\ StudentSubject.student ss = Student.USN student
                      /\ StudentSubject.subject ss = Assign.subject assignment).
      { assert (Hin : ss ∈ filter
                  (fun x => StudentSubject.student x = Student.USN student
                            /\ StudentSubject.subject x = Assign.subject assignment)
                  (StudentSubject_objects db)) by (rewrite Hf; left).
        apply list_elem_of_filter in Hin as [[? ?] ?]. done. }
      destruct Hssin as (Hssin & Hstu & Hsub).
      eexists. split; [reflexivity|]. simpl. split; [done|].
      intros student_mark Hfield _.
      destruct (Hrecorded student ss student_mark Hstudent Hssin Hsub Hstu Hfield)
        as (mark & Hint & row & Hrow & Hrss & Hrname & Hrmark).
      assert (Hf' : filter (fun x => StudentSubject.subject x = Assign.subject assignment
                                     /\ StudentSubject.student x = Student.USN student)
                      (StudentSubject_objects db) = [ss]).
      { rewrite <- Hf. apply list_filter_iff. intros x. split; intros [? ?]; done. }
      pose proof (save_marks_key_one _ _ _ _ _ _ _ _ _ Hnd Hsave Hstudent Hfield Hf')
        as Hlen.
      destruct (filter _ (Marks_objects db1)) as [|row0 [|? ?]] eqn:Hm;
        simpl in Hlen; try lia.
      assert (row = row0) as ->
        by (by apply (filter_singleton_elem _ _ _ _ Hm)).
      rewrite Hlatest. simpl. congruence. }
  eexists assignment, finalized, _, rows.
  unfold edit_marks, login_required, marks_entry_page. rewrite Hu'.
  rewrite Hfound. simpl. rewrite Hassign'. simpl.
  rewrite Hstudents'. simpl in Hrows. rewrite Hrows. simpl.
  split; [reflexivity|]. split; [done|]. split; [done|].
  clear Hrows. induction Hall as [|student row students rows' [Hs Hshown] Hall IH];
    constructor; [|done].
  rewrite Hs. exact Hshown.
Qed.

End Views.

(** ** Worked examples on the sample data *)

(** C1. Teacher B (user 2) is refused by [t_marks_list] on teacher A's
    assignment 1, with the error message and the redirect to the dashboard;
    the same user posting marks to [marks_confirm] for exam session 1 of
    that assignment gets no message, the marks are written, the session is
    finalized and the answer is the redirect to the marks list. *)
Theorem marks_confirm_has_no_ownership_check :
  messages (t_marks_list (sample_request 2 "GET" []) 1 sample_db)
    = [(error, no_permission_for_assignment)]
  /\ response (t_marks_list (sample_request 2 "GET" []) 1 sample_db)
       = Ok (redirect "teacher_dashboard" [])
  /\ marks_confirm sample_int
       (sample_request 2 "POST" [("USN1", "18"); ("USN2", "20")]) 1 sample_db
     = mkViewResult
         (set_Marks_objects [Marks.mk 1 1 "Mid-1" 18; Marks.mk 2 2 "Mid-1" 20]
            (set_ExamSession_objects [ExamSession.mk 1 1 "Mid-1" true] sample_db))
         []
         (Ok (redirect "t_marks_list" [1])).
Proof. repeat split; vm_compute; reflexivity. Qed.

Lemma sample_owner_check :
  passes_owner_check sample_db (sample_request 1 "GET" [])
    (Assign.mk 1 10 100 1 "2024-2025" 1).
Proof.
  exists (Teacher.mk 1 (Some 1) "A"). split; [vm_compute; reflexivity | by right].
Defined.

Lemma sample_enrollments_single (student : Student.t) (subject : Z) :
  (length (filter (fun x => StudentSubject.student x = Student.USN student
                            /\ StudentSubject.subject x = subject)
                  (StudentSubject_objects sample_db)) <= 1)%nat.
Proof.
  change (StudentSubject_objects sample_db)
    with [StudentSubject.mk 1 "USN1" 100; StudentSubject.mk 2 "USN2" 100].
  rewrite !filter_cons, filter_nil.
  repeat case_decide; simpl in *; try lia.
  exfalso. intuition congruence.
Defined.



Lemma attendance_statistics_witness :
  _calculate_attendance_statistics
    [Attendance.mk 1 "USN1" 100 1 (mkdate 2024 1 10) true;
     Attendance.mk 2 "USN2" 100 1 (mkdate 2024 1 10) false;
     Attendance.mk 3 "USN3" 100 1 (mkdate 2024 1 10) true]
  = mkStatistics 3 2 1 (binary64 (667 # 10)).
Proof.
  pose proof (attendance_statistics_correct
    [Attendance.mk 1 "USN1" 100 1 (mkdate 2024 1 10) true;
     Attendance.mk 2 "USN2" 100 1 (mkdate 2024 1 10) false;
     Attendance.mk 3 "USN3" 100 1 (mkdate 2024 1 10) true])
    as (Htotal & Hpresent & Habsent & _ & Hpct & _).
  destruct (_calculate_attendance_statistics _) as [total present absent pct].
  simpl in Htotal, Hpresent, Habsent, Hpct. subst total present absent.
  destruct (Hpct ltac:(reflexivity)) as (_ & Hround & _).
  rewrite Hround. vm_compute. reflexivity.
Defined.

(** 23 present of 80: the float [23 / 80 * 100] lies just below 28.75 and
    the percentage is the float 28.7, where the exact percentage 28.75
    is halfway between 28.7 and 28.8 and has 28.8 as its even neighbour. *)
Lemma attendance_23_of_80 :
  _calculate_attendance_statistics
    (replicate 23 (Attendance.mk 1 "USN1" 100 1 (mkdate 2024 1 10) true)
     ++ replicate 57 (Attendance.mk 2 "USN2" 100 1 (mkdate 2024 1 10) false))
  = mkStatistics 80 23 57 (binary64 (287 # 10))
  /\ (fmul (int_true_divide 23 80) 100 < 2875 # 100)%Q
  /\ round_half_even ((23 # 80) * 100 * 10) = 288.
Proof. repeat split; vm_compute; reflexivity. Qed.

(** Other shares at which the float differs from the exact percentage by
    enough to change the rounding: 49 and 51 of 80 to one decimal, 23 of
    160 to two decimals (the attendance of [view_students]) and 23 of 40 to
    an integer (the pass rate of [t_report]); and two ties the float
    represents exactly, 1 and 3 of 16, which go to the even tenth. *)
Lemma rounding_of_shares :
  round (fmul (int_true_divide 49 80) 100) 1 = binary64 (613 # 10)
  /\ round (fmul (int_true_divide 51 80) 100) 1 = binary64 (637 # 10)
  /\ round (fmul (int_true_divide 23 160) 100) 2 = binary64 (1437 # 100)
  /\ round_half_even (fmul (int_true_divide 23 40) 100) = 57
  /\ round (fmul (int_true_divide 1 16) 100) 1 = binary64 (62 # 10)
  /\ round (fmul (int_true_divide 3 16) 100) 1 = binary64 (188 # 10).
Proof. repeat split; vm_compute; reflexivity. Qed.

Lemma free_teachers_witness :
  has_slot_at sample_db (Teacher.mk 1 (Some 1) "A") "Monday" "8:30 - 9:30"
  /\ (Teacher.mk 1 (Some 1) "A" ∉ [Teacher.mk 3 None "C"])
  /\ (Teacher.mk 1 (Some 1) "A" ∉ [Teacher.mk 2 (Some 2) "B"]).
Proof.
  assert (Hslot : has_slot_at sample_db (Teacher.mk 1 (Some 1) "A") "Monday" "8:30 - 9:30").
  { exists (AssignTime.mk 1 1 "8:30 - 9:30" "Monday"), (Assign.mk 1 10 100 1 "2024-2025" 1).
    repeat split; try reflexivity; [left | left]. }
  split; [exact Hslot|].
  apply (proj1 (free_teachers_partition (sample_request 1 "GET" []) 1 sample_db sample_db []
                  [Teacher.mk 3 None "C"] [Teacher.mk 2 (Some 2) "B"] 100
                  (AssignTime.mk 1 1 "8:30 - 9:30" "Monday") 3 1
                  (Teacher.mk 1 (Some 1) "A") ltac:(vm_compute; reflexivity))).
  exact Hslot.
Defined.

Lemma creation_with_used_key_witness :
  database (t_marks_list
              (sample_request 1 "POST" [("create_exam", "1"); ("exam_name", "Mid-1")])
              1 sample_db) = sample_db
  /\ database (t_class_date sample_int sample_strptime sample_order_by
                 (sample_request 1 "POST"
                    [("create_attendance", "1"); ("attendance_date", "2024-01-10")])
                 1 sample_db) = sample_db.
Proof.
  split.
  - apply (proj1 (creation_with_used_key_changes_nothing sample_int sample_strptime
                    sample_order_by _ 1 sample_db) (ExamSession.mk 1 1 "Mid-1" false)).
    + left.
    + reflexivity.
    + vm_compute; reflexivity.
  - apply (proj2 (creation_with_used_key_changes_nothing sample_int sample_strptime
                    sample_order_by _ 1 sample_db)
                 (AttendanceClass.mk 1 1 (mkdate 2024 1 10) 0) "2024-01-10").
    + left.
    + reflexivity.
    + reflexivity.
    + vm_compute. by eexists.
    + vm_compute; reflexivity.
    + vm_compute; reflexivity.
Defined.

(** C6, the claim as stated fails: creating the attendance session of
    2024-01-11 writes the row and answers by rendering the class-date page,
    not by a redirect. *)
Lemma attendance_creation_renders_the_page :
  AttendanceClass_objects
    (database (t_class_date sample_int sample_strptime sample_order_by
                 (sample_request 1 "POST"
                    [("create_attendance", "1"); ("attendance_date", "2024-01-11")])
                 1 sample_db))
  = [AttendanceClass.mk 1 1 (mkdate 2024 1 10) 0; AttendanceClass.mk 2 1 (mkdate 2024 1 11) 0]
  /\ exists ctx,
       response (t_class_date sample_int sample_strptime sample_order_by
                   (sample_request 1 "POST"
                      [("create_attendance", "1"); ("attendance_date", "2024-01-11")])
                   1 sample_db)
       = Ok (render "t_class_date.html" ctx)
       /\ ~ is_redirect (render "t_class_date.html" ctx).
Proof.
  split; [vm_compute; reflexivity|].
  eexists. split; [vm_compute; reflexivity|]. simpl. auto.
Qed.

Lemma write_paths_witness :
  exists assign att_list selected_assc has_students students teacher_name,
    response (t_class_date sample_int sample_strptime sample_order_by
                (sample_request 1 "POST"
                   [("create_attendance", "1"); ("attendance_date", "2024-01-11")])
                1 sample_db)
    = Ok (render "t_class_date.html"
            (t_class_date_context assign att_list (Some selected_assc)
               has_students students teacher_name))
    /\ AttendanceClass.date_ selected_assc = mkdate 2024 1 11.
Proof.
  destruct (proj2 (proj2 (proj2 (proj2
             (write_paths_redirect sample_int sample_strptime sample_order_by
                (sample_request 1 "POST"
                   [("create_attendance", "1"); ("attendance_date", "2024-01-11")])
                sample_db 1
                (render "t_class_date.html"
                   (t_class_date_context (Assign.mk 1 10 100 1 "2024-2025" 1)
                      [(AttendanceClass.mk 1 1 (mkdate 2024 1 10) 0, mkStatistics 0 0 0 0)]
                      (Some (AttendanceClass.mk 2 1 (mkdate 2024 1 11) 0)) true
                      [Student.mk "USN1" "Student One" 10;
                       Student.mk "USN2" "Student Two" 10] "A"))))))
             "2024-01-11" (mkdate 2024 1 11))
    as (assign & att_list & selected & has & students & name & Hr & _ & _ & Hdate).
  - by eexists.
  - reflexivity.
  - vm_compute. by eexists.
  - vm_compute; reflexivity.
  - vm_compute; reflexivity.
  - vm_compute; reflexivity.
  - exists assign, att_list, selected, has, students, name. split; [|exact Hdate].
    rewrite <- Hr. vm_compute; reflexivity.
Defined.

(** C8, the claim as stated fails: with the markers 'Break' and 'Lunch', a
    scheduled slot whose period is 'Break' occupies the break cell of its
    day. *)
Lemma break_cell_can_be_occupied :
  exists timetable,
    fill_timetable sample_db [AssignTime.mk 3 1 "Break" "Monday"]
      (empty_timetable sample_DAYS_OF_WEEK sample_TIME_SLOTS "Break" "Lunch")
    = Ok timetable
    /\ cell_at timetable "Monday" "Break"
       = Some (Some (mkCell 100 1 (Assign.mk 1 10 100 1 "2024-2025" 1))).
Proof.
  eexists. split; [reflexivity|]. vm_compute. reflexivity.
Qed.

Lemma timetable_markers_witness :
  time_slots sample_TIME_SLOTS "Break" "Lunch"
  = ["7:30 - 8:30"; "8:30 - 9:30"; "9:30 - 10:30"; "Break"; "11:00 - 11:50";
     "11:50 - 12:40"; "12:40 - 1:30"; "Lunch"; "2:30 - 3:30"; "3:30 - 4:30";
     "4:30 - 5:30"]
  /\ exists timetable,
       fill_timetable sample_db (AssignTime_objects sample_db)
         (empty_timetable sample_DAYS_OF_WEEK sample_TIME_SLOTS "Break" "Lunch")
       = Ok timetable
       /\ cell_at timetable "Monday" "Break" = Some None
       /\ cell_at timetable "Monday" "8:30 - 9:30"
          = Some (Some (mkCell 100 1 (Assign.mk 1 10 100 1 "2024-2025" 1))).
Proof.
  destruct (timetable_markers sample_DAYS_OF_WEEK sample_TIME_SLOTS "Break" "Lunch")
    as (Hbreak & _ & Hcells).
  split.
  - rewrite (Hbreak ["7:30 - 8:30"; "8:30 - 9:30"]
               ["11:00 - 11:50"; "11:50 - 12:40"; "12:40 - 1:30"; "2:30 - 3:30";
                "3:30 - 4:30"; "4:30 - 5:30"] eq_refl).
    vm_compute; reflexivity.
  - eexists. split; [reflexivity|]. split; [|vm_compute; reflexivity].
    refine (proj2 (Hcells sample_db (AssignTime_objects sample_db) _ "Monday" "Break"
                     _ eq_refl (or_introl eq_refl)) _ _).
    + intros row Hrow. simpl in Hrow.
      apply elem_of_cons in Hrow as [->|Hrow]; [split; discriminate|].
      apply list_elem_of_singleton in Hrow as ->. split; discriminate.
    + vm_compute. left.
    + vm_compute. do 3 right. left.
Defined.

Lemma confirmation_witness :
  recorded
    (database (confirm (sample_request 1 "POST" [("USN1", "present")]) 1 sample_db))
    (Student.mk "USN2" "Student Two" 10) 100
    (AttendanceClass.mk 1 1 (mkdate 2024 1 10) 0) false.
Proof.
  destruct (proj1 (confirmation_records_every_student sample_int sample_strptime
                     sample_order_by (sample_request 1 "POST" [("USN1", "present")])
                     1 sample_db (redirect "t_class_date" [1])
                     (NoDup_nil_2 : NoDup (Attendance.id <$> Attendance_objects sample_db))
                     (ex_intro _ 1 eq_refl))
                  ltac:(vm_compute; reflexivity))
    as (assc & assign & Hassc & Hid & Hassign & Hall).
  simpl in Hassc. apply list_elem_of_singleton in Hassc as ->.
  vm_compute in Hassign. injection Hassign as <-.
  exact (Hall (Student.mk "USN2" "Student Two" 10)
              ltac:(simpl; right; left) eq_refl).
Defined.

(** C10, the claim as stated fails: teacher C of assignment 3 has no user
    account, the check is skipped, and a [create_exam] POST is answered by
    the redirect to the marks list (after creating the session), not by
    rendering the resource. *)
Lemma create_exam_on_unlinked_assignment_redirects :
  t_marks_list (sample_request 2 "POST" [("create_exam", "1"); ("exam_name", "Mid-2")])
    3 sample_db
  = mkViewResult
      (set_ExamSession_objects
         [ExamSession.mk 1 1 "Mid-1" false; ExamSession.mk 2 3 "Mid-2" false] sample_db)
      [(success, exam_created "Mid-2")]
      (Ok (redirect "t_marks_list" [3])).
Proof. vm_compute; reflexivity. Qed.

Lemma unlinked_owner_witness :
  (exists m_list total_exams completed_exams pending_exams,
     t_marks_list (sample_request 2 "GET" []) 3 sample_db
     = mkViewResult sample_db []
         (Ok (render "t_marks_list.html"
                (t_marks_list_context (Assign.mk 3 10 100 3 "2024-2025" 1) m_list
                   total_exams completed_exams pending_exams))))
  /\ (exists students_page students_total,
        view_students 5 2 sample_order_by sample_page (sample_request 2 "GET" []) 3 sample_db
        = mkViewResult sample_db []
            (Ok (render "t_view_students.html"
                   (t_view_students_context (Assign.mk 3 10 100 3 "2024-2025" 1)
                      students_page students_total)))).
Proof.
  destruct (unlinked_owner_skips_check 5 2 sample_order_by sample_page
              (sample_request 2 "GET" []) 3 sample_db
              (Assign.mk 3 10 100 3 "2024-2025" 1) (Teacher.mk 3 None "C")
              (ex_intro _ 2 eq_refl) eq_refl eq_refl eq_refl)
    as [(_ & _ & Hlist) (_ & Hstudents)].
  split.
  - apply Hlist. intros [Hmethod _]. discriminate Hmethod.
  - eapply Hstudents. vm_compute; reflexivity.
Defined.

(** ** Further worked examples on the sample data *)

Lemma exam_creation_witness :
  database (t_marks_list
              (sample_request 1 "POST" [("create_exam", "1"); ("exam_name", "Mid-2")])
              1 sample_db)
  = set_ExamSession_objects
      [ExamSession.mk 1 1 "Mid-1" false; ExamSession.mk 2 1 "Mid-2" false] sample_db
  /\ messages (t_marks_list
                 (sample_request 1 "POST" [("create_exam", "1"); ("exam_name", "Mid-2")])
                 1 sample_db)
     = [(success, exam_created "Mid-2")].
Proof.
  destruct (exam_creation_get_or_create
              (sample_request 1 "POST" [("create_exam", "1"); ("exam_name", "Mid-2")])
              1 sample_db (Assign.mk 1 10 100 1 "2024-2025" 1) "M" "id-2"
              (ex_intro _ 1 eq_refl) eq_refl sample_owner_check eq_refl
              ltac:(vm_compute; by eexists) ltac:(vm_compute; reflexivity)
              ltac:(vm_compute; lia))
    as (_ & _ & Hfresh & _).
  destruct (Hfresh ltac:(vm_compute; reflexivity)) as [Hdb Hmsg].
  split; [|exact Hmsg]. etrans; [exact Hdb|]. vm_compute. reflexivity.
Defined.

Lemma exam_creation_failures_witness :
  t_marks_list (sample_request 1 "POST" [("create_exam", "1")]) 1 sample_db
  = mkViewResult sample_db [(error, exam_name_required)]
      (Ok (redirect "t_marks_list" [1])).
Proof.
  apply (proj1 (exam_creation_failures
                  (sample_request 1 "POST" [("create_exam", "1")])
                  1 sample_db (Assign.mk 1 10 100 1 "2024-2025" 1)
                  (ex_intro _ 1 eq_refl) eq_refl sample_owner_check eq_refl
                  ltac:(vm_compute; by eexists))).
  left. vm_compute. reflexivity.
Defined.

Lemma attendance_creation_witness :
  messages (t_class_date sample_int sample_strptime sample_order_by
              (sample_request 1 "POST"
                 [("create_attendance", "1"); ("attendance_date", "2024-01-11")])
              1 sample_db) = [].
Proof.
  exact (proj1 (attendance_creation_get_or_create sample_int sample_strptime
                  sample_order_by
                  (sample_request 1 "POST"
                     [("create_attendance", "1"); ("attendance_date", "2024-01-11")])
                  1 sample_db (Assign.mk 1 10 100 1 "2024-2025" 1)
                  (Teacher.mk 1 (Some 1) "A") "2024-01-11" (mkdate 2024 1 11)
                  (ex_intro _ 1 eq_refl) eq_refl ltac:(vm_compute; reflexivity) eq_refl
                  ltac:(vm_compute; by eexists) ltac:(vm_compute; reflexivity)
                  ltac:(vm_compute; reflexivity) ltac:(vm_compute; lia))).
Defined.

Lemma attendance_creation_failures_witness :
  t_class_date sample_int sample_strptime sample_order_by
    (sample_request 1 "POST" [("create_attendance", "1")]) 1 sample_db
  = raised sample_db TypeError.
Proof.
  apply (proj1 (attendance_creation_failures sample_int sample_strptime sample_order_by
                  (sample_request 1 "POST" [("create_attendance", "1")])
                  1 sample_db (Assign.mk 1 10 100 1 "2024-2025" 1)
                  (ex_intro _ 1 eq_refl) eq_refl eq_refl
                  ltac:(vm_compute; by eexists))).
  vm_compute. reflexivity.
Defined.

Lemma marks_confirm_records_witness :
  mark_recorded
    (database (marks_confirm sample_int
                 (sample_request 2 "POST" [("USN1", "18"); ("USN2", "20")]) 1 sample_db))
    1 "Mid-1" 18.
Proof.
  destruct (marks_confirm_records_marks sample_int
              (sample_request 2 "POST" [("USN1", "18"); ("USN2", "20")]) 1 sample_db
              (redirect "t_marks_list" [1])
              (NoDup_nil_2 : NoDup (Marks.id <$> Marks_objects sample_db))
              ltac:(apply (bool_decide_unpack _); vm_compute; exact I)
              (ex_intro _ 2 eq_refl) ltac:(vm_compute; reflexivity))
    as (exam_session & assignment & Hes & _ & Hassign & _ & _ & Hall).
  simpl in Hes. apply list_elem_of_singleton in Hes as ->.
  vm_compute in Hassign. injection Hassign as <-.
  destruct (Hall (Student.mk "USN1" "Student One" 10) (StudentSubject.mk 1 "USN1" 100) "18"
              ltac:(simpl; left) eq_refl ltac:(simpl; left) eq_refl eq_refl
              ltac:(vm_compute; reflexivity))
    as (mark & Hint & Hrecorded).
  vm_compute in Hint. injection Hint as <-. exact Hrecorded.
Defined.

Lemma marks_confirm_rolls_back_witness :
  exists e,
    marks_confirm sample_int (sample_request 1 "POST" [("USN1", "abc")]) 1 sample_db
    = raised sample_db e.
Proof.
  apply (marks_confirm_rolls_back sample_int
           (sample_request 1 "POST" [("USN1", "abc")]) 1 sample_db
           (ExamSession.mk 1 1 "Mid-1" false) (Assign.mk 1 10 100 1 "2024-2025" 1)
           (Student.mk "USN1" "Student One" 10) (StudentSubject.mk 1 "USN1" 100) "abc"
           (ex_intro _ 1 eq_refl) eq_refl ltac:(vm_compute; reflexivity)
           ltac:(simpl; left) eq_refl ltac:(simpl; left) eq_refl eq_refl
           ltac:(vm_compute; reflexivity) ltac:(vm_compute; reflexivity)).
Defined.

Lemma confirm_is_idempotent_witness :
  confirm (sample_request 1 "POST" [("USN1", "present")]) 1
    (database (confirm (sample_request 1 "POST" [("USN1", "present")]) 1 sample_db))
  = confirm (sample_request 1 "POST" [("USN1", "present")]) 1 sample_db.
Proof.
  exact (confirm_is_idempotent (sample_request 1 "POST" [("USN1", "present")]) 1 sample_db
           (redirect "t_class_date" [1])
           (NoDup_nil_2 : NoDup (Attendance.id <$> Attendance_objects sample_db))
           (ex_intro _ 1 eq_refl) ltac:(vm_compute; reflexivity)).
Defined.

Lemma free_teachers_lists_witness :
  exists ft_list teachers_without_knowledge,
    response (free_teachers (sample_request 1 "GET" []) 1 sample_db)
    = Ok (render "free_teachers.html"
            (free_teachers_context ft_list 100 (AssignTime.mk 1 1 "8:30 - 9:30" "Monday")
               teachers_without_knowledge 3 (count ft_list)))
    /\ ft_list `sublist_of` Teacher_objects sample_db.
Proof.
  destruct (free_teachers_lists_every_free_teacher (sample_request 1 "GET" []) 1 sample_db
              (AssignTime.mk 1 1 "8:30 - 9:30" "Monday")
              (Assign.mk 1 10 100 1 "2024-2025" 1)
              (ex_intro _ 1 eq_refl) eq_refl ltac:(vm_compute; reflexivity))
    as (ft_list & tw_list & Hview & _ & _ & Hsub & _).
  exists ft_list, tw_list. split.
  - rewrite Hview. reflexivity.
  - exact Hsub.
Defined.

Lemma timetable_grid_witness :
  exists timetable,
    fill_timetable sample_db (AssignTime_objects sample_db)
      (empty_timetable sample_DAYS_OF_WEEK sample_TIME_SLOTS "Break" "Lunch")
    = Ok timetable
    /\ ~ is_Some (cell_at timetable "Sunday" "8:30 - 9:30").
Proof.
  eexists. split; [reflexivity|].
  intros Hcell.
  apply (proj1 (timetable_grid sample_DAYS_OF_WEEK sample_TIME_SLOTS "Break" "Lunch"
                  sample_db (AssignTime_objects sample_db) _ "Sunday" "8:30 - 9:30"
                  eq_refl)) in Hcell as [Hday _].
  vm_compute in Hday.
  repeat (apply elem_of_cons in Hday as [Hday|Hday]; [discriminate|]).
  inversion Hday.
Defined.

Lemma report_counters_witness :
  exists sc_list good_attendance_count good_cie_count need_support_count pass_rate,
    t_report 75 40 (fun _ _ => Ok 80%Q) (fun _ _ => Ok 30%Q)
      (sample_request 1 "GET" []) 1 sample_db
    = mkViewResult sample_db []
        (Ok (render "t_report.html"
               (t_report_context sc_list (Assign.mk 1 10 100 1 "2024-2025" 1)
                  good_attendance_count good_cie_count need_support_count pass_rate)))
    /\ 0 <= pass_rate <= 100.
Proof.
  destruct (report_counters 75 40 (fun _ _ => Ok 80%Q) (fun _ _ => Ok 30%Q)
              (sample_request 1 "GET" []) 1 sample_db
              (Assign.mk 1 10 100 1 "2024-2025" 1) (ex_intro _ 1 eq_refl) eq_refl)
    as (sc & ga & gc & ns & pr & Hview & _ & _ & _ & _ & _ & _ & _ & _ & Hrate & _).
  by exists sc, ga, gc, ns, pr.
Defined.

Lemma anonymous_requests_witness :
  handle sample_DAYS_OF_WEEK sample_TIME_SLOTS "Break" "Lunch" 75 40 5 2
    sample_int sample_strptime sample_order_by sample_page
    (fun _ _ => Ok 80%Q) (fun _ _ => Ok 30%Q) (fun _ _ asst => asst)
    (fun _ _ _ => Raise Http404)
    (call_confirm 1) (mkRequest None false false false "POST" ∅ ∅) sample_db
  = mkViewResult sample_db [] (Ok redirect_to_login).
Proof.
  apply anonymous_requests_go_to_login; [reflexivity | discriminate].
Defined.

Lemma unknown_id_witness :
  handle sample_DAYS_OF_WEEK sample_TIME_SLOTS "Break" "Lunch" 75 40 5 2
    sample_int sample_strptime sample_order_by sample_page
    (fun _ _ => Ok 80%Q) (fun _ _ => Ok 30%Q) (fun _ _ asst => asst)
    (fun _ _ _ => Raise Http404)
    (call_t_report 99) (sample_request 1 "GET" []) sample_db
  = raised sample_db Http404.
Proof.
  apply unknown_id_is_not_found; [by exists 1|].
  simpl. intros Hin.
  repeat (apply elem_of_cons in Hin as [Hin|Hin]; [discriminate|]).
  inversion Hin.
Defined.

Lemma other_teachers_witness :
  t_marks_list (sample_request 2 "POST" [("create_exam", "1"); ("exam_name", "Mid-2")])
    1 sample_db
  = mkViewResult sample_db [(error, no_permission_for_assignment)]
      (Ok (redirect "teacher_dashboard" [])).
Proof.
  exact (proj1 (other_teachers_are_refused 5 2 sample_order_by sample_page
                  (sample_request 2 "POST" [("create_exam", "1"); ("exam_name", "Mid-2")])
                  1 sample_db (Assign.mk 1 10 100 1 "2024-2025" 1)
                  (Teacher.mk 1 (Some 1) "A") 1
                  (ex_intro _ 2 eq_refl) eq_refl ltac:(vm_compute; reflexivity) eq_refl
                  ltac:(discriminate))).
Defined.

Lemma dashboard_witness :
  response (teacher_dashboard (sample_request 1 "GET" []) () sample_db)
  = Ok (render "t_homepage.html" (t_homepage_context (Teacher.mk 1 (Some 1) "A"))).
Proof.
  apply (proj2 (dashboard_needs_a_teacher_profile (sample_request 1 "GET" []) sample_db
                  (ex_intro _ 1 eq_refl))).
  split; [reflexivity|]. exists (Teacher.mk 1 (Some 1) "A").
  split; [vm_compute; reflexivity | done].
Defined.

Lemma class_date_confirmation_witness :
  t_class_date sample_int sample_strptime sample_order_by
    (sample_request 1 "POST"
       [("confirm_attendance", "1"); ("assc_id", "1"); ("USN1", "present")])
    1 sample_db
  = confirm
      (sample_request 1 "POST"
         [("confirm_attendance", "1"); ("assc_id", "1"); ("USN1", "present")])
      1 sample_db.
Proof.
  exact (class_date_confirmation_is_confirm sample_int sample_strptime sample_order_by
           (sample_request 1 "POST"
              [("confirm_attendance", "1"); ("assc_id", "1"); ("USN1", "present")])
           1 1 sample_db (Assign.mk 1 10 100 1 "2024-2025" 1)
           (AttendanceClass.mk 1 1 (mkdate 2024 1 10) 0) "1"
           (ex_intro _ 1 eq_refl) eq_refl eq_refl ltac:(vm_compute; reflexivity)
           ltac:(vm_compute; by eexists) ltac:(vm_compute; reflexivity)
           ltac:(vm_compute; reflexivity) eq_refl eq_refl).
Defined.

Lemma marks_list_figures_witness :
  exists m_list total_exams completed_exams pending_exams,
    t_marks_list (sample_request 1 "GET" []) 1 sample_db
    = mkViewResult sample_db []
        (Ok (render "t_marks_list.html"
               (t_marks_list_context (Assign.mk 1 10 100 1 "2024-2025" 1) m_list
                  total_exams completed_exams pending_exams)))
    /\ 0 <= pending_exams <= total_exams.
Proof.
  assert (Hget : method (sample_request 1 "GET" []) <> "POST"
                 \/ POST (sample_request 1 "GET" []) !! "create_exam" = None)
    by (left; discriminate).
  destruct (marks_list_figures (sample_request 1 "GET" []) 1 sample_db
              (Assign.mk 1 10 100 1 "2024-2025" 1)
              (ex_intro _ 1 eq_refl) eq_refl sample_owner_check Hget)
    as (m_list & total & completed & pending & Hview & _ & _ & _ & _ & Hpending).
  exists m_list, total, completed, pending. split; [exact Hview | exact Hpending].
Defined.

Lemma sample_dividends (ss : StudentSubject.t) :
  ss ∈ StudentSubject_objects sample_db ->
  Z.abs (cie_dividend 5 sample_order_by sample_db ss) <= 2 ^ 1023.
Proof.
  intros Hin. simpl in Hin.
  apply elem_of_cons in Hin as [->|Hin]; [vm_compute; discriminate|].
  apply list_elem_of_singleton in Hin as ->. vm_compute. discriminate.
Defined.

(** A mark of [2^1025]: the division of the CIE score raises
    [OverflowError], and [view_students] with it. *)
Lemma a_huge_mark_overflows :
  view_students 5 2 sample_order_by sample_page (sample_request 1 "GET" []) 1
    (set_Marks_objects [Marks.mk 1 1 "CIE-1" (2 ^ 1025)] sample_db)
  = raised (set_Marks_objects [Marks.mk 1 1 "CIE-1" (2 ^ 1025)] sample_db) OverflowError.
Proof. vm_compute. reflexivity. Qed.

Lemma view_students_rows_witness :
  exists students_data,
    view_students 5 2 sample_order_by sample_page (sample_request 1 "GET" []) 1 sample_db
    = mkViewResult sample_db []
        (Ok (render "t_view_students.html"
               (t_view_students_context (Assign.mk 1 10 100 1 "2024-2025" 1)
                  (sample_page StudentData 25 None students_data)
                  (count students_data))))
    /\ sd_student <$> students_data = Student_objects sample_db.
Proof.
  destruct (view_students_rows 5 2 sample_order_by sample_page
              (sample_request 1 "GET" []) 1 sample_db
              (Assign.mk 1 10 100 1 "2024-2025" 1)
              (ex_intro _ 1 eq_refl) eq_refl sample_owner_check ltac:(lia)
              (fun student => sample_enrollments_single student 100)
              sample_dividends)
    as (students_data & Hview & Hstudents & _).
  exists students_data. split; [exact Hview|].
  etrans; [exact Hstudents|]. vm_compute. reflexivity.
Defined.

Lemma confirmed_marks_witness :
  exists assignment exam_session students_total rows,
    edit_marks sample_order_by sample_page (sample_request 1 "GET" []) 1
      (database (marks_confirm sample_int
                   (sample_request 1 "POST" [("USN1", "18"); ("USN2", "20")])
                   1 sample_db))
    = mkViewResult
        (database (marks_confirm sample_int
                     (sample_request 1 "POST" [("USN1", "18"); ("USN2", "20")])
                     1 sample_db))
        []
        (Ok (render "t_marks_entry.html"
               (t_marks_entry_context assignment exam_session students_total rows true)))
    /\ ExamSession.status exam_session = true.
Proof.
  destruct (confirmed_marks_are_shown sample_int sample_order_by sample_page
              (sample_request 1 "POST" [("USN1", "18"); ("USN2", "20")])
              (sample_request 1 "GET" []) 1 sample_db (redirect "t_marks_list" [1])
              (fun row => eq_refl) (fun students student Hin => Hin)
              (fun per_page number students student Hin => Hin)
              (NoDup_nil_2 : NoDup (Marks.id <$> Marks_objects sample_db))
              ltac:(apply (bool_decide_unpack _); vm_compute; exact I)
              sample_enrollments_single
              (ex_intro _ 1 eq_refl) (ex_intro _ 1 eq_refl)
              ltac:(vm_compute; reflexivity))
    as (assignment & exam_session & total & rows & Hview & _ & Hstatus & _).
  by exists assignment, exam_session, total, rows.
Defined.

Lemma marks_writers_witness :
  exists marks_c_id, call_marks_confirm 1 = call_marks_confirm marks_c_id.
Proof.
  apply (proj1 (marks_and_attendance_writers sample_DAYS_OF_WEEK sample_TIME_SLOTS
                  "Break" "Lunch" 75 40 5 2
                  sample_int sample_strptime sample_order_by sample_page
                  (fun _ _ => Ok 80%Q) (fun _ _ => Ok 30%Q) (fun _ _ asst => asst)
                  (fun _ _ _ => Raise Http404)
                  (call_marks_confirm 1)
                  (sample_request 1 "POST" [("USN1", "18")]) sample_db)).
  vm_compute. discriminate.
Defined.
